(** * TTWallet: the session-backed command engine of the Tradetron automation

    A shallow embedding of [api_automation_TTGopiWallet.py] (and of the
    functions it shares with [api_automation_TTRamkiWallet.py]):
    [load_session], [toggle_strategy], [StatusHTMLParser],
    [fetch_status_from_html], [fetch_current_status],
    [fetch_wallet_running_count] and the part of [main] that runs once the
    configuration has been read.

    Python objects that come out of [response.json()] or [pickle.load] are
    values of [pyval]; the network, the clock, the console and the Telegram
    notifier are events of a trace; exceptions and [sys.exit] are results
    of a small monad. *)

From Stdlib Require Import ZArith List String Ascii Bool Lia.
From Stdlib Require Import DecimalString Permutation.
Import ListNotations.

Set Warnings "-register-all".

Local Open Scope string_scope.
Local Open Scope list_scope.
Local Open Scope Z_scope.

(** String concatenation, Python's [+] on str. *)
Infix "+++" := String.append (at level 60, right associativity).

(** ** Python values *)

Module Py.

(** What [json.loads] and [pickle.load] build.  A [dict] keeps insertion
    order, so it is an association list; a float is carried by the text
    Python's [str] gives it (["42.0"], ["1e+16"], ["nan"]), which is all the
    program ever looks at. *)
Inductive pyval : Type :=
| PyNone
| PyBool (b : bool)
| PyInt (z : Z)
| PyFloat (shown : string)
| PyStr (s : string)
| PyList (items : list pyval)
| PyDict (entries : list (string * pyval)).

(** [bool(v)]. *)
Definition truthy (v : pyval) : bool :=
  match v with
  | PyNone => false
  | PyBool b => b
  | PyInt z => negb (z =? 0)
  | PyFloat shown => negb (String.eqb shown "0.0" || String.eqb shown "-0.0")
  | PyStr s => negb (String.eqb s "")
  | PyList items => match items with [] => false | _ => true end
  | PyDict entries => match entries with [] => false | _ => true end
  end.

(** [key in d] and [d.get(key)] on a dict held as an association list. *)
Fixpoint dict_get (entries : list (string * pyval)) (key : string) : option pyval :=
  match entries with
  | [] => None
  | (k, v) :: rest => if String.eqb k key then Some v else dict_get rest key
  end.

Definition dict_has (entries : list (string * pyval)) (key : string) : bool :=
  match dict_get entries key with Some _ => true | None => false end.

(** [needle in haystack] on strings. *)
Fixpoint str_in (needle haystack : string) : bool :=
  String.prefix needle haystack ||
  match haystack with
  | EmptyString => false
  | String _ rest => str_in needle rest
  end.

(** [str.strip()]: the characters Python counts as white space, among the
    code points below 256. *)
Definition is_space (c : ascii) : bool :=
  let n := Z.of_nat (nat_of_ascii c) in
  ((9 <=? n) && (n <=? 13)) || ((28 <=? n) && (n <=? 32)) || (n =? 133) || (n =? 160).

Fixpoint lstrip (s : string) : string :=
  match s with
  | EmptyString => EmptyString
  | String c rest => if is_space c then lstrip rest else s
  end.

Fixpoint rstrip (s : string) : string :=
  match s with
  | EmptyString => EmptyString
  | String c rest =>
      match rstrip rest with
      | EmptyString => if is_space c then EmptyString else String c EmptyString
      | kept => String c kept
      end
  end.

Definition strip (s : string) : string := rstrip (lstrip s).

(** [str(z)] for an int. *)
Definition str_int (z : Z) : string := NilZero.string_of_int (Z.to_int z).

(** [repr(s)] for a str: single quotes unless the text has a single quote
    and no double quote; backslash, the chosen quote, newline, carriage
    return and tab are escaped, any other unprintable code point is written
    [\xNN]. *)
Definition hex_digit (n : nat) : ascii :=
  match n with
  | 0 => "0" | 1 => "1" | 2 => "2" | 3 => "3" | 4 => "4" | 5 => "5" | 6 => "6"
  | 7 => "7" | 8 => "8" | 9 => "9" | 10 => "a" | 11 => "b" | 12 => "c"
  | 13 => "d" | 14 => "e" | _ => "f"
  end%char%nat.

Definition printable (c : ascii) : bool :=
  let n := Z.of_nat (nat_of_ascii c) in
  ((32 <=? n) && (n <? 127)) || ((161 <=? n) && negb (n =? 173)).

Definition repr_char (quote c : ascii) : string :=
  if Ascii.eqb c "\" then "\\"
  else if Ascii.eqb c quote then String "\" (String c "")
  else if Ascii.eqb c "010" then "\n"
  else if Ascii.eqb c "013" then "\r"
  else if Ascii.eqb c "009" then "\t"
  else if printable c then String c ""
  else String "\" (String "x" (String (hex_digit (nat_of_ascii c / 16))
                               (String (hex_digit (nat_of_ascii c mod 16)) ""))).

Fixpoint repr_chars (quote : ascii) (s : string) : string :=
  match s with
  | EmptyString => EmptyString
  | String c rest => repr_char quote c +++ repr_chars quote rest
  end.

Definition dquote : ascii := "034"%char.

Definition repr_str (s : string) : string :=
  let quote := if str_in "'" s && negb (str_in (String dquote "") s) then dquote else "'"%char in
  String quote (repr_chars quote s +++ String quote "").

Definition join_comma (parts : list string) : string := String.concat ", " parts.

(** [repr(v)]. *)
Fixpoint repr (v : pyval) : string :=
  match v with
  | PyNone => "None"
  | PyBool true => "True"
  | PyBool false => "False"
  | PyInt z => str_int z
  | PyFloat shown => shown
  | PyStr s => repr_str s
  | PyList items => "[" +++ join_comma (map repr items) +++ "]"
  | PyDict entries =>
      "{" +++ join_comma (map (fun kv => repr_str (fst kv) +++ ": " +++ repr (snd kv)) entries) +++ "}"
  end.

(** [str(v)]: a str is itself, everything else is its [repr]. *)
Definition str (v : pyval) : string :=
  match v with
  | PyStr s => s
  | _ => repr v
  end.

End Py.

Import Py.

(** ** The outside world: requests, responses and the trace of effects *)

(** A [requests.Response], as far as the program reads it: [json] is what
    [response.json()] returns, [None] when it raises. *)
Record Response : Type := mkResponse {
  status_code : Z;
  text : string;
  json : option pyval
}.

(** [bool(response)] is [response.ok]: false exactly for 4xx and 5xx. *)
Definition ok (r : Response) : bool :=
  negb ((400 <=? status_code r) && (status_code r <? 600)).

(** A cookie of the session's jar: name, value, domain. *)
Record cookie : Type := mkCookie {
  cookie_name : pyval;
  cookie_value : pyval;
  cookie_domain : option pyval
}.

(** A [requests.Session]: the cookie jar filled by [load_session]. *)
Record session : Type := mkSession { cookies : list cookie }.

Inductive http_method : Type := GET | POST.

Record request : Type := mkRequest {
  req_method : http_method;
  req_url : string;
  req_headers : list (string * pyval);
  req_json : option pyval;
  req_cookies : list cookie
}.

(** What sending a request gives: a response, or a transport exception
    (no response at all). *)
Inductive outcome : Type :=
| ConnError
| Resp (r : Response).

Inductive exn : Type :=
| RequestException
| ValueError
| UnpicklingError
| TypeError
| AttributeError
| AssertionError
| KeyError (key : string).

(** One line of [error_details]. *)
Inductive detail : Type :=
| DJsonParseError (label : string)
| DCommandFailed (label : string) (iteration total : Z) (shown : option Z)
| DResponse (first200 : string)
| DCommandException (label : string) (iteration total : Z) (e : exn)
| DFinalStopFailed (shown : option Z).

(** Console lines. *)
Inductive console : Type :=
| PRequestException (attempt retries : Z)
| PCookiesRestored
| PDecodeFailed
| PNoCookies
| PValidationStatus (status : Z)
| PValidationException
| PProbeRequestFailed
| PProbeJsonFailed
| PWalletApiFailed
| PHtmlParsingFailed
| PLoadingSession
| PSessionLoaded
| PToggling (total delay : Z)
| PSendingStop (iteration total : Z)
| PSendingStart
| PDone (label : string) (status : Z)
| PJson (data : pyval)
| PFailed (shown : option Z)
| PResponseText (body : string)
| PFinalizing
| PFinalStopped (status : Z)
| PFinalStopFailed (shown : option Z)
| PAutomationFailed
| PAutomationCompleted (total : Z)
| PFetchingCount
| PRunningCount (count : Z)
| PCheckDashboard
| PCritical (e : exn).

(** Messages handed to [send_telegram_message]. *)
Inductive notice : Type :=
| NDecodeFailed
| NValidationStatus (status : Z)
| NValidationException
| NJsonParseError (label : string)
| NCommandFailed (label : string) (iteration total : Z) (shown : option Z)
| NCommandException (label : string) (iteration total : Z) (e : exn)
| NFailed (details : list detail)
| NSuccess (total : Z) (running : option Z)
| NCritical (e : exn).

Inductive event : Type :=
| EvHttp (q : request) (o : outcome)
| EvSleep (seconds : Z)
| EvPrint (line : console)
| EvTelegram (msg : notice)
| EvWriteFile (content : string).

Definition trace : Type := list event.

(** The exchanges, the sleeps and the notifications of a trace. *)
Definition exchanges (t : trace) : list (request * outcome) :=
  flat_map (fun e => match e with EvHttp q o => [(q, o)] | _ => [] end) t.

Definition sleeps (t : trace) : list Z :=
  flat_map (fun e => match e with EvSleep s => [s] | _ => [] end) t.

Definition requests (t : trace) : list request := map fst (exchanges t).

(** What [HTMLParser.feed] hands to the handlers: start tags with their
    attributes (a value is [None] for an attribute written without one), end
    tags and text. *)
Inductive html_event : Type :=
| StartTag (tag : string) (attrs : list (string * option string))
| EndTag (tag : string)
| Data (data : string).

(** Everything the program does not decide itself: the remote service and
    the network ([transport], which sees what happened so far); the cookie
    file and the [TT_COOKIES_B64_GOPI] variable; the library decoders
    ([base64.b64decode], [pickle.load], the tokenizer of [HTMLParser.feed],
    [re.search] with [IGNORECASE | DOTALL] giving group 1, [int] on a str
    and on a float), [None] where they raise or do not match; and the order
    in which this run of the interpreter iterates the two sets of keys of
    [fetch_current_status]. *)
Record world : Type := mkWorld {
  transport : trace -> request -> outcome;
  cookies_file : option string;
  env_cookies_b64 : option string;
  b64decode : string -> option string;
  pickle_load : string -> option pyval;
  html_tokens : string -> option (list html_event);
  re_search : string -> string -> option string;
  int_of_text : string -> option Z;
  int_of_float : string -> option Z;
  id_keys_order : list string;
  status_keys_order : list string
}.

(** ** A monad for effects, exceptions and [sys.exit] *)

Inductive res (A : Type) : Type :=
| Ret (a : A)
| Raise (e : exn)
| Exit (code : Z).

Arguments Ret {A} a.
Arguments Raise {A} e.
Arguments Exit {A} code.

(** A computation reads the history and returns its result with the events
    it added. *)
Definition M (A : Type) : Type := trace -> res A * trace.

Definition ret {A} (a : A) : M A := fun _ => (Ret a, []).

Definition bind {A B} (m : M A) (f : A -> M B) : M B :=
  fun h =>
    match m h with
    | (Ret a, t1) => let '(r, t2) := f a (h ++ t1) in (r, t1 ++ t2)
    | (Raise e, t1) => (Raise e, t1)
    | (Exit c, t1) => (Exit c, t1)
    end.

Definition raise {A} (e : exn) : M A := fun _ => (Raise e, []).

Definition sys_exit {A} (code : Z) : M A := fun _ => (Exit code, []).

(** [try: m  except Exception as e: handler e].  [SystemExit] is not an
    [Exception] and passes through. *)
Definition try_except {A} (m : M A) (handler : exn -> M A) : M A :=
  fun h =>
    match m h with
    | (Raise e, t1) => let '(r, t2) := handler e (h ++ t1) in (r, t1 ++ t2)
    | other => other
    end.

Definition emit (e : event) : M unit := fun _ => (Ret tt, [e]).

Declare Scope py_scope.
Delimit Scope py_scope with py.
Notation "x <- m ;; k" := (bind m (fun x => k))
  (at level 61, m at next level, right associativity) : py_scope.
Notation "' pat <- m ;; k" := (bind m (fun x => match x with pat => k end))
  (at level 61, pat pattern, m at next level, right associativity) : py_scope.
Notation "m ;; k" := (bind m (fun _ => k))
  (at level 61, right associativity) : py_scope.
Local Open Scope py_scope.

Definition print (line : console) : M unit := emit (EvPrint line).

Definition send_telegram_message (msg : notice) : M unit := emit (EvTelegram msg).

(** [time.sleep(seconds)] raises [ValueError] on a negative length. *)
Definition sleep (seconds : Z) : M unit :=
  if seconds <? 0 then raise ValueError else emit (EvSleep seconds).

(** ** The program *)

Section Program.

Variable w : world.

(** [session.post] / [session.get]: the exchange is recorded, a transport
    failure is an exception. *)
Definition send (q : request) : M Response :=
  fun h =>
    match transport w h q with
    | ConnError => (Raise RequestException, [EvHttp q ConnError])
    | Resp r => (Ret r, [EvHttp q (Resp r)])
    end.

Definition session_post (s : session) (url : string) (body : pyval)
    (headers : list (string * pyval)) : M Response :=
  send (mkRequest POST url headers (Some body) (cookies s)).

Definition session_get (s : session) (url : string)
    (headers : list (string * pyval)) : M Response :=
  send (mkRequest GET url headers None (cookies s)).

(** *** [toggle_strategy] *)

Definition toggle_url : string := "https://tradetron.tech/api/deployed/status".

Definition toggle_payload (strategy_id : pyval) (status : string) : pyval :=
  PyDict [("status", PyStr status); ("id", strategy_id)].

Definition toggle_headers : list (string * pyval) :=
  [("Content-Type", PyStr "application/json"); ("Accept", PyStr "application/json")].

Definition toggle_request (s : session) (strategy_id : pyval) (status : string) : request :=
  mkRequest POST toggle_url toggle_headers (Some (toggle_payload strategy_id status)) (cookies s).

(** The body of [for attempt in range(1, retries + 1)], [left] iterations
    from [attempt] on. *)
Fixpoint toggle_attempts (s : session) (strategy_id : pyval) (status : string)
    (retries backoff_seconds : Z) (left : nat) (attempt : Z)
    (last_response : option Response) : M (option Response) :=
  match left with
  | O => ret last_response
  | S left' =>
      response <- try_except
                    (r <- session_post s toggle_url (toggle_payload strategy_id status)
                                       toggle_headers ;;
                     ret (Some r))
                    (fun _ => print (PRequestException attempt retries) ;; ret None) ;;
      match response with
      | None =>
          if attempt <? retries then
            sleep (backoff_seconds * attempt) ;;
            toggle_attempts s strategy_id status retries backoff_seconds left'
                            (attempt + 1) last_response
          else ret None
      | Some r =>
          if status_code r <? 500 then ret (Some r)
          else
            (if attempt <? retries then sleep (backoff_seconds * attempt) else ret tt) ;;
            toggle_attempts s strategy_id status retries backoff_seconds left'
                            (attempt + 1) (Some r)
      end
  end.

Definition toggle_strategy (s : session) (strategy_id : pyval) (status : string)
    (retries backoff_seconds : Z) : M (option Response) :=
  toggle_attempts s strategy_id status retries backoff_seconds (Z.to_nat retries) 1 None.

(** *** [load_session] *)

Definition validation_url : string := "https://tradetron.tech/api/pricing/user-taxes".

Definition dashboard_url : string := "https://tradetron.tech/user/dashboard".

(** [for cookie in cookies]: a list gives its items, a dict its keys, a str
    its characters; anything else is not iterable. *)
Fixpoint chars (s : string) : list pyval :=
  match s with
  | EmptyString => []
  | String c rest => PyStr (String c "") :: chars rest
  end.

Definition iterate (v : pyval) : M (list pyval) :=
  match v with
  | PyList items => ret items
  | PyDict entries => ret (map (fun kv => PyStr (fst kv)) entries)
  | PyStr s => ret (chars s)
  | _ => raise TypeError
  end.

(** [cookie[key]] with a str key. *)
Definition subscript (v : pyval) (key : string) : M pyval :=
  match v with
  | PyDict entries =>
      match dict_get entries key with
      | Some x => ret x
      | None => raise (KeyError key)
      end
  | _ => raise TypeError
  end.

(** [cookie.get(key)]. *)
Definition get_method (v : pyval) (key : string) : M (option pyval) :=
  match v with
  | PyDict entries => ret (dict_get entries key)
  | _ => raise AttributeError
  end.

(** [session.cookies.set(name, value, domain=domain)], the jar kept in the
    order of the calls, and [session.cookies.get(name)], which takes the
    latest entry of the name.  The jar of the library is stricter: [set]
    raises for a domain that is no [str], removes the cookies of the name
    for the value [None] and replaces the cookie of the same domain and
    name; [get] raises when the name is held more than once.  Where the
    library raises, the model goes on with the jar as written; it is exact
    for the records described by [plain_jar] and for the jars described by
    [unambiguous]. *)
Fixpoint set_cookies (items : list pyval) (jar : list cookie) : M (list cookie) :=
  match items with
  | [] => ret jar
  | c :: rest =>
      name <- subscript c "name" ;;
      value <- subscript c "value" ;;
      domain <- get_method c "domain" ;;
      set_cookies rest (jar ++ [mkCookie name value domain])
  end.

Fixpoint jar_get (jar : list cookie) (name : string) : pyval :=
  match jar with
  | [] => PyNone
  | c :: rest =>
      match jar_get rest name with
      | PyNone =>
          match cookie_name c with
          | PyStr n => if String.eqb n name then cookie_value c else PyNone
          | _ => PyNone
          end
      | found => found
      end
  end.

Definition xsrf_token (s : session) : pyval :=
  let first := jar_get (cookies s) "XSRF-TOKEN" in
  if truthy first then first else jar_get (cookies s) "X-XSRF-TOKEN".

(** The headers of every authenticated JSON request. *)
Definition base_headers (s : session) : list (string * pyval) :=
  [("Accept", PyStr "application/json");
   ("Referer", PyStr dashboard_url);
   ("X-Requested-With", PyStr "XMLHttpRequest")]
  ++ (if truthy (xsrf_token s)
      then [("X-XSRF-TOKEN", xsrf_token s); ("X-CSRF-TOKEN", xsrf_token s)]
      else []).

(** Lines 70-105: from the bytes of the cookie file to a validated session. *)
Definition session_from_file (content : string) : M (option session) :=
  cookies <- match pickle_load w content with
             | Some obj => ret obj
             | None => raise UnpicklingError
             end ;;
  items <- iterate cookies ;;
  jar <- set_cookies items [] ;;
  let s := mkSession jar in
  valid <- try_except
             (test <- session_get s validation_url (base_headers s) ;;
              if negb (status_code test =? 200) then
                print (PValidationStatus (status_code test)) ;;
                send_telegram_message (NValidationStatus (status_code test)) ;;
                ret false
              else ret true)
             (fun _ =>
                print PValidationException ;;
                send_telegram_message NValidationException ;;
                ret false) ;;
  if valid then ret (Some s) else ret None.

Definition load_session : M (option session) :=
  match cookies_file w with
  | Some content => session_from_file content
  | None =>
      match env_cookies_b64 w with
      | Some encoded =>
          if String.eqb encoded "" then print PNoCookies ;; ret None
          else
            match b64decode w encoded with
            | Some content =>
                emit (EvWriteFile content) ;;
                print PCookiesRestored ;;
                session_from_file content
            | None =>
                print PDecodeFailed ;;
                send_telegram_message NDecodeFailed ;;
                ret None
            end
      | None => print PNoCookies ;; ret None
      end
  end.

End Program.

(** *** [StatusHTMLParser] *)

Module StatusHTMLParser.

Record t : Type := mk {
  strategy_id : string;
  in_target : bool;
  target_depth : Z;
  awaiting_status_span : bool;
  capture_status : bool;
  status : string
}.

Definition init (sid : pyval) : t := mk (Py.str sid) false 0 false false "".

(** [dict(attrs).get("id", "")]: the last ["id"] attribute wins. *)
Fixpoint attrs_get (attrs : list (string * option string)) (key : string)
    : option (option string) :=
  match attrs with
  | [] => None
  | (k, v) :: rest =>
      match attrs_get rest key with
      | Some later => Some later
      | None => if String.eqb k key then Some v else None
      end
  end.

Definition element_id (attrs : list (string * option string)) : string :=
  match attrs_get attrs "id" with
  | Some (Some v) => v
  | Some None => ""
  | None => ""
  end.

Definition nonempty (s : string) : bool := negb (String.eqb s "").

Definition handle_starttag (p : t) (tag : string) (attrs : list (string * option string)) : t :=
  if String.eqb tag "div"
     && nonempty (element_id attrs)
     && str_in (strategy_id p) (element_id attrs)
     && negb (in_target p)
  then mk (strategy_id p) true 1 (awaiting_status_span p) (capture_status p) (status p)
  else if in_target p then
    mk (strategy_id p) true (target_depth p + 1) (awaiting_status_span p)
       (if String.eqb tag "span" && awaiting_status_span p && negb (nonempty (status p))
        then true else capture_status p)
       (status p)
  else p.

Definition handle_endtag (p : t) (tag : string) : t :=
  if in_target p then
    let depth := target_depth p - 1 in
    let closing := capture_status p && String.eqb tag "span" in
    let capture := if closing then false else capture_status p in
    let awaiting := if closing then false else awaiting_status_span p in
    if depth <=? 0
    then mk (strategy_id p) false 0 awaiting capture (status p)
    else mk (strategy_id p) true depth awaiting capture (status p)
  else p.

Definition handle_data (p : t) (data : string) : t :=
  if negb (in_target p) then p
  else
    let text := Py.strip data in
    if negb (nonempty text) then p
    else if str_in "Status" text then
      mk (strategy_id p) (in_target p) (target_depth p) true (capture_status p) (status p)
    else if capture_status p && negb (nonempty (status p)) then
      mk (strategy_id p) (in_target p) (target_depth p) (awaiting_status_span p)
         (capture_status p) text
    else p.

Definition handle (p : t) (e : html_event) : t :=
  match e with
  | StartTag tag attrs => handle_starttag p tag attrs
  | EndTag tag => handle_endtag p tag
  | Data data => handle_data p data
  end.

(** [parser.feed(text)], on the tokens of the text. *)
Definition feed (p : t) (tokens : list html_event) : t := fold_left handle tokens p.

End StatusHTMLParser.

Section Resolver.

Variable w : world.

(** *** [fetch_status_from_html] *)

Definition html_headers : list (string * pyval) :=
  [("Accept", PyStr "text/html");
   ("Referer", PyStr dashboard_url);
   ("User-Agent", PyStr "Mozilla/5.0")].

(** Neither the request nor [parser.feed] is guarded: a transport exception
    and an exception of the tokenizer both leave the function. *)
Definition fetch_status_from_html (s : session) (strategy_id : pyval)
    : M (string * Response) :=
  response <- session_get w s dashboard_url html_headers ;;
  if negb (status_code response =? 200) then ret ("", response)
  else
    let parser := StatusHTMLParser.init strategy_id in
    match html_tokens w (text response) with
    | Some tokens =>
        let parser := StatusHTMLParser.feed parser tokens in
        ret (StatusHTMLParser.status parser, response)
    | None => raise AssertionError
    end.

(** *** [fetch_current_status] *)

Definition empty_filters : pyval :=
  PyDict [("exchange", PyList []); ("creator_id", PyList []); ("execution", PyList []);
          ("status", PyList []); ("broker_id", PyList []); ("statuses", PyList [])].

Definition probes (s : session) (strategy_id : pyval) : list request :=
  [ mkRequest POST "https://tradetron.tech/api/user/filter/dashboard"
      (base_headers s ++ [("Content-Type", PyStr "application/json")])
      (Some empty_filters) (cookies s);
    mkRequest GET ("https://tradetron.tech/api/deployed/status?id=" +++ Py.str strategy_id)
      (base_headers s) None (cookies s);
    mkRequest GET ("https://tradetron.tech/api/deployed/details?id=" +++ Py.str strategy_id)
      (base_headers s) None (cookies s) ].

(** [for probe in probes], with the two variables the loop leaves behind:
    [data] ([None] while nothing was decoded) and [response]. *)
Fixpoint probe_loop (todo : list request) (data : option pyval)
    (response : option Response) : M (option pyval * option Response) :=
  match todo with
  | [] => ret (data, response)
  | probe :: rest =>
      sent <- try_except (r <- send w probe ;; ret (Some r))
                         (fun _ => print PProbeRequestFailed ;; ret None) ;;
      match sent with
      | None => probe_loop rest data response
      | Some r =>
          if negb (status_code r =? 200) then probe_loop rest data (Some r)
          else
            match json r with
            | None => print PProbeJsonFailed ;; probe_loop rest data (Some r)
            | Some d =>
                if truthy d then ret (Some d, Some r)
                else probe_loop rest (Some d) (Some r)
            end
      end
  end.

Definition id_keys : list string :=
  ["id"; "deployment_id"; "deployed_id"; "strategy_id"; "tradetron_id";
   "deployed_strategy_id"; "deploy_id"; "deploymentId"; "deployedStrategyId";
   "strategy_deploy_id"].

Definition status_keys : list string :=
  ["status"; "execution_status"; "executionStatus"; "execution_status_name"; "state";
   "live_status"; "current_status"; "status_label"; "statusText"; "execution"].

Definition inner_keys : list string := ["status"; "label"; "name"; "text"].

(** [for inner_key in (...): if inner_key in value: return str(value.get(inner_key))]. *)
Fixpoint scan_inner_keys (keys : list string) (value : list (string * pyval)) : option string :=
  match keys with
  | [] => None
  | inner_key :: rest =>
      match dict_get value inner_key with
      | Some x => Some (Py.str x)
      | None => scan_inner_keys rest value
      end
  end.

(** [for s_key in status_keys: if s_key in node: ... return ...]. *)
Fixpoint scan_status_keys (keys : list string) (node : list (string * pyval)) : option string :=
  match keys with
  | [] => None
  | s_key :: rest =>
      match dict_get node s_key with
      | Some value =>
          match value with
          | PyDict inner =>
              match scan_inner_keys inner_keys inner with
              | Some label => Some label
              | None => Some (Py.str value)
              end
          | _ => Some (Py.str value)
          end
      | None => scan_status_keys rest node
      end
  end.

(** [for key in id_keys: if key in node and str(node.get(key)) == str(strategy_id): ...]. *)
Fixpoint scan_id_keys (strategy_id : pyval) (keys : list string)
    (node : list (string * pyval)) : option string :=
  match keys with
  | [] => None
  | key :: rest =>
      match dict_get node key with
      | Some found =>
          if String.eqb (Py.str found) (Py.str strategy_id) then
            match scan_status_keys (status_keys_order w) node with
            | Some result => Some result
            | None => scan_id_keys strategy_id rest node
            end
          else scan_id_keys strategy_id rest node
      | None => scan_id_keys strategy_id rest node
      end
  end.

Fixpoint find_status (strategy_id : pyval) (node : pyval) : string :=
  match node with
  | PyDict entries =>
      match scan_id_keys strategy_id (id_keys_order w) entries with
      | Some result => result
      | None =>
          (fix values (l : list (string * pyval)) : string :=
             match l with
             | [] => ""
             | (_, value) :: rest =>
                 let result := find_status strategy_id value in
                 if StatusHTMLParser.nonempty result then result else values rest
             end) entries
      end
  | PyList items =>
      (fix each (l : list pyval) : string :=
         match l with
         | [] => ""
         | item :: rest =>
             let result := find_status strategy_id item in
             if StatusHTMLParser.nonempty result then result else each rest
         end) items
  | _ => ""
  end.

Definition falsy (data : option pyval) : bool :=
  match data with
  | None => true
  | Some d => negb (truthy d)
  end.

Definition fetch_current_status (s : session) (strategy_id : pyval)
    : M (string * option Response) :=
  '(data, response) <- probe_loop (probes s strategy_id) None None ;;
  match data with
  | Some d =>
      if truthy d then ret (find_status strategy_id d, response)
      else
        '(html_status, html_response) <- fetch_status_from_html s strategy_id ;;
        if StatusHTMLParser.nonempty html_status then ret (html_status, Some html_response)
        else ret ("", response)
  | None =>
      '(html_status, html_response) <- fetch_status_from_html s strategy_id ;;
      if StatusHTMLParser.nonempty html_status then ret (html_status, Some html_response)
      else ret ("", response)
  end.

End Resolver.

Section Orchestrator.

Variable w : world.

(** *** [fetch_wallet_running_count] *)

(** [int(v)]. *)
Definition py_int (v : pyval) : M Z :=
  match v with
  | PyInt z => ret z
  | PyBool b => ret (if b then 1 else 0)
  | PyStr s => match int_of_text w s with Some z => ret z | None => raise ValueError end
  | PyFloat shown => match int_of_float w shown with Some z => ret z | None => raise ValueError end
  | _ => raise TypeError
  end.

(** [d.get(key, {})] on whatever [d] is. *)
Definition get_or_empty (d : pyval) (key : string) : M pyval :=
  found <- get_method d key ;;
  match found with
  | Some x => ret x
  | None => ret (PyDict [])
  end.

Definition running_patterns : list string :=
  [">Running</span>\s*(?:==\s*\$0)?\s*<[^>]*>[\s-]*(\d+)</[^>]*>";
   ">Running<[^>]*>\s*(?:==\s*\$0)?\s*[\s-]*(\d+)";
   "Running[" +++ String dquote "\']?\s*[:\-]?\s*(\d+)";
   "wallet.*?running.*?(\d+)"].

(** [for pattern in patterns: match = re.search(...); if match: return int(match.group(1))]. *)
Fixpoint scan_patterns (patterns : list string) (html : string) : M (option Z) :=
  match patterns with
  | [] => ret None
  | pattern :: rest =>
      match re_search w pattern html with
      | Some group1 =>
          match int_of_text w group1 with
          | Some z => ret (Some z)
          | None => raise ValueError
          end
      | None => scan_patterns rest html
      end
  end.

(** Each [try] block gives [Some n] when it reaches a [return n] and [None]
    when control runs off its end or into its [except]. *)
Definition fetch_wallet_running_count (s : session) : M (option Z) :=
  primary <- try_except
               (response <- session_get w s validation_url (base_headers s) ;;
                if status_code response =? 200 then
                  data <- match json response with
                          | Some d => ret d
                          | None => raise ValueError
                          end ;;
                  inner <- get_or_empty data "data" ;;
                  balances <- get_or_empty inner "balances" ;;
                  match balances with
                  | PyDict entries =>
                      match dict_get entries "running" with
                      | Some running => n <- py_int running ;; ret (Some n)
                      | None => ret None
                      end
                  | _ => ret None
                  end
                else ret None)
               (fun _ => print PWalletApiFailed ;; ret None) ;;
  match primary with
  | Some n => ret (Some n)
  | None =>
      fallback <- try_except
                    (response <- session_get w s dashboard_url [("Accept", PyStr "text/html")] ;;
                     if status_code response =? 200
                     then scan_patterns running_patterns (text response)
                     else ret None)
                    (fun _ => print PHtmlParsingFailed ;; ret None) ;;
      match fallback with
      | Some n => ret (Some n)
      | None => ret None
      end
  end.

(** *** [main], from the loading of the session on *)

(** The two variables the toggle loop updates. *)
Record progress : Type := mkProgress {
  had_failure : bool;
  error_details : list detail
}.

(** [response.status_code if response else "no response"]. *)
Definition shown_status (response : option Response) : option Z :=
  match response with
  | Some r => if ok r then Some (status_code r) else None
  | None => None
  end.

(** [response and response.status_code == 200]. *)
Definition succeeded (response : option Response) : bool :=
  match response with
  | Some r => ok r && (status_code r =? 200)
  | None => false
  end.

(** The lines [error_details] gets when a command fails. *)
Definition failure_lines (first : detail) (response : option Response) : list detail :=
  first :: match response with
           | Some r => [DResponse (String.substring 0 200 (text r))]
           | None => []
           end.

Definition print_body (response : option Response) : M unit :=
  match response with
  | Some r => print (PResponseText (text r))
  | None => ret tt
  end.

(** One [try] block of the loop: the command named [label] sends [status].
    The boolean tells whether the block ended in [break]. *)
Definition command (s : session) (STRATEGY_ID : Z) (label status : string)
    (i NUM_TOGGLES : Z) (p : progress) : M (progress * bool) :=
  try_except
    (response <- toggle_strategy w s (PyInt STRATEGY_ID) status 3 3 ;;
     if succeeded response then
       print (PDone label 200) ;;
       match response with
       | Some (mkResponse _ _ (Some data)) => print (PJson data) ;; ret (p, false)
       | _ =>
           send_telegram_message (NJsonParseError label) ;;
           ret (mkProgress (had_failure p) (error_details p ++ [DJsonParseError label]), false)
       end
     else
       let status_code := shown_status response in
       print (PFailed status_code) ;;
       print_body response ;;
       send_telegram_message (NCommandFailed label (i + 1) NUM_TOGGLES status_code) ;;
       ret (mkProgress true
              (error_details p
               ++ failure_lines (DCommandFailed label (i + 1) NUM_TOGGLES status_code) response),
            true))
    (fun e =>
       send_telegram_message (NCommandException label (i + 1) NUM_TOGGLES e) ;;
       ret (mkProgress true
              (error_details p ++ [DCommandException label (i + 1) NUM_TOGGLES e]),
            true)).

(** [for i in range(NUM_TOGGLES)], [left] iterations from [i] on. *)
Fixpoint toggle_cycles (s : session) (STRATEGY_ID NUM_TOGGLES DELAY_SECONDS : Z)
    (left : nat) (i : Z) (p : progress) : M progress :=
  match left with
  | O => ret p
  | S left' =>
      print (PSendingStop (i + 1) NUM_TOGGLES) ;;
      '(p, stop) <- command s STRATEGY_ID "STOP" "Paused" i NUM_TOGGLES p ;;
      if stop : bool then ret p
      else
        sleep DELAY_SECONDS ;;
        print PSendingStart ;;
        '(p, stop) <- command s STRATEGY_ID "START" "Start" i NUM_TOGGLES p ;;
        if stop : bool then ret p
        else
          (if i <? NUM_TOGGLES - 1 then sleep DELAY_SECONDS else ret tt) ;;
          toggle_cycles s STRATEGY_ID NUM_TOGGLES DELAY_SECONDS left' (i + 1) p
  end.

(** Lines 513-532: the closing command. *)
Definition finalize (s : session) (STRATEGY_ID : Z) (p : progress) : M progress :=
  print PFinalizing ;;
  response <- toggle_strategy w s (PyInt STRATEGY_ID) "Paused" 3 3 ;;
  if succeeded response then
    print (PFinalStopped 200) ;;
    match response with
    | Some (mkResponse _ _ (Some data)) => print (PJson data) ;; ret p
    | _ => ret p
    end
  else
    let status_code := shown_status response in
    print (PFinalStopFailed status_code) ;;
    print_body response ;;
    ret (mkProgress true
           (error_details p ++ failure_lines (DFinalStopFailed status_code) response)).

(** Lines 534-571: the report. *)
Definition report (s : session) (NUM_TOGGLES : Z) (p : progress) : M unit :=
  if had_failure p then
    print PAutomationFailed ;;
    send_telegram_message (NFailed (error_details p)) ;;
    sys_exit 1
  else
    print (PAutomationCompleted NUM_TOGGLES) ;;
    print PFetchingCount ;;
    running_count <- fetch_wallet_running_count s ;;
    match running_count with
    | Some n => print (PRunningCount n)
    | None => print PCheckDashboard
    end ;;
    send_telegram_message (NSuccess NUM_TOGGLES running_count).

(** Lines 441-571, with a session. *)
Definition toggle_run (s : session) (STRATEGY_ID NUM_TOGGLES DELAY_SECONDS : Z) : M unit :=
  p <- toggle_cycles s STRATEGY_ID NUM_TOGGLES DELAY_SECONDS
                     (Z.to_nat NUM_TOGGLES) 0 (mkProgress false []) ;;
  p <- finalize s STRATEGY_ID p ;;
  report s NUM_TOGGLES p.

(** Lines 427-571. *)
Definition main (STRATEGY_ID NUM_TOGGLES DELAY_SECONDS : Z) : M unit :=
  print PLoadingSession ;;
  loaded <- load_session w ;;
  match loaded with
  | None => sys_exit 1
  | Some s =>
      print PSessionLoaded ;;
      print (PToggling NUM_TOGGLES DELAY_SECONDS) ;;
      toggle_run s STRATEGY_ID NUM_TOGGLES DELAY_SECONDS
  end.

(** The [if __name__ == "__main__"] block. *)
Definition dunder_main (STRATEGY_ID NUM_TOGGLES DELAY_SECONDS : Z) : M unit :=
  try_except (main STRATEGY_ID NUM_TOGGLES DELAY_SECONDS)
             (fun e =>
                print (PCritical e) ;;
                send_telegram_message (NCritical e) ;;
                sys_exit 1).

End Orchestrator.

(** ** Worlds to run the program in *)

(** A transport that plays a script: the n-th request of the run gets the
    n-th outcome, and a transport exception once the script is over. *)
Definition scripted (script : list outcome) : trace -> request -> outcome :=
  fun h _ => List.nth (List.length (exchanges h)) script ConnError.

(** A world with that transport, a cookie file that unpickles to [jar] and
    library functions that tokenize every page to [tokens] and match no
    pattern; the sets are iterated in the order they are written in. *)
Definition scripted_world (script : list outcome) (jar : pyval)
    (tokens : list html_event) : world :=
  mkWorld (scripted script) (Some "cookies") None (fun _ => None) (fun _ => Some jar)
          (fun _ => Some tokens) (fun _ _ => None) (fun _ => None) (fun _ => None)
          id_keys status_keys.

Definition plain (status : Z) : Response :=
  mkResponse status "{}" (Some (PyDict [("success", PyBool true)])).

Definition garbled (status : Z) : Response := mkResponse status "<html>" None.

Definition nobody : session := mkSession [].

(** ** The shape of one call of [toggle_strategy]

    [attempts q retries backoff attempt last result t]: what the loop
    returns and the events it adds from attempt number [attempt] on, when
    [last_response] holds [last]. *)
Inductive attempts (q : request) (retries backoff : Z)
    : Z -> option Response -> res (option Response) -> trace -> Prop :=
| attempts_none attempt last :
    retries < attempt ->
    attempts q retries backoff attempt last (Ret last) []
| attempts_exception_retry attempt last result t :
    attempt < retries ->
    attempts q retries backoff (attempt + 1) last result t ->
    attempts q retries backoff attempt last result
      (EvHttp q ConnError :: EvPrint (PRequestException attempt retries)
       :: EvSleep (backoff * attempt) :: t)
| attempts_exception_last attempt last :
    attempt = retries ->
    attempts q retries backoff attempt last (Ret None)
      [EvHttp q ConnError; EvPrint (PRequestException attempt retries)]
| attempts_terminal attempt last r :
    attempt <= retries ->
    status_code r < 500 ->
    attempts q retries backoff attempt last (Ret (Some r)) [EvHttp q (Resp r)]
| attempts_overload_retry attempt last r result t :
    500 <= status_code r ->
    attempt < retries ->
    attempts q retries backoff (attempt + 1) (Some r) result t ->
    attempts q retries backoff attempt last result
      (EvHttp q (Resp r) :: EvSleep (backoff * attempt) :: t)
| attempts_overload_last attempt last r :
    500 <= status_code r ->
    attempt = retries ->
    attempts q retries backoff attempt last (Ret (Some r)) [EvHttp q (Resp r)].

(** The backoff sleeps of a call that sends [n] requests, the first being
    attempt number [attempt]. *)
Definition backoffs (backoff attempt : Z) (n : nat) : list Z :=
  map (fun k => backoff * (attempt + Z.of_nat k)) (seq 0 (n - 1)).

(** The response of the last exchange, when it brought one. *)
Definition final_response (ex : list (request * outcome)) : option Response :=
  match last (map snd ex) ConnError with
  | Resp r => Some r
  | ConnError => None
  end.

Definition overloaded (o : outcome) : Prop :=
  exists r, o = Resp r /\ 500 <= status_code r.

(** ** Reading a trace of the orchestrator *)

(** The events a call of [toggle_strategy] can add. *)
Definition toggle_event (q : request) (e : event) : Prop :=
  match e with
  | EvHttp q' _ => q' = q
  | EvSleep _ => True
  | EvPrint (PRequestException _ _) => True
  | _ => False
  end.

(** Events that are no part of a command: no request, no sleep, no
    announcement of a command of the loop or of the closing one, no
    announcement of the lookup. *)
Definition quiet (e : event) : Prop :=
  match e with
  | EvHttp _ _ => False
  | EvSleep _ => False
  | EvPrint (PSendingStop _ _) => False
  | EvPrint PSendingStart => False
  | EvPrint PFinalizing => False
  | EvPrint PFetchingCount => False
  | _ => True
  end.

(** Events of the loop while no step has failed: the requests are POSTs,
    and there is no failure line, no closing line, no lookup. *)
Definition calm (e : event) : Prop :=
  match e with
  | EvHttp q _ => req_method q = POST
  | EvPrint (PFailed _) => False
  | EvPrint PFinalizing => False
  | EvPrint PFetchingCount => False
  | _ => True
  end.

(** Events that are no part of the lookup. *)
Definition no_lookup (e : event) : Prop :=
  match e with
  | EvHttp q _ => req_method q = POST
  | EvPrint PFetchingCount => False
  | _ => True
  end.

(** The loop reports a failed step by the line [PFailed]. *)
Definition failure_line (e : event) : Prop :=
  match e with
  | EvPrint (PFailed _) => True
  | _ => False
  end.

Definition closing_line (e : event) : Prop := e = EvPrint PFinalizing.

(** What [command] does once [toggle_strategy] has returned [response]:
    the new progress, whether the loop breaks, and the events added. *)
Definition after_command (label : string) (i NUM_TOGGLES : Z) (p : progress)
    (response : option Response) : (progress * bool) * trace :=
  if succeeded response then
    match response with
    | Some (mkResponse _ _ (Some data)) =>
        ((p, false), [EvPrint (PDone label 200); EvPrint (PJson data)])
    | _ =>
        ((mkProgress (had_failure p) (error_details p ++ [DJsonParseError label]), false),
         [EvPrint (PDone label 200); EvTelegram (NJsonParseError label)])
    end
  else
    ((mkProgress true
        (error_details p
         ++ failure_lines (DCommandFailed label (i + 1) NUM_TOGGLES (shown_status response))
                          response),
      true),
     EvPrint (PFailed (shown_status response))
     :: match response with
        | Some r => [EvPrint (PResponseText (text r))]
        | None => []
        end
     ++ [EvTelegram (NCommandFailed label (i + 1) NUM_TOGGLES (shown_status response))]).

(** One command of the loop as it ran: the status that was sent and what
    [toggle_strategy] returned for it. *)
Record step : Type := mkStep { sent : string; answer : option Response }.

(** A command succeeded when [main] takes its response for a success. *)
Definition step_ok (st : step) : bool := succeeded (answer st).

(** Events that are no request. *)
Definition idle (e : event) : Prop :=
  match e with
  | EvHttp _ _ => False
  | _ => True
  end.

(** [loop_steps w s id h steps t]: from the history [h] on, the events [t]
    are those of the calls of [toggle_strategy] listed in [steps], one call
    per step and in this order, each made at the history reached by then and
    returning the answer of the step; before, between and after the calls
    there are only events that are no request. *)
Inductive loop_steps (w : world) (s : session) (STRATEGY_ID : Z)
    : trace -> list step -> trace -> Prop :=
| loop_idle h t :
    Forall idle t ->
    loop_steps w s STRATEGY_ID h [] t
| loop_call h before status response call rest steps :
    Forall idle before ->
    toggle_strategy w s (PyInt STRATEGY_ID) status 3 3 (h ++ before) = (Ret response, call) ->
    loop_steps w s STRATEGY_ID ((h ++ before) ++ call) steps rest ->
    loop_steps w s STRATEGY_ID h (mkStep status response :: steps) (before ++ call ++ rest).

(** Fail-fast: a command that did not succeed is followed by no other. *)
Definition fail_fast (steps : list step) : Prop :=
  forall pre st post, steps = pre ++ st :: post -> step_ok st = false -> post = [].

(** The commands of [n] full cycles. *)
Definition cycle_commands (n : nat) : list string :=
  List.concat (repeat ["Paused"; "Start"] n).

(** Events that are no part of the success summary. *)
Definition no_summary (e : event) : Prop :=
  match e with
  | EvPrint (PAutomationCompleted _) => False
  | EvTelegram (NSuccess _ _) => False
  | _ => True
  end.

(** The lookup requests of a trace: the GETs. *)
Definition lookups (t : trace) : list request :=
  filter (fun q => match req_method q with GET => true | POST => false end) (requests t).

(** The bytes [load_session] unpickles: the cookie file, or the decoded
    environment variable when there is no file. *)
Definition blob_content (w : world) : option string :=
  match cookies_file w with
  | Some content => Some content
  | None =>
      match env_cookies_b64 w with
      | Some encoded => if String.eqb encoded "" then None else b64decode w encoded
      | None => None
      end
  end.

(** The items of the unpickled object, when it can be iterated. *)
Definition items_of (obj : pyval) : option (list pyval) :=
  match obj with
  | PyList items => Some items
  | PyDict entries => Some (map (fun kv => PyStr (fst kv)) entries)
  | PyStr s => Some (chars s)
  | _ => None
  end.

(** A cookie record: a dict with a name and a value. *)
Definition record_of (item : pyval) : option cookie :=
  match item with
  | PyDict entries =>
      match dict_get entries "name", dict_get entries "value" with
      | Some name, Some value => Some (mkCookie name value (dict_get entries "domain"))
      | _, _ => None
      end
  | _ => None
  end.

Fixpoint records_of (items : list pyval) : option (list cookie) :=
  match items with
  | [] => Some []
  | item :: rest =>
      match record_of item, records_of rest with
      | Some c, Some cs => Some (c :: cs)
      | _, _ => None
      end
  end.

Definition validation_request (s : session) : request :=
  mkRequest GET validation_url (base_headers s) None (cookies s).

(** The events [fetch_wallet_running_count] can add. *)
Definition wallet_event (e : event) : Prop :=
  match e with
  | EvHttp q _ => req_method q = GET
  | EvPrint PWalletApiFailed => True
  | EvPrint PHtmlParsingFailed => True
  | _ => False
  end.

(** What [finalize] does once the closing [toggle_strategy] has returned
    [response]. *)
Definition after_finalize (p : progress) (response : option Response) : progress * trace :=
  if succeeded response then
    (p, EvPrint (PFinalStopped 200)
        :: match response with
           | Some (mkResponse _ _ (Some data)) => [EvPrint (PJson data)]
           | _ => []
           end)
  else
    (mkProgress true
       (error_details p
        ++ failure_lines (DFinalStopFailed (shown_status response)) response),
     EvPrint (PFinalStopFailed (shown_status response))
     :: match response with
        | Some r => [EvPrint (PResponseText (text r))]
        | None => []
        end).

(** The events that can follow the closing command: no command is sent or
    announced any more, the only requests are the GETs of the lookup. *)
Definition aftermath (e : event) : Prop :=
  match e with
  | EvHttp q _ => req_method q = GET
  | EvSleep _ => False
  | EvPrint (PSendingStop _ _) => False
  | EvPrint PSendingStart => False
  | EvPrint PFinalizing => False
  | EvPrint (PFailed _) => False
  | _ => True
  end.

(** The line the report prints for the count. *)
Definition count_line (count : option Z) : event :=
  match count with
  | Some n => EvPrint (PRunningCount n)
  | None => EvPrint PCheckDashboard
  end.

(** The jar the bytes decode to: unpickled, iterated, every item read as a
    cookie record.  [None] when one of these steps raises. *)
Definition jar_of_content (w : world) (content : string) : option (list cookie) :=
  match pickle_load w content with
  | Some obj =>
      match items_of obj with
      | Some items => records_of items
      | None => None
      end
  | None => None
  end.

Definition decoded_jar (w : world) : option (list cookie) :=
  match blob_content w with
  | Some content => jar_of_content w content
  | None => None
  end.

(** What [load_session] does with the outcome of the validation probe. *)
Definition after_probe (s : session) (o : outcome) : option session * trace :=
  match o with
  | ConnError => (None, [EvPrint PValidationException; EvTelegram NValidationException])
  | Resp r =>
      if status_code r =? 200 then (Some s, [])
      else (None, [EvPrint (PValidationStatus (status_code r));
                   EvTelegram (NValidationStatus (status_code r))])
  end.

(** ** Reading [find_status] *)

(** What a status value is turned into: a dict is unwrapped through the
    first of [status], [label], [name], [text] it has, anything else (and a
    dict with none of them) is its [str]. *)
Definition label_of (value : pyval) : string :=
  match value with
  | PyDict inner =>
      match scan_inner_keys inner_keys inner with
      | Some label => label
      | None => Py.str value
      end
  | _ => Py.str value
  end.


(** The status keys a dict has, in the order the set is iterated in. *)
Definition present_status_keys (order : list string) (node : list (string * pyval))
    : list string :=
  filter (dict_has node) order.

(** [{"data": {"list": [{"id": id, "status": "Running"}]}}]. *)
Definition nested_doc (id : pyval) : pyval :=
  PyDict [("data", PyDict [("list", PyList [PyDict [("id", id);
                                                     ("status", PyStr "Running")]])])].

(** ** Reading the probe chain *)

(** The payload a probe brings when it ends the chain: the JSON of a 200
    response, decodable and truthy (not [null], [false], 0, the empty
    string, list or dict). *)
Definition usable (o : outcome) : option pyval :=
  match o with
  | ConnError => None
  | Resp r =>
      if status_code r =? 200 then
        match json r with
        | Some d => if truthy d then Some d else None
        | None => None
        end
      else None
  end.

(** [probed todo ex win]: the exchanges [ex] of the chain over the probes
    [todo], and the payload that ended it, if any.  A probe without a usable
    payload is followed by the next one; the first usable payload ends the
    chain. *)
Inductive probed : list request -> list (request * outcome) -> option pyval -> Prop :=
| probed_none : probed [] [] None
| probed_wins probe rest o d :
    usable o = Some d ->
    probed (probe :: rest) [(probe, o)] (Some d)
| probed_continues probe rest o ex win :
    usable o = None ->
    probed rest ex win ->
    probed (probe :: rest) ((probe, o) :: ex) win.

(** The request of the HTML fallback. *)
Definition html_request (s : session) : request :=
  mkRequest GET dashboard_url html_headers None (cookies s).

(** The label the fallback reads from a page; [None] when the tokenizer
    raises on it. *)
Definition html_label (w : world) (strategy_id : pyval) (r : Response) : option string :=
  if status_code r =? 200 then
    match html_tokens w (text r) with
    | Some tokens =>
        Some (StatusHTMLParser.status
                (StatusHTMLParser.feed (StatusHTMLParser.init strategy_id) tokens))
    | None => None
    end
  else Some "".

(** ** Reading a token stream as the parser does *)

(** The change of the depth counter over tokens fed inside the target: every
    start tag counts one up, also that of a void element, which has no end
    tag; every end tag counts one down. *)
Fixpoint rise (tokens : list html_event) : Z :=
  match tokens with
  | [] => 0
  | StartTag _ _ :: rest => 1 + rise rest
  | EndTag _ :: rest => rise rest - 1
  | Data _ :: rest => rise rest
  end.

(** [stays depth tokens]: fed to a parser that is in the target with this
    depth, the tokens keep it there: no end tag brings the counter to 0. *)
Fixpoint stays (depth : Z) (tokens : list html_event) : bool :=
  match tokens with
  | [] => true
  | StartTag _ _ :: rest => stays (depth + 1) rest
  | EndTag _ :: rest => (1 <? depth) && stays (depth - 1) rest
  | Data _ :: rest => stays depth rest
  end.

(** A text that arms the watcher, and a text that can be captured. *)
Definition has_status (data : string) : bool := str_in "Status" (Py.strip data).

Definition proper (data : string) : bool :=
  StatusHTMLParser.nonempty (Py.strip data) && negb (has_status data).

(** Tokens without a text that arms the watcher. *)
Definition unarmed (tokens : list html_event) : bool :=
  forallb (fun e => match e with Data d => negb (has_status d) | _ => true end) tokens.

(** Tokens without the start of a span. *)
Definition no_span (tokens : list html_event) : bool :=
  forallb (fun e => match e with
                    | StartTag tag _ => negb (String.eqb tag "span")
                    | _ => true
                    end) tokens.

(** Tokens that leave an armed capture pending: no end of a span, and no
    text that can be captured. *)
Definition pending (tokens : list html_event) : bool :=
  forallb (fun e => match e with
                    | StartTag _ _ => true
                    | EndTag tag => negb (String.eqb tag "span")
                    | Data d => negb (proper d)
                    end) tokens.

(** ** The Ramki wallet: the functions that differ from the Gopi wallet *)

Module Ramki.

Section Program.

Variable w : world.

(** [load_session] of [api_automation_TTRamkiWallet.py]: the blob is always
    read from the environment variable, decoded in memory and unpickled; no
    cookie file is read or written.  From the creation of the session on the
    code is that of the Gopi wallet, [session_from_file].  The line printed
    after decoding is modelled by [PCookiesRestored]. *)
Definition load_session : M (option session) :=
  match env_cookies_b64 w with
  | Some encoded =>
      if String.eqb encoded "" then print PNoCookies ;; ret None
      else
        match b64decode w encoded with
        | Some cookies_bytes =>
            print PCookiesRestored ;;
            session_from_file w cookies_bytes
        | None =>
            print PDecodeFailed ;;
            send_telegram_message NDecodeFailed ;;
            ret None
        end
  | None => print PNoCookies ;; ret None
  end.

(** [fetch_wallet_running_count] of the Ramki wallet: the wallet endpoint
    only, without the fallback to the dashboard page. *)
Definition fetch_wallet_running_count (s : session) : M (option Z) :=
  primary <- try_except
               (response <- session_get w s validation_url (base_headers s) ;;
                if status_code response =? 200 then
                  data <- match json response with
                          | Some d => ret d
                          | None => raise ValueError
                          end ;;
                  inner <- get_or_empty data "data" ;;
                  balances <- get_or_empty inner "balances" ;;
                  match balances with
                  | PyDict entries =>
                      match dict_get entries "running" with
                      | Some running => n <- py_int w running ;; ret (Some n)
                      | None => ret None
                      end
                  | _ => ret None
                  end
                else ret None)
               (fun _ => print PWalletApiFailed ;; ret None) ;;
  match primary with
  | Some n => ret (Some n)
  | None => ret None
  end.

End Program.

End Ramki.

(** ** [normalize_status] *)

(** [str.lower()] on the code points below 256: the ASCII capitals and the
    Latin-1 capitals (all of 192..222 but the multiplication sign). *)
Definition lower_char (c : ascii) : ascii :=
  let n := nat_of_ascii c in
  if ((65 <=? n) && (n <=? 90))%nat
     || ((192 <=? n) && (n <=? 222) && negb (n =? 215))%nat
  then ascii_of_nat (n + 32)
  else c.

Fixpoint lower (s : string) : string :=
  match s with
  | EmptyString => EmptyString
  | String c rest => String (lower_char c) (lower rest)
  end.

(** [s.replace(c, "")] for a one-character [c]. *)
Fixpoint remove_char (c : ascii) (s : string) : string :=
  match s with
  | EmptyString => EmptyString
  | String x rest => if Ascii.eqb x c then remove_char c rest else String x (remove_char c rest)
  end.

Definition normalize_status (label : pyval) : string :=
  remove_char "-" (remove_char "_" (remove_char " " (lower (Py.strip (Py.str label))))).

(** ** The configuration part of [main] (lines 386-425) *)

(** How the configuration ends: with the three settings, or with one of the
    two reported errors (each printed, notified and followed by
    [sys.exit(1)]), or with the exception of an [int()] call. *)
Inductive configured : Type :=
| Settings (STRATEGY_ID NUM_TOGGLES DELAY_SECONDS : Z)
| MissingSecret (name : string)
| MissingToggles
| ConfigError (e : exn).

Section Configuration.

Variable w : world.

(** [os.getenv]: the environment maps a name to its value, if set. *)
Variable getenv : string -> option string.

(** [not value or not value.strip()]. *)
Definition blank (value : option string) : bool :=
  match value with
  | None => true
  | Some v => String.eqb v "" || String.eqb (Py.strip v) ""
  end.

(** [a or b] on an environment value and its fallback. *)
Definition or_else (a b : option string) : option string :=
  match a with
  | Some v => if String.eqb v "" then b else a
  | None => b
  end.

(** [os.getenv(name, default)]: the default only when the name is not set. *)
Definition getenv_default (name default : string) : string :=
  match getenv name with
  | Some v => v
  | None => default
  end.

Definition required_secrets : list string :=
  ["NUM_TOGGLES_GOPI"; "TELEGRAM_BOT_TOKEN"; "TELEGRAM_CHAT_ID"; "TT_COOKIES_B64_GOPI"].

(** [for secret_name, secret_value in required_secrets]: the first blank one. *)
Fixpoint first_blank (names : list string) : option string :=
  match names with
  | [] => None
  | name :: rest => if blank (getenv name) then Some name else first_blank rest
  end.

(** [int(text)], then the rest. *)
Definition with_int (text : string) (k : Z -> configured) : configured :=
  match int_of_text w text with
  | Some z => k z
  | None => ConfigError ValueError
  end.

Definition configure : configured :=
  let running_in_github :=
    String.eqb (lower (getenv_default "GITHUB_ACTIONS" "")) "true" in
  let strategy_text :=
    match or_else (getenv "STRATEGY_ID_GOPI") (Some "18713274") with
    | Some v => v
    | None => "18713274"
    end in
  let checked :=
    if running_in_github then
      match first_blank required_secrets with
      | Some name => inl (MissingSecret name)
      | None => inr (getenv "NUM_TOGGLES_GOPI")
      end
    else inr (or_else (getenv "NUM_TOGGLES_GOPI") (getenv "NUM_TOGGLES")) in
  match checked with
  | inl stop => stop
  | inr num_toggles_gopi =>
      with_int strategy_text (fun _ =>
      if blank num_toggles_gopi then MissingToggles
      else
        with_int (match num_toggles_gopi with Some v => v | None => "" end) (fun _ =>
        let finish (STRATEGY_ID : Z) :=
          with_int (getenv_default "NUM_TOGGLES_GOPI" (getenv_default "NUM_TOGGLES" "50"))
            (fun NUM_TOGGLES =>
          with_int (getenv_default "DELAY_SECONDS" "1") (fun DELAY_SECONDS =>
          Settings STRATEGY_ID NUM_TOGGLES DELAY_SECONDS)) in
        if blank (getenv "STRATEGY_ID_GOPI") then finish 18713274
        else with_int (match getenv "STRATEGY_ID_GOPI" with Some v => v | None => "" end)
                      finish))
  end.

End Configuration.

(** ** [toggle_strategy]: retries, backoff and what is returned *)

Section ToggleStrategy.

Variable w : world.
Variable s : session.
Variable strategy_id : pyval.
Variable status : string.
Variables retries backoff : Z.

Let q : request := toggle_request s strategy_id status.

(** One iteration of the loop, by the outcome of its request. *)
Lemma toggle_attempts_S left attempt last h :
  toggle_attempts w s strategy_id status retries backoff (S left) attempt last h =
  match transport w h q with
  | ConnError =>
      let seen := [EvHttp q ConnError; EvPrint (PRequestException attempt retries)] in
      if attempt <? retries then
        if backoff * attempt <? 0 then (Raise ValueError, seen)
        else
          let '(result, t) :=
            toggle_attempts w s strategy_id status retries backoff left (attempt + 1) last
              (h ++ seen ++ [EvSleep (backoff * attempt)]) in
          (result, seen ++ EvSleep (backoff * attempt) :: t)
      else (Ret None, seen)
  | Resp r =>
      if status_code r <? 500 then (Ret (Some r), [EvHttp q (Resp r)])
      else if attempt <? retries then
        if backoff * attempt <? 0 then (Raise ValueError, [EvHttp q (Resp r)])
        else
          let '(result, t) :=
            toggle_attempts w s strategy_id status retries backoff left (attempt + 1) (Some r)
              (h ++ [EvHttp q (Resp r); EvSleep (backoff * attempt)]) in
          (result, EvHttp q (Resp r) :: EvSleep (backoff * attempt) :: t)
      else
        let '(result, t) :=
          toggle_attempts w s strategy_id status retries backoff left (attempt + 1) (Some r)
            (h ++ [EvHttp q (Resp r)]) in
        (result, [EvHttp q (Resp r)] ++ t)
  end.
Proof.
  cbn [toggle_attempts].
  unfold bind, try_except, session_post, send, sleep, print, emit, ret, raise.
  change (mkRequest POST toggle_url toggle_headers
            (Some (toggle_payload strategy_id status)) (cookies s)) with q.
  destruct (transport w h q) as [|r]; cbn -[Z.mul Z.ltb toggle_attempts].
  - destruct (attempt <? retries); [|reflexivity].
    destruct (backoff * attempt <? 0); cbn -[Z.mul Z.ltb toggle_attempts]; [reflexivity|].
    rewrite <- !app_assoc. cbn [app].
    destruct (toggle_attempts _ _ _ _ _ _ _ _ _ _) as [result t]. reflexivity.
  - destruct (status_code r <? 500); [reflexivity|].
    destruct (attempt <? retries); cbn -[Z.mul Z.ltb toggle_attempts].
    + destruct (backoff * attempt <? 0); cbn -[Z.mul Z.ltb toggle_attempts]; [reflexivity|].
      rewrite <- !app_assoc. cbn [app].
      destruct (toggle_attempts _ _ _ _ _ _ _ _ _ _) as [result t]. reflexivity.
    + rewrite ?app_nil_r.
      destruct (toggle_attempts _ _ _ _ _ _ _ _ _ _) as [result t]. reflexivity.
Qed.

Lemma toggle_attempts_shape left attempt last h :
  0 <= backoff -> 0 <= attempt ->
  Z.of_nat left = Z.max 0 (retries + 1 - attempt) ->
  attempts q retries backoff attempt last
    (fst (toggle_attempts w s strategy_id status retries backoff left attempt last h))
    (snd (toggle_attempts w s strategy_id status retries backoff left attempt last h)).
Proof.
  intros Hb. revert attempt last h.
  induction left as [|left IH]; intros attempt last h Ha Hleft.
  - apply attempts_none. lia.
  - rewrite toggle_attempts_S.
    assert (Hs : (backoff * attempt <? 0) = false) by (apply Z.ltb_ge; nia).
    assert (Hnext : Z.of_nat left = Z.max 0 (retries + 1 - (attempt + 1))) by lia.
    destruct (transport w h q) as [|r]; cbn zeta.
    + destruct (attempt <? retries) eqn:Hlt.
      * rewrite Hs.
        specialize (IH (attempt + 1) last
          (h ++ [EvHttp q ConnError; EvPrint (PRequestException attempt retries)]
             ++ [EvSleep (backoff * attempt)]) ltac:(lia) Hnext).
        destruct (toggle_attempts _ _ _ _ _ _ _ _ _ _) as [result t].
        apply attempts_exception_retry; [apply Z.ltb_lt; exact Hlt | exact IH].
      * apply attempts_exception_last. apply Z.ltb_ge in Hlt. lia.
    + destruct (status_code r <? 500) eqn:Hterm.
      * apply attempts_terminal; [lia | apply Z.ltb_lt; exact Hterm].
      * apply Z.ltb_ge in Hterm.
        destruct (attempt <? retries) eqn:Hlt.
        -- rewrite Hs.
           specialize (IH (attempt + 1) (Some r)
             (h ++ [EvHttp q (Resp r); EvSleep (backoff * attempt)]) ltac:(lia) Hnext).
           destruct (toggle_attempts _ _ _ _ _ _ _ _ _ _) as [result t].
           apply attempts_overload_retry; [exact Hterm | apply Z.ltb_lt; exact Hlt | exact IH].
        -- apply Z.ltb_ge in Hlt.
           destruct left as [|left']; [|lia].
           cbn. apply attempts_overload_last; [exact Hterm | lia].
Qed.

Lemma toggle_strategy_shape h :
  0 <= backoff ->
  attempts q retries backoff 1 None
    (fst (toggle_strategy w s strategy_id status retries backoff h))
    (snd (toggle_strategy w s strategy_id status retries backoff h)).
Proof.
  intros Hb. unfold toggle_strategy. apply toggle_attempts_shape; lia.
Qed.

End ToggleStrategy.

(** *** What follows from the shape *)

Lemma cons_eq_app_mid {A} (x e : A) l pre post :
  x :: l = pre ++ e :: post ->
  (pre = [] /\ x = e /\ l = post) \/ (exists pre', pre = x :: pre' /\ l = pre' ++ e :: post).
Proof.
  destruct pre as [|y pre']; cbn; intros H; injection H as -> ->.
  - left. auto.
  - right. eauto.
Qed.

Lemma exchanges_app t1 t2 : exchanges (t1 ++ t2) = exchanges t1 ++ exchanges t2.
Proof. unfold exchanges. apply flat_map_app. Qed.

Lemma sleeps_app t1 t2 : sleeps (t1 ++ t2) = sleeps t1 ++ sleeps t2.
Proof. unfold sleeps. apply flat_map_app. Qed.

Lemma backoffs_next backoff attempt n :
  backoffs backoff attempt (S (S n)) = backoff * attempt :: backoffs backoff (attempt + 1) (S n).
Proof.
  unfold backoffs. cbn [Nat.sub]. rewrite Nat.sub_0_r. cbn [seq map].
  f_equal; [f_equal; lia|].
  rewrite <- seq_shift, map_map. apply map_ext. intros k. f_equal. lia.
Qed.

Section Attempts.

Variable q : request.
Variables retries backoff : Z.

Lemma attempts_first attempt last result t :
  attempts q retries backoff attempt last result t ->
  attempt <= retries -> exists o rest, t = EvHttp q o :: rest.
Proof. intros H Hle. destruct H; try lia; eauto. Qed.

Lemma attempts_count attempt last result t :
  attempts q retries backoff attempt last result t ->
  (List.length (exchanges t) <= Z.to_nat (retries + 1 - attempt))%nat.
Proof.
  induction 1; cbn [exchanges flat_map List.length app] in *; try lia.
  all: fold (exchanges t) in *; lia.
Qed.

Lemma attempts_requests attempt last result t :
  attempts q retries backoff attempt last result t ->
  Forall (fun e => fst e = q) (exchanges t).
Proof.
  induction 1; cbn [exchanges flat_map app] in *; try fold (exchanges t) in *;
    repeat constructor; auto.
Qed.

(** A response below 500 ends the call: it is the last event and the
    result. *)
Lemma attempts_terminal_response attempt last result t :
  attempts q retries backoff attempt last result t ->
  forall pre q' r post,
    t = pre ++ EvHttp q' (Resp r) :: post -> status_code r < 500 ->
    post = [] /\ result = Ret (Some r).
Proof.
  induction 1; intros pre q' r' post Heq Hlow.
  - destruct pre; discriminate.
  - apply cons_eq_app_mid in Heq as [[_ [Hx _]]|[p1 [-> Heq]]]; [discriminate|].
    apply cons_eq_app_mid in Heq as [[_ [Hx _]]|[p2 [-> Heq]]]; [discriminate|].
    apply cons_eq_app_mid in Heq as [[_ [Hx _]]|[p3 [-> Heq]]]; [discriminate|].
    eapply IHattempts; eauto.
  - apply cons_eq_app_mid in Heq as [[_ [Hx _]]|[p1 [-> Heq]]]; [discriminate|].
    apply cons_eq_app_mid in Heq as [[_ [Hx _]]|[p2 [-> Heq]]]; [discriminate|].
    destruct p2; discriminate.
  - apply cons_eq_app_mid in Heq as [[_ [Hx Hp]]|[p1 [-> Heq]]].
    + injection Hx as _ ->. auto.
    + destruct p1; discriminate.
  - apply cons_eq_app_mid in Heq as [[_ [Hx _]]|[p1 [-> Heq]]].
    + injection Hx as _ ->. lia.
    + apply cons_eq_app_mid in Heq as [[_ [Hx _]]|[p2 [-> Heq]]]; [discriminate|].
      eapply IHattempts; eauto.
  - apply cons_eq_app_mid in Heq as [[_ [Hx _]]|[p1 [-> Heq]]].
    + injection Hx as _ ->. lia.
    + destruct p1; discriminate.
Qed.

(** The sleeps are [backoff * attempt] for the attempts but the last. *)
Lemma attempts_sleeps attempt last result t :
  attempts q retries backoff attempt last result t ->
  sleeps t = backoffs backoff attempt (List.length (exchanges t)).
Proof.
  induction 1; try reflexivity.
  - destruct (attempts_first _ _ _ _ H0 ltac:(lia)) as [o [rest ->]].
    cbn [sleeps exchanges flat_map app List.length] in *.
    fold (sleeps rest) in *. fold (exchanges rest) in *.
    rewrite backoffs_next. f_equal. exact IHattempts.
  - destruct (attempts_first _ _ _ _ H1 ltac:(lia)) as [o [rest ->]].
    cbn [sleeps exchanges flat_map app List.length] in *.
    fold (sleeps rest) in *. fold (exchanges rest) in *.
    rewrite backoffs_next. f_equal. exact IHattempts.
Qed.

(** Each sleep comes after an attempt, lasts [backoff] times the number of
    that attempt, and is followed by another attempt. *)
Lemma attempts_sleep_between attempt last result t :
  attempts q retries backoff attempt last result t ->
  forall pre x post,
    t = pre ++ EvSleep x :: post ->
    (1 <= List.length (exchanges pre))%nat
    /\ x = backoff * (attempt + Z.of_nat (List.length (exchanges pre)) - 1)
    /\ exchanges post <> [].
Proof.
  induction 1; intros pre x post Heq.
  - destruct pre; discriminate.
  - apply cons_eq_app_mid in Heq as [[_ [Hx _]]|[p1 [-> Heq]]]; [discriminate|].
    apply cons_eq_app_mid in Heq as [[_ [Hx _]]|[p2 [-> Heq]]]; [discriminate|].
    apply cons_eq_app_mid in Heq as [[-> [Hx <-]]|[p3 [-> Heq]]].
    + injection Hx as <-. cbn. repeat split; [lia | f_equal; lia |].
      destruct (attempts_first _ _ _ _ H0 ltac:(lia)) as [o [rest ->]]. discriminate.
    + destruct (IHattempts _ _ _ Heq) as [H1 [H2 H3]].
      cbn [exchanges flat_map app List.length]. fold (exchanges p3).
      repeat split; [lia | rewrite H2; f_equal; lia | exact H3].
  - apply cons_eq_app_mid in Heq as [[_ [Hx _]]|[p1 [-> Heq]]]; [discriminate|].
    apply cons_eq_app_mid in Heq as [[_ [Hx _]]|[p2 [-> Heq]]]; [discriminate|].
    destruct p2; discriminate.
  - apply cons_eq_app_mid in Heq as [[_ [Hx _]]|[p1 [-> Heq]]]; [discriminate|].
    destruct p1; discriminate.
  - apply cons_eq_app_mid in Heq as [[_ [Hx _]]|[p1 [-> Heq]]]; [discriminate|].
    apply cons_eq_app_mid in Heq as [[-> [Hx <-]]|[p2 [-> Heq]]].
    + injection Hx as <-. cbn. repeat split; [lia | f_equal; lia |].
      destruct (attempts_first _ _ _ _ H1 ltac:(lia)) as [o [rest ->]]. discriminate.
    + destruct (IHattempts _ _ _ Heq) as [H2 [H3 H4]].
      cbn [exchanges flat_map app List.length]. fold (exchanges p2).
      repeat split; [lia | rewrite H3; f_equal; lia | exact H4].
  - apply cons_eq_app_mid in Heq as [[_ [Hx _]]|[p1 [-> Heq]]]; [discriminate|].
    destruct p1; discriminate.
Qed.

(** When no attempt gets a response, all [retries] attempts are made and
    nothing is returned. *)
Lemma attempts_all_exceptions attempt result t :
  attempts q retries backoff attempt None result t ->
  Forall (fun e => snd e = ConnError) (exchanges t) ->
  result = Ret None /\ List.length (exchanges t) = Z.to_nat (retries + 1 - attempt).
Proof.
  remember None as nothing eqn:Hnone.
  induction 1; intros Hall; subst.
  - split; [reflexivity | cbn; lia].
  - cbn [exchanges flat_map app] in Hall. fold (exchanges t) in Hall.
    apply Forall_inv_tail in Hall.
    destruct (IHattempts eq_refl Hall) as [-> Hlen]. split; [reflexivity|].
    cbn [exchanges flat_map app List.length]. fold (exchanges t). lia.
  - split; [reflexivity | cbn; lia].
  - apply Forall_inv in Hall. discriminate.
  - apply Forall_inv in Hall. discriminate.
  - apply Forall_inv in Hall. discriminate.
Qed.

(** When every attempt gets a response of 500 or more, all [retries]
    attempts are made and the last response is returned. *)
Lemma attempts_all_overloaded attempt last result t :
  attempts q retries backoff attempt last result t ->
  attempt <= retries ->
  Forall (fun e => overloaded (snd e)) (exchanges t) ->
  result = Ret (final_response (exchanges t))
  /\ final_response (exchanges t) <> None
  /\ List.length (exchanges t) = Z.to_nat (retries + 1 - attempt).
Proof.
  induction 1; intros Hle Hall.
  - lia.
  - apply Forall_inv in Hall. destruct Hall as [r [Hr _]]. discriminate.
  - apply Forall_inv in Hall. destruct Hall as [r [Hr _]]. discriminate.
  - apply Forall_inv in Hall. destruct Hall as [r' [Hr Hhigh]].
    injection Hr as <-. lia.
  - cbn [exchanges flat_map app] in Hall. fold (exchanges t) in Hall.
    apply Forall_inv_tail in Hall.
    destruct (IHattempts ltac:(lia) Hall) as [-> [Hsome Hlen]].
    destruct (attempts_first _ _ _ _ H1 ltac:(lia)) as [o [rest ->]].
    cbn [exchanges flat_map app List.length] in *. fold (exchanges rest) in *.
    split; [|split]; [reflexivity | exact Hsome | lia].
  - split; [|split]; [reflexivity | discriminate | cbn; lia].
Qed.

(** When the last attempt made gets no response, nothing is returned,
    whatever the earlier attempts got. *)
Lemma attempts_last_exception attempt last result t :
  attempts q retries backoff attempt last result t ->
  forall pre q',
    exchanges t = pre ++ [(q', ConnError)] ->
    result = Ret None /\ List.length (exchanges t) = Z.to_nat (retries + 1 - attempt).
Proof.
  induction 1; intros pre q' Heq.
  - destruct pre; discriminate.
  - destruct (attempts_first _ _ _ _ H0 ltac:(lia)) as [o [rest ->]].
    cbn [exchanges flat_map app List.length] in *. fold (exchanges rest) in *.
    destruct pre as [|e pre]; [discriminate|].
    injection Heq as _ Heq. destruct (IHattempts _ _ Heq) as [-> Hlen].
    split; [reflexivity | lia].
  - split; [reflexivity | cbn; lia].
  - destruct pre as [|e [|e' pre]]; discriminate.
  - destruct (attempts_first _ _ _ _ H1 ltac:(lia)) as [o [rest ->]].
    cbn [exchanges flat_map app List.length] in *. fold (exchanges rest) in *.
    destruct pre as [|e pre]; [discriminate|].
    injection Heq as _ Heq. destruct (IHattempts _ _ Heq) as [-> Hlen].
    split; [reflexivity | lia].
  - destruct pre as [|e [|e' pre]]; discriminate.
Qed.

(** The loop always returns: it neither raises nor exits. *)
Lemma attempts_returns attempt last result t :
  attempts q retries backoff attempt last result t -> exists r, result = Ret r.
Proof. induction 1; eauto. Qed.

End Attempts.

(** C1. Retry policy of the command executor.  A call of [toggle_strategy]
    with any attempt budget [retries] and backoff [backoff >= 0], against
    any transport, always returns; it sends at most [retries] requests, all
    of them the POST of the command; a response with status below 500 (4xx
    included) is the last event of the call and is what the call returns,
    so a further attempt only follows a transport exception or a status of
    500 or more; the sleeps are exactly [backoff * 1, backoff * 2, ...], one
    after each attempt but the last made, each followed by another attempt;
    and when every attempt ends in a transport exception, all [retries]
    attempts are made and the call returns no response. *)
Theorem toggle_strategy_retry_policy w s strategy_id status retries backoff h result t :
  0 <= backoff ->
  toggle_strategy w s strategy_id status retries backoff h = (result, t) ->
  (exists returned, result = Ret returned)
  /\ (List.length (exchanges t) <= Z.to_nat retries)%nat
  /\ Forall (fun e => fst e = toggle_request s strategy_id status) (exchanges t)
  /\ (forall pre q r post,
        t = pre ++ EvHttp q (Resp r) :: post -> status_code r < 500 ->
        post = [] /\ result = Ret (Some r))
  /\ (forall pre q o post,
        t = pre ++ EvHttp q o :: post -> exchanges post <> [] ->
        o = ConnError \/ overloaded o)
  /\ sleeps t = backoffs backoff 1 (List.length (exchanges t))
  /\ (forall pre x post,
        t = pre ++ EvSleep x :: post ->
        (1 <= List.length (exchanges pre))%nat
        /\ x = backoff * Z.of_nat (List.length (exchanges pre))
        /\ exchanges post <> [])
  /\ (Forall (fun e => snd e = ConnError) (exchanges t) ->
      result = Ret None /\ List.length (exchanges t) = Z.to_nat retries).
Proof.
  intros Hb Hrun.
  pose proof (toggle_strategy_shape w s strategy_id status retries backoff h Hb) as Hshape.
  rewrite Hrun in Hshape. cbn [fst snd] in Hshape.
  split; [eapply attempts_returns; exact Hshape|].
  split; [pose proof (attempts_count _ _ _ _ _ _ _ Hshape) as Hc;
          replace (retries + 1 - 1) with retries in Hc by lia; exact Hc|].
  split; [eapply attempts_requests; exact Hshape|].
  split; [eapply attempts_terminal_response; exact Hshape|].
  split.
  { intros pre q o post Heq Hmore. destruct o as [|r]; [left; reflexivity|].
    destruct (Z.lt_ge_cases (status_code r) 500) as [Hlow|Hhigh].
    - destruct (attempts_terminal_response _ _ _ _ _ _ _ Hshape _ _ _ _ Heq Hlow) as [-> _].
      contradiction Hmore. reflexivity.
    - right. exists r. auto. }
  split; [eapply attempts_sleeps; exact Hshape|].
  split.
  { intros pre x post Heq.
    destruct (attempts_sleep_between _ _ _ _ _ _ _ Hshape _ _ _ Heq) as [H1 [H2 H3]].
    repeat split; [exact H1 | rewrite H2; f_equal; lia | exact H3]. }
  intros Hall.
  destruct (attempts_all_exceptions _ _ _ _ _ _ Hshape Hall) as [-> Hlen].
  split; [reflexivity|]. rewrite Hlen. f_equal. lia.
Qed.

(** The script 503, transport exception, 200 with three attempts and a
    backoff of 3: two sleeps, of 3 and 6 seconds, then the 200. *)
Lemma toggle_strategy_retry_policy_witness :
  0 <= 3
  /\ sleeps (snd (toggle_strategy
                    (scripted_world [Resp (plain 503); ConnError; Resp (plain 200)]
                                    (PyList []) [])
                    nobody (PyInt 18713274) "Start" 3 3 [])) = [3; 6].
Proof.
  split; [lia|].
  exact (proj1 (proj2 (proj2 (proj2 (proj2 (proj2
    (toggle_strategy_retry_policy
       (scripted_world [Resp (plain 503); ConnError; Resp (plain 200)] (PyList []) [])
       nobody (PyInt 18713274) "Start" 3 3 [] _ _ ltac:(lia) eq_refl))))))).
Defined.

(** C10. What an exhausted call returns.  With a budget of at least one
    attempt: when every attempt of the call gets a response with status 500
    or more, all [retries] attempts are made and the call returns the
    response of the last one; when the last attempt made ends in a
    transport exception, it is attempt number [retries] and the call
    returns no response, whatever responses earlier attempts got. *)
Theorem toggle_strategy_exhausted w s strategy_id status retries backoff h result t :
  0 <= backoff -> 1 <= retries ->
  toggle_strategy w s strategy_id status retries backoff h = (result, t) ->
  (Forall (fun e => overloaded (snd e)) (exchanges t) ->
   List.length (exchanges t) = Z.to_nat retries
   /\ exists r, final_response (exchanges t) = Some r /\ result = Ret (Some r))
  /\ (forall pre q,
        exchanges t = pre ++ [(q, ConnError)] ->
        List.length (exchanges t) = Z.to_nat retries /\ result = Ret None).
Proof.
  intros Hb Hone Hrun.
  pose proof (toggle_strategy_shape w s strategy_id status retries backoff h Hb) as Hshape.
  rewrite Hrun in Hshape. cbn [fst snd] in Hshape.
  split.
  - intros Hall.
    destruct (attempts_all_overloaded _ _ _ _ _ _ _ Hshape ltac:(lia) Hall) as [-> [Hsome Hlen]].
    split; [rewrite Hlen; f_equal; lia|].
    destruct (final_response (exchanges t)) as [r|]; [eauto | contradiction].
  - intros pre q Heq.
    destruct (attempts_last_exception _ _ _ _ _ _ _ Hshape _ _ Heq) as [-> Hlen].
    split; [rewrite Hlen; f_equal; lia | reflexivity].
Qed.

(** The script 503, 502, transport exception: the two 5xx responses are
    dropped and the call returns nothing. *)
Lemma toggle_strategy_exhausted_witness :
  0 <= 3 /\ 1 <= 3
  /\ fst (toggle_strategy
            (scripted_world [Resp (plain 503); Resp (plain 502); ConnError] (PyList []) [])
            nobody (PyInt 18713274) "Paused" 3 3 []) = Ret None.
Proof.
  split; [lia|]. split; [lia|].
  exact (proj2 (proj2
    (toggle_strategy_exhausted
       (scripted_world [Resp (plain 503); Resp (plain 502); ConnError] (PyList []) [])
       nobody (PyInt 18713274) "Paused" 3 3 [] _ _ ltac:(lia) ltac:(lia) eq_refl)
     [(toggle_request nobody (PyInt 18713274) "Paused", Resp (plain 503));
      (toggle_request nobody (PyInt 18713274) "Paused", Resp (plain 502))]
     (toggle_request nobody (PyInt 18713274) "Paused") eq_refl)).
Defined.

(** ** The monad, step by step *)

Lemma bind_Ret {A B} (m : M A) (f : A -> M B) h a t1 r t2 :
  m h = (Ret a, t1) -> f a (h ++ t1) = (r, t2) -> bind m f h = (r, t1 ++ t2).
Proof. intros Hm Hf. unfold bind. rewrite Hm, Hf. reflexivity. Qed.

Lemma bind_Raise {A B} (m : M A) (f : A -> M B) h e t1 :
  m h = (Raise e, t1) -> bind m f h = (Raise e, t1).
Proof. intros Hm. unfold bind. rewrite Hm. reflexivity. Qed.

Lemma bind_Exit {A B} (m : M A) (f : A -> M B) h c t1 :
  m h = (Exit c, t1) -> bind m f h = (Exit c, t1).
Proof. intros Hm. unfold bind. rewrite Hm. reflexivity. Qed.

Lemma try_except_Ret {A} (m : M A) handler h a t :
  m h = (Ret a, t) -> try_except m handler h = (Ret a, t).
Proof. intros Hm. unfold try_except. rewrite Hm. reflexivity. Qed.

Lemma try_except_Exit {A} (m : M A) handler h c t :
  m h = (Exit c, t) -> try_except m handler h = (Exit c, t).
Proof. intros Hm. unfold try_except. rewrite Hm. reflexivity. Qed.

Lemma try_except_Raise {A} (m : M A) handler h e t1 r t2 :
  m h = (Raise e, t1) -> handler e (h ++ t1) = (r, t2) ->
  try_except m handler h = (r, t1 ++ t2).
Proof. intros Hm Hh. unfold try_except. rewrite Hm, Hh. reflexivity. Qed.

(** ** The toggle loop of [main] *)

Section Orchestration.

Variable w : world.
Variable s : session.
Variable STRATEGY_ID : Z.

(** With the default budget of 3 attempts and backoff of 3 seconds a
    command always returns. *)
Lemma toggle_default status h :
  exists response t,
    toggle_strategy w s (PyInt STRATEGY_ID) status 3 3 h = (Ret response, t)
    /\ attempts (toggle_request s (PyInt STRATEGY_ID) status) 3 3 1 None (Ret response) t.
Proof.
  pose proof (toggle_strategy_shape w s (PyInt STRATEGY_ID) status 3 3 h ltac:(lia)) as Hshape.
  destruct (toggle_strategy w s (PyInt STRATEGY_ID) status 3 3 h) as [result t] eqn:Hrun.
  cbn [fst snd] in Hshape.
  destruct (attempts_returns _ _ _ _ _ _ _ Hshape) as [response ->].
  exists response, t. auto.
Qed.

Lemma attempts_events q retries backoff attempt last result t :
  attempts q retries backoff attempt last result t -> Forall (toggle_event q) t.
Proof. induction 1; repeat constructor; cbn; auto. Qed.

Lemma command_after label status i NUM_TOGGLES p h response t :
  toggle_strategy w s (PyInt STRATEGY_ID) status 3 3 h = (Ret response, t) ->
  command w s STRATEGY_ID label status i NUM_TOGGLES p h =
  (Ret (fst (after_command label i NUM_TOGGLES p response)),
   t ++ snd (after_command label i NUM_TOGGLES p response)).
Proof.
  intros Hrun. unfold command. apply try_except_Ret.
  eapply bind_Ret; [exact Hrun|].
  unfold after_command.
  destruct (succeeded response) eqn:Hok.
  - destruct response as [[code body [data|]]|]; reflexivity.
  - destruct response as [r|]; reflexivity.
Qed.

(** A step that did not fail leaves no failure line and keeps [had_failure];
    a failed step sets it, and after its failure line nothing but its body
    and the notification follows. *)
Lemma after_command_cases label i NUM_TOGGLES p response :
  (snd (fst (after_command label i NUM_TOGGLES p response)) = false
   /\ succeeded response = true
   /\ had_failure (fst (fst (after_command label i NUM_TOGGLES p response))) = had_failure p
   /\ Forall calm (snd (after_command label i NUM_TOGGLES p response))
   /\ Forall quiet (snd (after_command label i NUM_TOGGLES p response)))
  \/ (snd (fst (after_command label i NUM_TOGGLES p response)) = true
      /\ succeeded response = false
      /\ had_failure (fst (fst (after_command label i NUM_TOGGLES p response))) = true
      /\ exists x rest,
           snd (after_command label i NUM_TOGGLES p response) = EvPrint (PFailed x) :: rest
           /\ Forall quiet rest).
Proof.
  unfold after_command.
  destruct (succeeded response) eqn:Hok.
  - left. destruct response as [[code body [data|]]|]; cbn;
      repeat split; repeat constructor; try discriminate.
  - right. cbn [fst snd]. repeat split.
    destruct response as [r|]; eexists; eexists; split; try reflexivity;
      repeat constructor.
Qed.

Lemma toggle_event_calm q e : req_method q = POST -> toggle_event q e -> calm e.
Proof.
  intros Hpost. destruct e as [q' o|x|line|msg|content]; cbn; try tauto.
  - intros ->. exact Hpost.
  - destruct line; tauto.
Qed.

Lemma toggle_events_calm status t :
  Forall (toggle_event (toggle_request s (PyInt STRATEGY_ID) status)) t -> Forall calm t.
Proof. apply Forall_impl. intros e. apply toggle_event_calm. reflexivity. Qed.

Variables NUM_TOGGLES DELAY_SECONDS : Z.
Hypothesis delay_nonneg : 0 <= DELAY_SECONDS.

Lemma sleep_delay h : sleep DELAY_SECONDS h = (Ret tt, [EvSleep DELAY_SECONDS]).
Proof.
  unfold sleep. destruct (DELAY_SECONDS <? 0) eqn:Hneg; [|reflexivity].
  apply Z.ltb_lt in Hneg. lia.
Qed.

Lemma pause_between i h :
  exists t, (if i <? NUM_TOGGLES - 1 then sleep DELAY_SECONDS else ret tt) h = (Ret tt, t)
            /\ Forall calm t.
Proof.
  destruct (i <? NUM_TOGGLES - 1).
  - exists [EvSleep DELAY_SECONDS]. split; [apply sleep_delay|].
    repeat constructor.
  - exists []. split; [reflexivity | constructor].
Qed.

(** The loop: its events are a part without failure line, then either
    nothing more, or the failure line of the step that broke the loop and
    what that step still printed and notified. *)
Lemma toggle_cycles_trace left i p h :
  exists p' clean ending,
    toggle_cycles w s STRATEGY_ID NUM_TOGGLES DELAY_SECONDS left i p h
    = (Ret p', clean ++ ending)
    /\ Forall calm clean
    /\ ((ending = [] /\ had_failure p' = had_failure p)
        \/ (exists x rest, ending = EvPrint (PFailed x) :: rest /\ Forall quiet rest
                           /\ had_failure p' = true))
    /\ (left = 0%nat -> clean = [] /\ ending = [] /\ p' = p).
Proof.
  revert i p h. induction left as [|left IH]; intros i p h.
  - exists p, [], []. repeat split; auto.
  - set (e0 := EvPrint (PSendingStop (i + 1) NUM_TOGGLES)).
    destruct (toggle_default "Paused" (h ++ [e0])) as (resp1 & t1 & Hrun1 & Hshape1).
    pose proof (command_after "STOP" "Paused" i NUM_TOGGLES p _ _ _ Hrun1) as Hc1.
    pose proof (toggle_events_calm _ _ (attempts_events _ _ _ _ _ _ _ Hshape1)) as Hcalm1.
    destruct (after_command_cases "STOP" i NUM_TOGGLES p resp1)
      as [(Hb1 & _ & Hf1 & Hq1 & _)|(Hb1 & _ & Hf1 & x1 & rest1 & Ha1 & Hr1)];
      destruct (after_command "STOP" i NUM_TOGGLES p resp1) as [[p1 brk1] a1];
      cbn [fst snd] in *; subst brk1.
    2:{ exists p1, (e0 :: t1), a1. split; [|split; [|split]].
        - cbn [toggle_cycles]. fold e0.
          erewrite bind_Ret; [| reflexivity |].
          2:{ eapply bind_Ret; [exact Hc1 | reflexivity]. }
          cbn [app]. rewrite app_nil_r. reflexivity.
        - constructor; [exact I | exact Hcalm1].
        - right. eauto.
        - discriminate. }
    set (h1 := (h ++ [e0]) ++ t1 ++ a1).
    set (e1 := EvPrint PSendingStart).
    destruct (toggle_default "Start" ((h1 ++ [EvSleep DELAY_SECONDS]) ++ [e1]))
      as (resp2 & t2 & Hrun2 & Hshape2).
    pose proof (command_after "START" "Start" i NUM_TOGGLES p1 _ _ _ Hrun2) as Hc2.
    pose proof (toggle_events_calm _ _ (attempts_events _ _ _ _ _ _ _ Hshape2)) as Hcalm2.
    assert (Hcalm0 : Forall calm ((e0 :: t1 ++ a1) ++ [EvSleep DELAY_SECONDS; e1] ++ t2)).
    { apply Forall_app. split.
      - constructor; [exact I|].
        apply Forall_app. auto.
      - apply Forall_app. split; [|exact Hcalm2].
        repeat constructor. }
    destruct (after_command_cases "START" i NUM_TOGGLES p1 resp2)
      as [(Hb2 & _ & Hf2 & Hq2 & _)|(Hb2 & _ & Hf2 & x2 & rest2 & Ha2 & Hr2)];
      destruct (after_command "START" i NUM_TOGGLES p1 resp2) as [[p2 brk2] a2];
      cbn [fst snd] in *; subst brk2.
    2:{ exists p2, ((e0 :: t1 ++ a1) ++ [EvSleep DELAY_SECONDS; e1] ++ t2), a2.
        split; [|split; [|split]].
        - cbn [toggle_cycles]. fold e0 e1.
          erewrite bind_Ret; [| reflexivity |].
          2:{ eapply bind_Ret; [exact Hc1|]. cbn beta iota. fold h1.
              eapply bind_Ret; [apply sleep_delay|].
              eapply bind_Ret; [reflexivity|].
              eapply bind_Ret; [exact Hc2 | reflexivity]. }
          cbn [app]. rewrite app_nil_r, <- !app_assoc. reflexivity.
        - exact Hcalm0.
        - right. eauto.
        - discriminate. }
    set (h2 := ((h1 ++ [EvSleep DELAY_SECONDS]) ++ [e1]) ++ t2 ++ a2).
    destruct (pause_between i h2) as (t3 & Hpause & Hcalm3).
    destruct (IH (i + 1) p2 (h2 ++ t3)) as (p' & clean & ending & Hrest & Hclean & Hend & _).
    exists p', ((e0 :: t1 ++ a1) ++ [EvSleep DELAY_SECONDS; e1] ++ t2 ++ a2 ++ t3 ++ clean),
      ending.
    split; [|split; [|split]].
    + cbn [toggle_cycles]. fold e0 e1.
      erewrite bind_Ret; [| reflexivity |].
      2:{ eapply bind_Ret; [exact Hc1|]. cbn beta iota. fold h1.
          eapply bind_Ret; [apply sleep_delay|].
          eapply bind_Ret; [reflexivity|].
          eapply bind_Ret; [exact Hc2|]. cbn beta iota. fold h2.
          eapply bind_Ret; [exact Hpause | exact Hrest]. }
      cbn [app]. repeat (rewrite <- app_assoc; cbn [app]). reflexivity.
    + rewrite !app_assoc. apply Forall_app. split; [|exact Hclean].
      apply Forall_app. split; [|exact Hcalm3].
      apply Forall_app. split; [|exact Hq2].
      rewrite <- !app_assoc. exact Hcalm0.
    + destruct Hend as [[-> Hsame]|(x & rest & -> & Hquiet & Htrue)].
      * left. split; [reflexivity | congruence].
      * right. eauto.
    + discriminate.
Qed.

End Orchestration.

(** ** [fetch_wallet_running_count] never fails *)

(** A computation that adds no event and does not exit. *)
Definition silent {A} (m : M A) : Prop :=
  forall h, exists x, m h = (x, []) /\ forall c, x <> Exit c.

Lemma silent_ret {A} (a : A) : silent (ret a).
Proof. intros h. exists (Ret a). split; [reflexivity | discriminate]. Qed.

Lemma silent_raise {A} e : silent (@raise A e).
Proof. intros h. exists (Raise e). split; [reflexivity | discriminate]. Qed.

Lemma silent_bind {A B} (m : M A) (f : A -> M B) :
  silent m -> (forall a, silent (f a)) -> silent (bind m f).
Proof.
  intros Hm Hf h. destruct (Hm h) as (x & Hx & Hnoexit).
  destruct x as [a|e|c].
  - destruct (Hf a (h ++ [])) as (y & Hy & Hnoexit').
    exists y. split; [|exact Hnoexit'].
    unfold bind. rewrite Hx, Hy. reflexivity.
  - exists (Raise e). split; [|discriminate]. unfold bind. rewrite Hx. reflexivity.
  - contradiction (Hnoexit c). reflexivity.
Qed.

(** [try: m except Exception: print(line); return None] around a
    computation that does not exit: it returns, and adds at most the line. *)
Lemma try_except_print {A} (m : M (option A)) line h x t :
  m h = (x, t) -> (forall c, x <> Exit c) ->
  exists a, try_except m (fun _ => bind (print line) (fun _ => ret None)) h
            = (Ret a, t ++ match x with Raise _ => [EvPrint line] | _ => [] end).
Proof.
  intros Hm Hnoexit. unfold try_except. rewrite Hm.
  destruct x as [a|e|c].
  - exists a. rewrite app_nil_r. reflexivity.
  - exists None. reflexivity.
  - contradiction (Hnoexit c). reflexivity.
Qed.

Section Wallet.

Variable w : world.
Variable s : session.

(** A request followed by a silent computation: one exchange. *)
Lemma send_then_silent {A} q (k : Response -> M A) h :
  (forall r, silent (k r)) ->
  exists x, bind (send w q) k h = (x, [EvHttp q (transport w h q)])
            /\ forall c, x <> Exit c.
Proof.
  intros Hk. unfold bind, send.
  destruct (transport w h q) as [|r].
  - exists (Raise RequestException). split; [reflexivity | discriminate].
  - destruct (Hk r (h ++ [EvHttp q (Resp r)])) as (x & Hx & Hnoexit).
    exists x. rewrite Hx. split; [reflexivity | exact Hnoexit].
Qed.

Lemma silent_get_or_empty d key : silent (get_or_empty d key).
Proof.
  unfold get_or_empty. apply silent_bind.
  - unfold get_method. destruct d; try apply silent_raise. apply silent_ret.
  - intros [x|]; apply silent_ret.
Qed.

Lemma silent_py_int v : silent (py_int w v).
Proof.
  unfold py_int. destruct v; try apply silent_raise; try apply silent_ret.
  - destruct (int_of_float w shown); [apply silent_ret | apply silent_raise].
  - destruct (int_of_text w s0); [apply silent_ret | apply silent_raise].
Qed.

Lemma silent_scan_patterns patterns html : silent (scan_patterns w patterns html).
Proof.
  induction patterns as [|pattern rest IH]; cbn [scan_patterns].
  - apply silent_ret.
  - destruct (re_search w pattern html) as [group1|]; [|exact IH].
    destruct (int_of_text w group1); [apply silent_ret | apply silent_raise].
Qed.

(** The lookup always returns, a count or nothing, after one or two GET
    requests. *)
Lemma fetch_wallet_running_count_total h :
  exists count t,
    fetch_wallet_running_count w s h = (Ret count, t)
    /\ Forall wallet_event t
    /\ (1 <= List.length (exchanges t) <= 2)%nat.
Proof.
  unfold fetch_wallet_running_count, session_get.
  match goal with |- context [try_except (bind (send w ?q) ?k) ?hd] =>
    destruct (send_then_silent q k h) as (x1 & Hx1 & Hnoexit1)
  end.
  { intros r. destruct (status_code r =? 200); [|apply silent_ret].
    apply silent_bind; [destruct (json r); [apply silent_ret | apply silent_raise]|].
    intros data. apply silent_bind; [apply silent_get_or_empty|].
    intros inner. apply silent_bind; [apply silent_get_or_empty|].
    intros balances. destruct balances; try apply silent_ret.
    destruct (dict_get entries "running"); [|apply silent_ret].
    apply silent_bind; [apply silent_py_int | intros n; apply silent_ret]. }
  destruct (try_except_print _ PWalletApiFailed _ _ _ Hx1 Hnoexit1) as (first & Hfirst).
  set (t1 := [EvHttp _ _] ++ _) in Hfirst.
  assert (Hev1 : Forall wallet_event t1 /\ List.length (exchanges t1) = 1%nat).
  { subst t1. destruct x1; split; repeat constructor. }
  destruct Hev1 as [Hev1 Hlen1].
  destruct first as [n|].
  - exists (Some n), (t1 ++ []). split.
    + eapply bind_Ret; [exact Hfirst | reflexivity].
    + rewrite app_nil_r. split; [exact Hev1 | lia].
  - match goal with
    |- context [try_except (bind (send w ?q) ?k)
                  (fun _ => bind (print PHtmlParsingFailed) (fun _ => ret None))] =>
      destruct (send_then_silent q k (h ++ t1)) as (x2 & Hx2 & Hnoexit2)
    end.
    { intros r. destruct (status_code r =? 200); [|apply silent_ret].
      apply silent_scan_patterns. }
    destruct (try_except_print _ PHtmlParsingFailed _ _ _ Hx2 Hnoexit2) as (second & Hsecond).
    set (t2 := [EvHttp _ _] ++ _) in Hsecond.
    assert (Hev2 : Forall wallet_event t2 /\ List.length (exchanges t2) = 1%nat).
    { subst t2. destruct x2; split; repeat constructor. }
    destruct Hev2 as [Hev2 Hlen2].
    exists second, (t1 ++ t2 ++ []). split.
    + eapply bind_Ret; [exact Hfirst|].
      eapply bind_Ret; [exact Hsecond|]. destruct second; reflexivity.
    + rewrite app_nil_r. split; [apply Forall_app; auto|].
      rewrite exchanges_app, length_app. lia.
Qed.

End Wallet.

(** ** The closing command and the report *)

Section Run.

Variable w : world.
Variable s : session.
Variables STRATEGY_ID NUM_TOGGLES DELAY_SECONDS : Z.
Hypothesis delay_nonneg : 0 <= DELAY_SECONDS.

Lemma finalize_after p h response t :
  toggle_strategy w s (PyInt STRATEGY_ID) "Paused" 3 3 (h ++ [EvPrint PFinalizing])
  = (Ret response, t) ->
  finalize w s STRATEGY_ID p h
  = (Ret (fst (after_finalize p response)),
     EvPrint PFinalizing :: t ++ snd (after_finalize p response)).
Proof.
  intros Hrun. unfold finalize, after_finalize, bind, print, emit.
  rewrite Hrun.
  destruct (succeeded response) eqn:Hok.
  - destruct response as [[code body [data|]]|]; cbn; rewrite ?app_nil_r; reflexivity.
  - destruct response as [r|]; cbn; rewrite ?app_nil_r; reflexivity.
Qed.

Lemma after_finalize_cases p response :
  Forall aftermath (snd (after_finalize p response))
  /\ had_failure (fst (after_finalize p response))
     = had_failure p || negb (succeeded response).
Proof.
  unfold after_finalize. destruct (succeeded response).
  - rewrite orb_false_r.
    destruct response as [[code body [data|]]|]; split; repeat constructor.
  - rewrite orb_true_r. destruct response as [r|]; split; repeat constructor.
Qed.

(** A failed run is reported and exits with 1 before any lookup. *)
Lemma report_failed p h :
  had_failure p = true ->
  report w s NUM_TOGGLES p h
  = (Exit 1, [EvPrint PAutomationFailed; EvTelegram (NFailed (error_details p))]).
Proof. intros Hp. unfold report. rewrite Hp. reflexivity. Qed.

(** A successful run makes the lookup once and reports success whatever the
    lookup gives. *)
Lemma report_succeeded p h :
  had_failure p = false ->
  exists count wt,
    fetch_wallet_running_count w s
      ((h ++ [EvPrint (PAutomationCompleted NUM_TOGGLES)]) ++ [EvPrint PFetchingCount])
    = (Ret count, wt)
    /\ Forall wallet_event wt
    /\ (1 <= List.length (exchanges wt) <= 2)%nat
    /\ report w s NUM_TOGGLES p h
       = (Ret tt,
          EvPrint (PAutomationCompleted NUM_TOGGLES) :: EvPrint PFetchingCount
          :: wt ++ [count_line count; EvTelegram (NSuccess NUM_TOGGLES count)]).
Proof.
  intros Hp. unfold report. rewrite Hp.
  destruct (fetch_wallet_running_count_total w s
              ((h ++ [EvPrint (PAutomationCompleted NUM_TOGGLES)]) ++ [EvPrint PFetchingCount]))
    as (count & wt & Hrun & Hev & Hlen).
  exists count, wt. repeat split; try assumption; try lia.
  unfold bind, print, send_telegram_message, emit. rewrite Hrun.
  destruct count; cbn; rewrite <- ?app_assoc; reflexivity.
Qed.

Lemma wallet_event_aftermath e : wallet_event e -> aftermath e.
Proof.
  destruct e as [q o|x|line|msg|content]; cbn; try tauto. destruct line; tauto.
Qed.

(** The whole run, in three parts: the loop, the closing command, the
    report. *)
Lemma toggle_run_parts h :
  exists p1 clean ending response closing result tail,
    toggle_cycles w s STRATEGY_ID NUM_TOGGLES DELAY_SECONDS (Z.to_nat NUM_TOGGLES) 0
                  (mkProgress false []) h
    = (Ret p1, clean ++ ending)
    /\ Forall calm clean
    /\ ((ending = [] /\ had_failure p1 = false)
        \/ (exists x rest, ending = EvPrint (PFailed x) :: rest /\ Forall quiet rest
                           /\ had_failure p1 = true))
    /\ (Z.to_nat NUM_TOGGLES = 0%nat -> clean = [] /\ ending = [])
    /\ toggle_strategy w s (PyInt STRATEGY_ID) "Paused" 3 3
         ((h ++ clean ++ ending) ++ [EvPrint PFinalizing])
       = (Ret response, closing)
    /\ attempts (toggle_request s (PyInt STRATEGY_ID) "Paused") 3 3 1 None
                (Ret response) closing
    /\ report w s NUM_TOGGLES (fst (after_finalize p1 response))
         ((h ++ clean ++ ending)
          ++ EvPrint PFinalizing :: closing ++ snd (after_finalize p1 response))
       = (result, tail)
    /\ toggle_run w s STRATEGY_ID NUM_TOGGLES DELAY_SECONDS h
       = (result,
          (clean ++ ending)
          ++ (EvPrint PFinalizing :: closing ++ snd (after_finalize p1 response)) ++ tail).
Proof.
  destruct (toggle_cycles_trace w s STRATEGY_ID NUM_TOGGLES DELAY_SECONDS delay_nonneg
              (Z.to_nat NUM_TOGGLES) 0 (mkProgress false []) h)
    as (p1 & clean & ending & Hloop & Hclean & Hend & Hzero).
  destruct (toggle_default w s STRATEGY_ID "Paused"
              ((h ++ clean ++ ending) ++ [EvPrint PFinalizing]))
    as (response & closing & Hrun & Hshape).
  pose proof (finalize_after p1 _ _ _ Hrun) as Hfin.
  destruct (report w s NUM_TOGGLES (fst (after_finalize p1 response))
              ((h ++ clean ++ ending)
               ++ EvPrint PFinalizing :: closing ++ snd (after_finalize p1 response)))
    as [result tail] eqn:Hreport.
  exists p1, clean, ending, response, closing, result, tail.
  split; [exact Hloop|]. split; [exact Hclean|].
  split; [destruct Hend as [[-> Hsame]|Hbroke]; [left; auto | right; exact Hbroke]|].
  split; [intros Hnone; destruct (Hzero Hnone) as (-> & -> & _); auto|].
  split; [exact Hrun|]. split; [exact Hshape|]. split; [exact Hreport|].
  unfold toggle_run.
  destruct result as [[]|e|c].
  - eapply bind_Ret; [exact Hloop|].
    eapply bind_Ret; [exact Hfin | exact Hreport].
  - unfold bind at 1. rewrite Hloop. unfold bind at 1. rewrite Hfin, Hreport. reflexivity.
  - unfold bind at 1. rewrite Hloop. unfold bind at 1. rewrite Hfin, Hreport. reflexivity.
Qed.

End Run.
(** ** The loop as a sequence of commands *)

Lemma quiet_idle e : quiet e -> idle e.
Proof. destruct e; cbn; tauto. Qed.

Lemma attempts_idle_free q retries backoff attempt last result t :
  attempts q retries backoff attempt last result t -> Forall no_summary t.
Proof. induction 1; repeat constructor; assumption. Qed.

Lemma after_command_events label i NUM_TOGGLES p response :
  Forall idle (snd (after_command label i NUM_TOGGLES p response))
  /\ Forall no_summary (snd (after_command label i NUM_TOGGLES p response)).
Proof.
  unfold after_command. destruct (succeeded response).
  - destruct response as [[code body [data|]]|]; split; repeat constructor.
  - destruct response as [r|]; split; repeat constructor.
Qed.

Lemma loop_steps_after_idle w s STRATEGY_ID pre h steps t :
  Forall idle pre ->
  loop_steps w s STRATEGY_ID (h ++ pre) steps t ->
  loop_steps w s STRATEGY_ID h steps (pre ++ t).
Proof.
  intros Hpre Hsteps. inversion Hsteps as [h0 t0 Hidle|h0 before status response call rest
                                            steps0 Hidle Hcall Hrest]; subst.
  - apply loop_idle. apply Forall_app. auto.
  - rewrite app_assoc. apply loop_call.
    + apply Forall_app. auto.
    + rewrite app_assoc. exact Hcall.
    + rewrite app_assoc. exact Hrest.
Qed.

Lemma fail_fast_nil : fail_fast [].
Proof. intros pre st post Heq. destruct pre; discriminate. Qed.

Lemma fail_fast_last st : fail_fast [st].
Proof.
  intros pre st' post Heq _. destruct pre as [|x pre]; [injection Heq as _ <-; reflexivity|].
  destruct pre; discriminate.
Qed.

Lemma fail_fast_cons st steps :
  step_ok st = true -> fail_fast steps -> fail_fast (st :: steps).
Proof.
  intros Hok Hrest pre st' post Heq Hfail.
  destruct pre as [|x pre]; cbn [app] in Heq; injection Heq as <- Heq.
  - rewrite Hok in Hfail. discriminate.
  - exact (Hrest pre st' post Heq Hfail).
Qed.

Lemma cycle_commands_S n : cycle_commands (S n) = "Paused" :: "Start" :: cycle_commands n.
Proof. reflexivity. Qed.

Section Steps.

Variable w : world.
Variable s : session.
Variables STRATEGY_ID NUM_TOGGLES DELAY_SECONDS : Z.
Hypothesis delay_nonneg : 0 <= DELAY_SECONDS.

(** The loop, command by command: the commands alternate from ["Paused"]
    on, a command that fails is the last one, and without a failure all the
    [2 * left] commands are sent. *)
Lemma toggle_cycles_steps left : forall i p h,
  exists p' steps t,
    toggle_cycles w s STRATEGY_ID NUM_TOGGLES DELAY_SECONDS left i p h = (Ret p', t)
    /\ loop_steps w s STRATEGY_ID h steps t
    /\ map sent steps = firstn (List.length steps) (cycle_commands left)
    /\ fail_fast steps
    /\ had_failure p' = had_failure p || negb (forallb step_ok steps)
    /\ (List.length steps <= 2 * left)%nat
    /\ (forallb step_ok steps = true -> List.length steps = (2 * left)%nat)
    /\ Forall no_summary t.
Proof.
  induction left as [|left IH]; intros i p h.
  - exists p, [], []. split; [reflexivity|]. split; [apply loop_idle; constructor|].
    split; [reflexivity|]. split; [apply fail_fast_nil|].
    split; [cbn; rewrite orb_false_r; reflexivity|].
    split; [cbn; lia|]. split; [reflexivity | constructor].
  - set (e0 := EvPrint (PSendingStop (i + 1) NUM_TOGGLES)).
    destruct (toggle_default w s STRATEGY_ID "Paused" (h ++ [e0]))
      as (resp1 & t1 & Hrun1 & Hshape1).
    pose proof (command_after w s STRATEGY_ID "STOP" "Paused" i NUM_TOGGLES p _ _ _ Hrun1)
      as Hc1.
    pose proof (attempts_idle_free _ _ _ _ _ _ _ Hshape1) as Hns1.
    destruct (after_command_events "STOP" i NUM_TOGGLES p resp1) as [Hidle1 Hnsa1].
    destruct (after_command_cases "STOP" i NUM_TOGGLES p resp1)
      as [(Hb1 & Hok1 & Hf1 & _)|(Hb1 & Hok1 & Hf1 & _)];
      destruct (after_command "STOP" i NUM_TOGGLES p resp1) as [[p1 brk1] a1];
      cbn [fst snd] in *; subst brk1.
    2:{ exists p1, [mkStep "Paused" resp1], ([e0] ++ t1 ++ a1).
        split; [|split; [|split; [|split; [|split; [|split; [|split]]]]]].
        - cbn [toggle_cycles]. fold e0.
          erewrite bind_Ret; [| reflexivity |].
          2:{ eapply bind_Ret; [exact Hc1 | reflexivity]. }
          cbn [app]. rewrite app_nil_r. reflexivity.
        - apply loop_call; [repeat constructor | exact Hrun1|].
          apply loop_idle. exact Hidle1.
        - reflexivity.
        - apply fail_fast_last.
        - unfold step_ok; cbn [forallb answer]. rewrite Hok1, Hf1. cbn. rewrite orb_true_r.
          reflexivity.
        - cbn [List.length]. lia.
        - unfold step_ok; cbn [forallb answer]. rewrite Hok1. discriminate.
        - constructor; [exact I|]. apply Forall_app. auto. }
    set (h1 := (h ++ [e0]) ++ t1 ++ a1).
    set (e1 := EvPrint PSendingStart).
    destruct (toggle_default w s STRATEGY_ID "Start" ((h1 ++ [EvSleep DELAY_SECONDS]) ++ [e1]))
      as (resp2 & t2 & Hrun2 & Hshape2).
    pose proof (command_after w s STRATEGY_ID "START" "Start" i NUM_TOGGLES p1 _ _ _ Hrun2)
      as Hc2.
    pose proof (attempts_idle_free _ _ _ _ _ _ _ Hshape2) as Hns2.
    destruct (after_command_events "START" i NUM_TOGGLES p1 resp2) as [Hidle2 Hnsa2].
    assert (Hcall2 : toggle_strategy w s (PyInt STRATEGY_ID) "Start" 3 3
                       (((h ++ [e0]) ++ t1) ++ a1 ++ [EvSleep DELAY_SECONDS; e1])
                     = (Ret resp2, t2)).
    { etransitivity; [|exact Hrun2]. f_equal. subst h1.
      repeat (rewrite <- app_assoc; cbn [app]). reflexivity. }
    assert (Hbetween : Forall idle (a1 ++ [EvSleep DELAY_SECONDS; e1])).
    { apply Forall_app. split; [exact Hidle1 | repeat constructor]. }
    destruct (after_command_cases "START" i NUM_TOGGLES p1 resp2)
      as [(Hb2 & Hok2 & Hf2 & _)|(Hb2 & Hok2 & Hf2 & _)];
      destruct (after_command "START" i NUM_TOGGLES p1 resp2) as [[p2 brk2] a2];
      cbn [fst snd] in *; subst brk2.
    2:{ exists p2, [mkStep "Paused" resp1; mkStep "Start" resp2],
          ([e0] ++ t1 ++ (a1 ++ [EvSleep DELAY_SECONDS; e1]) ++ t2 ++ a2).
        split; [|split; [|split; [|split; [|split; [|split; [|split]]]]]].
        - cbn [toggle_cycles]. fold e0 e1.
          erewrite bind_Ret; [| reflexivity |].
          2:{ eapply bind_Ret; [exact Hc1|]. cbn beta iota. fold h1.
              eapply bind_Ret; [apply sleep_delay; exact delay_nonneg|].
              eapply bind_Ret; [reflexivity|].
              eapply bind_Ret; [exact Hc2 | reflexivity]. }
          cbn [app]. rewrite app_nil_r. repeat (rewrite <- app_assoc; cbn [app]).
          reflexivity.
        - apply loop_call; [repeat constructor | exact Hrun1|].
          apply loop_call; [exact Hbetween | exact Hcall2|].
          apply loop_idle. exact Hidle2.
        - reflexivity.
        - apply fail_fast_cons; [exact Hok1 | apply fail_fast_last].
        - unfold step_ok; cbn [forallb answer]. rewrite Hok1, Hok2, Hf2. cbn.
          rewrite orb_true_r. reflexivity.
        - cbn [List.length]. lia.
        - unfold step_ok; cbn [forallb answer]. rewrite Hok1, Hok2. discriminate.
        - constructor; [exact I|]. apply Forall_app. split; [exact Hns1|].
          apply Forall_app. split.
          + apply Forall_app. split; [exact Hnsa1 | repeat constructor].
          + apply Forall_app. auto. }
    set (h2 := ((h1 ++ [EvSleep DELAY_SECONDS]) ++ [e1]) ++ t2 ++ a2).
    destruct (pause_between NUM_TOGGLES DELAY_SECONDS delay_nonneg i h2)
      as (t3 & Hpause & Hcalm3).
    assert (Hidle3 : Forall idle t3 /\ Forall no_summary t3).
    { destruct (i <? NUM_TOGGLES - 1).
      - rewrite (sleep_delay DELAY_SECONDS delay_nonneg) in Hpause.
        injection Hpause as <-. split; repeat constructor.
      - injection Hpause as <-. split; constructor. }
    destruct Hidle3 as [Hidle3 Hns3].
    destruct (IH (i + 1) p2 (h2 ++ t3))
      as (p' & steps & t & Hrest & Hsteps & Hsent & Hfast & Hflag & Hmax & Hfull & Hns).
    exists p', (mkStep "Paused" resp1 :: mkStep "Start" resp2 :: steps),
      ([e0] ++ t1 ++ (a1 ++ [EvSleep DELAY_SECONDS; e1]) ++ t2 ++ (a2 ++ t3) ++ t).
    split; [|split; [|split; [|split; [|split; [|split; [|split]]]]]].
    + cbn [toggle_cycles]. fold e0 e1.
      erewrite bind_Ret; [| reflexivity |].
      2:{ eapply bind_Ret; [exact Hc1|]. cbn beta iota. fold h1.
          eapply bind_Ret; [apply sleep_delay; exact delay_nonneg|].
          eapply bind_Ret; [reflexivity|].
          eapply bind_Ret; [exact Hc2|]. cbn beta iota. fold h2.
          eapply bind_Ret; [exact Hpause | exact Hrest]. }
      cbn [app]. repeat (rewrite <- app_assoc; cbn [app]). reflexivity.
    + apply loop_call; [repeat constructor | exact Hrun1|].
      apply loop_call; [exact Hbetween | exact Hcall2|].
      apply loop_steps_after_idle; [apply Forall_app; auto|].
      assert (Hh : ((((h ++ [e0]) ++ t1) ++ a1 ++ [EvSleep DELAY_SECONDS; e1]) ++ t2)
                   ++ a2 ++ t3 = h2 ++ t3).
      { subst h2 h1. repeat (rewrite <- app_assoc; cbn [app]). reflexivity. }
      rewrite Hh. exact Hsteps.
    + rewrite cycle_commands_S. cbn [map sent List.length firstn]. rewrite Hsent. reflexivity.
    + apply fail_fast_cons; [exact Hok1|]. apply fail_fast_cons; [exact Hok2 | exact Hfast].
    + unfold step_ok; cbn [forallb answer]. rewrite Hok1, Hok2. cbn [andb].
      rewrite Hflag, Hf2, Hf1. reflexivity.
    + cbn [List.length]. lia.
    + unfold step_ok; cbn [forallb answer]. rewrite Hok1, Hok2. cbn [andb].
      intros Hall. specialize (Hfull Hall). cbn [List.length]. lia.
    + constructor; [exact I|]. apply Forall_app. split; [exact Hns1|].
      apply Forall_app. split.
      { apply Forall_app. split; [exact Hnsa1 | repeat constructor]. }
      apply Forall_app. split; [exact Hns2|].
      apply Forall_app. split; [apply Forall_app; auto | exact Hns].
Qed.

End Steps.

(** ** The orchestrator: classification of a step, fail-fast, closing command *)

Lemma succeeded_iff response :
  succeeded response = true <-> exists r, response = Some r /\ status_code r = 200.
Proof.
  unfold succeeded, ok. split.
  - destruct response as [r|]; [|discriminate].
    intros H. apply andb_prop in H as [_ H]. apply Z.eqb_eq in H. eauto.
  - intros (r & -> & Hcode). rewrite Hcode. reflexivity.
Qed.

Lemma after_first_failure clean x0 rest pre x post :
  Forall calm clean -> Forall quiet rest ->
  clean ++ EvPrint (PFailed x0) :: rest = pre ++ EvPrint (PFailed x) :: post ->
  Forall quiet post.
Proof.
  intros Hclean Hrest. revert pre.
  induction Hclean as [|c clean Hc Hclean IH]; intros pre Heq; cbn [app] in Heq.
  - apply cons_eq_app_mid in Heq as [(_ & _ & ->)|(pre' & -> & ->)]; [exact Hrest|].
    apply Forall_app in Hrest as [_ Hrest]. apply Forall_inv_tail in Hrest. exact Hrest.
  - apply cons_eq_app_mid in Heq as [(_ & -> & _)|(pre' & -> & Heq)].
    + contradiction Hc.
    + eapply IH. exact Heq.
Qed.

Lemma no_failure_in_calm clean pre x post :
  Forall calm clean -> clean <> pre ++ EvPrint (PFailed x) :: post.
Proof.
  intros Hclean ->. apply Forall_app in Hclean as [_ Hclean].
  apply Forall_inv in Hclean. exact Hclean.
Qed.

(** C2, as the code has it.  A step of the loop ends the loop, sets
    [had_failure] and records a failure exactly when [toggle_strategy]
    returned no response or a response whose status is not 200.  A 200
    response whose body does not decode as JSON is no failed step: the
    parse error is appended to [error_details] and notified (the events of
    the step after the call are the success line and that notification),
    [had_failure] keeps its value and the loop goes on. *)
Theorem command_classification w s STRATEGY_ID label status i NUM_TOGGLES p h :
  exists response t after p' stop,
    toggle_strategy w s (PyInt STRATEGY_ID) status 3 3 h = (Ret response, t)
    /\ command w s STRATEGY_ID label status i NUM_TOGGLES p h = (Ret (p', stop), t ++ after)
    /\ (stop = false <-> exists r, response = Some r /\ status_code r = 200)
    /\ (stop = true ->
        had_failure p' = true
        /\ error_details p'
           = error_details p
             ++ failure_lines (DCommandFailed label (i + 1) NUM_TOGGLES (shown_status response))
                              response
        /\ exists rest, after = EvPrint (PFailed (shown_status response)) :: rest)
    /\ (stop = false ->
        had_failure p' = had_failure p
        /\ forall r, response = Some r ->
             error_details p'
             = error_details p ++ match json r with
                                  | Some _ => []
                                  | None => [DJsonParseError label]
                                  end
             /\ after
                = EvPrint (PDone label 200)
                  :: match json r with
                     | Some data => [EvPrint (PJson data)]
                     | None => [EvTelegram (NJsonParseError label)]
                     end).
Proof.
  destruct (toggle_default w s STRATEGY_ID status h) as (response & t & Hrun & _).
  pose proof (command_after w s STRATEGY_ID label status i NUM_TOGGLES p h _ _ Hrun) as Hc.
  pose proof (succeeded_iff response) as Hiff.
  unfold after_command in Hc.
  destruct (succeeded response) eqn:Hok.
  - exists response, t.
    destruct response as [[code body [data|]]|]; try discriminate; cbn [fst snd] in Hc;
      eexists; eexists; eexists; (split; [exact Hrun|]); (split; [exact Hc|]);
      (split; [split; [intros _; apply Hiff; reflexivity | reflexivity]|]);
      (split; [discriminate|]); intros _; (split; [reflexivity|]);
      intros r Hr; injection Hr as <-; cbn [json error_details];
      rewrite ?app_nil_r; split; reflexivity.
  - exists response, t. cbn [fst snd] in Hc.
    eexists; eexists; eexists. split; [exact Hrun|]. split; [exact Hc|].
    split; [split; [discriminate | intros Hr; apply Hiff in Hr; discriminate]|].
    split; [|discriminate].
    intros _. split; [reflexivity|]. split; [reflexivity|]. eexists. reflexivity.
Qed.

(** C4, as the code has it.  For every number of cycles, every transport
    and every delay [>= 0], the events of the run are: those of the loop,
    then the closing announcement, the events of exactly one call of
    [toggle_strategy] with ["Paused"] (between one and three POSTs of that
    command), then a tail in which no command is sent or announced.

    The loop is a sequence of commands, each one call of [toggle_strategy]:
    they alternate ["Paused"], ["Start"] from the first cycle on; a command
    for which [toggle_strategy] returns no response or a response that is
    not a 200 is followed by no other command of the loop (fail-fast), and
    when no command fails all the commands of all the cycles are sent.
    With no cycle to run the loop adds nothing and the closing command is
    the only command.

    The run returns normally exactly when every command of the loop and the
    closing command succeeded, and then it ends with the success summary,
    which reports the configured number of cycles (0 when there is none).
    In every other case it exits with code 1 and ends with the failure
    report, which carries the error details: no success summary, and so no
    number of cycles, is printed or sent. *)
Theorem closing_command_always w s STRATEGY_ID NUM_TOGGLES DELAY_SECONDS h :
  0 <= DELAY_SECONDS ->
  exists steps cycles response closing tail result,
    toggle_run w s STRATEGY_ID NUM_TOGGLES DELAY_SECONDS h
    = (result, cycles ++ EvPrint PFinalizing :: closing ++ tail)
    /\ loop_steps w s STRATEGY_ID h steps cycles
    /\ map sent steps = firstn (List.length steps) (cycle_commands (Z.to_nat NUM_TOGGLES))
    /\ fail_fast steps
    /\ (forallb step_ok steps = true -> List.length steps = (2 * Z.to_nat NUM_TOGGLES)%nat)
    /\ (NUM_TOGGLES <= 0 -> steps = [] /\ cycles = [])
    /\ Forall (fun e => ~ closing_line e) cycles
    /\ (forall pre x post, cycles = pre ++ EvPrint (PFailed x) :: post -> Forall quiet post)
    /\ toggle_strategy w s (PyInt STRATEGY_ID) "Paused" 3 3
         ((h ++ cycles) ++ [EvPrint PFinalizing])
       = (Ret response, closing)
    /\ Forall (fun e => fst e = toggle_request s (PyInt STRATEGY_ID) "Paused")
              (exchanges closing)
    /\ (1 <= List.length (exchanges closing) <= 3)%nat
    /\ Forall aftermath tail
    /\ (result = Ret tt <-> forallb step_ok steps = true /\ succeeded response = true)
    /\ (result = Ret tt ->
        exists before count, tail = before ++ [EvTelegram (NSuccess NUM_TOGGLES count)])
    /\ (result <> Ret tt ->
        result = Exit 1
        /\ (exists before details, tail = before ++ [EvTelegram (NFailed details)])
        /\ Forall no_summary (cycles ++ EvPrint PFinalizing :: closing ++ tail)).
Proof.
  intros Hdelay.
  destruct (toggle_run_parts w s STRATEGY_ID NUM_TOGGLES DELAY_SECONDS Hdelay h)
    as (p1 & clean & ending & response & closing & result & tail
        & Hloop & Hclean & Hend & Hzero & Hrun & Hshape & Hreport & Hall).
  destruct (toggle_cycles_steps w s STRATEGY_ID NUM_TOGGLES DELAY_SECONDS Hdelay
              (Z.to_nat NUM_TOGGLES) 0 (mkProgress false []) h)
    as (p' & steps & t & Hloop' & Hsteps & Hsent & Hfast & Hflag & Hmax & Hfull & Hns).
  rewrite Hloop in Hloop'. injection Hloop' as <- <-.
  destruct (after_finalize_cases p1 response) as [Hfin_events Hfin_flag].
  rewrite Hflag in Hfin_flag. cbn [had_failure orb] in Hfin_flag.
  assert (Hfin_ns : Forall no_summary (snd (after_finalize p1 response))).
  { unfold after_finalize. destruct (succeeded response).
    - destruct response as [[code body [data|]]|]; repeat constructor.
    - destruct response as [r|]; repeat constructor. }
  exists steps, (clean ++ ending), response, closing,
    (snd (after_finalize p1 response) ++ tail), result.
  assert (Htail :
            Forall aftermath tail
            /\ (result = Ret tt <-> forallb step_ok steps = true /\ succeeded response = true)
            /\ (result = Ret tt ->
                exists before count,
                  tail = before ++ [EvTelegram (NSuccess NUM_TOGGLES count)])
            /\ (result <> Ret tt ->
                result = Exit 1
                /\ (exists before details, tail = before ++ [EvTelegram (NFailed details)])
                /\ Forall no_summary tail)).
  { destruct (had_failure (fst (after_finalize p1 response))) eqn:Hfailed.
    - rewrite (report_failed w s NUM_TOGGLES _ _ Hfailed) in Hreport.
      injection Hreport as <- <-.
      split; [repeat constructor|]. split; [|split].
      + split; [discriminate|]. intros [Hsteps_ok Hclosing_ok].
        rewrite Hsteps_ok, Hclosing_ok in Hfin_flag. discriminate.
      + discriminate.
      + intros _. split; [reflexivity|]. split; [|repeat constructor].
        exists [EvPrint PAutomationFailed],
          (error_details (fst (after_finalize p1 response))). reflexivity.
    - destruct (report_succeeded w s NUM_TOGGLES _
                  ((h ++ clean ++ ending)
                   ++ EvPrint PFinalizing :: closing ++ snd (after_finalize p1 response))
                  Hfailed)
        as (count & wt & _ & Hev & _ & Hrep).
      rewrite Hrep in Hreport. injection Hreport as <- <-.
      split; [|split; [|split]].
      + constructor; [exact I|]. constructor; [exact I|].
        apply Forall_app. split.
        * revert Hev. apply Forall_impl. apply wallet_event_aftermath.
        * destruct count; repeat constructor.
      + split; [|reflexivity]. intros _.
        destruct (forallb step_ok steps); [|discriminate].
        destruct (succeeded response); [auto | discriminate].
      + intros _.
        exists (EvPrint (PAutomationCompleted NUM_TOGGLES) :: EvPrint PFetchingCount
                :: wt ++ [count_line count]), count.
        cbn [app]. rewrite <- app_assoc. reflexivity.
      + intros Hnot. contradiction Hnot. reflexivity. }
  destruct Htail as (Htail & Hiff & Hsummary & Hfailure).
  split; [rewrite Hall; cbn [app]; rewrite <- !app_assoc; reflexivity|].
  split; [exact Hsteps|]. split; [exact Hsent|]. split; [exact Hfast|].
  split; [exact Hfull|].
  split.
  { intros Hnone. assert (Hnat : Z.to_nat NUM_TOGGLES = 0%nat) by lia.
    destruct (Hzero Hnat) as [-> ->]. split; [|reflexivity].
    rewrite Hnat in Hmax. destruct steps; [reflexivity | cbn in Hmax; lia]. }
  split.
  { apply Forall_app. split.
    - revert Hclean. apply Forall_impl. intros e He ->. exact He.
    - destruct Hend as [[-> _]|(x & rest & -> & Hquiet & _)]; [constructor|].
      constructor; [discriminate|].
      revert Hquiet. apply Forall_impl. intros e He ->. exact He. }
  split.
  { intros pre x post Heq.
    destruct Hend as [[-> _]|(x0 & rest & -> & Hquiet & _)].
    - rewrite app_nil_r in Heq. exfalso. eapply no_failure_in_calm; eauto.
    - eapply after_first_failure; eauto. }
  split; [exact Hrun|].
  split; [eapply attempts_requests; exact Hshape|].
  split.
  { pose proof (attempts_count _ _ _ _ _ _ _ Hshape) as Hcount.
    destruct (attempts_first _ _ _ _ _ _ _ Hshape ltac:(lia)) as (o & rest & ->).
    cbn [exchanges flat_map app List.length] in *. lia. }
  split; [apply Forall_app; auto|].
  split; [exact Hiff|].
  split.
  { intros Hok. destruct (Hsummary Hok) as (before & count & ->).
    exists (snd (after_finalize p1 response) ++ before), count.
    rewrite <- app_assoc. reflexivity. }
  intros Hnot. destruct (Hfailure Hnot) as (Hexit & (before & details & Hlast) & Hns_tail).
  split; [exact Hexit|]. split.
  { exists (snd (after_finalize p1 response) ++ before), details.
    rewrite Hlast, <- app_assoc. reflexivity. }
  apply Forall_app. split; [exact Hns|].
  constructor; [exact I|].
  apply Forall_app. split; [exact (attempts_idle_free _ _ _ _ _ _ _ Hshape)|].
  apply Forall_app. auto.
Qed.

(** Two cycles asked for, the first STOP answered 404: the loop ends there,
    and the closing command is still announced. *)
Lemma closing_command_always_witness :
  0 <= 1
  /\ exists result t,
       toggle_run (scripted_world [Resp (plain 404); Resp (plain 200)] (PyList []) [])
                  nobody 18713274 2 1 [] = (result, t)
       /\ In (EvPrint PFinalizing) t.
Proof.
  split; [lia|].
  destruct (closing_command_always
              (scripted_world [Resp (plain 404); Resp (plain 200)] (PyList []) [])
              nobody 18713274 2 1 [] ltac:(lia))
    as (steps & cycles & response & closing & tail & result & Hrun & _).
  exists result, (cycles ++ EvPrint PFinalizing :: closing ++ tail).
  split; [exact Hrun|]. apply in_or_app. right. left. reflexivity.
Defined.

(** C4 fails as stated: no cycle is asked for and the closing command gets
    no response in its three attempts.  The closing command is the only
    command, but the run ends with the failure report and exits with code
    1: no summary reports a number of cycles. *)
Lemma closing_failure_reports_no_count :
  let w := scripted_world [] (PyList []) [] in
  let paused := toggle_request nobody (PyInt 18713274) "Paused" in
  toggle_run w nobody 18713274 0 1 []
  = (Exit 1,
     [EvPrint PFinalizing;
      EvHttp paused ConnError; EvPrint (PRequestException 1 3); EvSleep 3;
      EvHttp paused ConnError; EvPrint (PRequestException 2 3); EvSleep 6;
      EvHttp paused ConnError; EvPrint (PRequestException 3 3);
      EvPrint (PFinalStopFailed None);
      EvPrint PAutomationFailed;
      EvTelegram (NFailed [DFinalStopFailed None])]).
Proof. reflexivity. Qed.

(** C2 fails as stated: one cycle in which the STOP command is answered 200
    with a body that is no JSON.  The step does not stop the loop and does
    not set [had_failure]: the START command is sent next, and the run ends
    as a success. *)
Lemma undecodable_step_is_not_failed :
  let w := scripted_world [Resp (garbled 200); Resp (plain 200); Resp (plain 200)]
                          (PyList []) [] in
  command w nobody 18713274 "STOP" "Paused" 0 1 (mkProgress false []) []
  = (Ret (mkProgress false [DJsonParseError "STOP"], false),
     [EvHttp (toggle_request nobody (PyInt 18713274) "Paused") (Resp (garbled 200));
      EvPrint (PDone "STOP" 200);
      EvTelegram (NJsonParseError "STOP")])
  /\ fst (toggle_run w nobody 18713274 1 0 []) = Ret tt
  /\ map fst (exchanges (snd (toggle_run w nobody 18713274 1 0 [])))
     = [toggle_request nobody (PyInt 18713274) "Paused";
        toggle_request nobody (PyInt 18713274) "Start";
        toggle_request nobody (PyInt 18713274) "Paused";
        validation_request nobody;
        mkRequest GET dashboard_url [("Accept", PyStr "text/html")] None []].
Proof. vm_compute. repeat split. Qed.

(** ** The running count *)

Lemma lookups_cons_http q o t :
  lookups (EvHttp q o :: t)
  = match req_method q with GET => q :: lookups t | POST => lookups t end.
Proof. unfold lookups, requests. cbn. destruct (req_method q); reflexivity. Qed.

Lemma no_lookup_lookups t :
  Forall no_lookup t -> lookups t = [] /\ ~ In (EvPrint PFetchingCount) t.
Proof.
  induction 1 as [|e t He Ht [IH1 IH2]]; [split; [reflexivity | intros []]|].
  split.
  - destruct e as [q o|x|line|msg|content]; try exact IH1.
    rewrite lookups_cons_http. cbn in He. rewrite He. exact IH1.
  - intros [Heq|Hin]; [|contradiction]. subst e. exact He.
Qed.

Lemma lookups_app t1 t2 : lookups (t1 ++ t2) = lookups t1 ++ lookups t2.
Proof. unfold lookups, requests. rewrite exchanges_app, map_app, filter_app. reflexivity. Qed.

Lemma calm_no_lookup e : calm e -> no_lookup e.
Proof. destruct e as [q o|x|line|msg|content]; cbn; try tauto. destruct line; tauto. Qed.

Lemma quiet_no_lookup e : quiet e -> no_lookup e.
Proof. destruct e as [q o|x|line|msg|content]; cbn; try tauto. destruct line; tauto. Qed.

Lemma wallet_lookups t :
  Forall wallet_event t -> List.length (lookups t) = List.length (exchanges t).
Proof.
  induction 1 as [|e t He Ht IH]; [reflexivity|].
  destruct e as [q o|x|line|msg|content]; try exact IH.
  rewrite lookups_cons_http. cbn in He. rewrite He.
  cbn [exchanges flat_map app List.length]. fold (exchanges t). rewrite IH. reflexivity.
Qed.

(** C9, as the code has it.  A run (delay [>= 0]) consists of the commands
    of the loop, the closing command and what follows, and it returns
    normally exactly when every command of the loop and the closing command
    succeeded.  It ends in one of two ways.
    When no step and not the closing command failed, it returns normally:
    up to the announcement of the lookup no GET is sent, then come the
    events of exactly one call of [fetch_wallet_running_count] (one or two
    GETs), the line for the count and the success notification carrying
    that count, whether the lookup found a count or not.  When a step or
    the closing command failed, the run exits with code 1 and performs no
    lookup at all: its trace has no GET and no lookup announcement. *)
Theorem running_count_lookup w s STRATEGY_ID NUM_TOGGLES DELAY_SECONDS h result t :
  0 <= DELAY_SECONDS ->
  toggle_run w s STRATEGY_ID NUM_TOGGLES DELAY_SECONDS h = (result, t) ->
  (exists steps cycles response closing rest,
      t = cycles ++ EvPrint PFinalizing :: closing ++ rest
      /\ loop_steps w s STRATEGY_ID h steps cycles
      /\ toggle_strategy w s (PyInt STRATEGY_ID) "Paused" 3 3
           ((h ++ cycles) ++ [EvPrint PFinalizing])
         = (Ret response, closing)
      /\ (result = Ret tt
          <-> forallb step_ok steps = true /\ succeeded response = true))
  /\
  ((result = Ret tt
   /\ exists before count wt,
        t = before ++ EvPrint PFetchingCount
                   :: wt ++ [count_line count; EvTelegram (NSuccess NUM_TOGGLES count)]
        /\ fetch_wallet_running_count w s ((h ++ before) ++ [EvPrint PFetchingCount])
           = (Ret count, wt)
        /\ lookups before = []
        /\ ~ In (EvPrint PFetchingCount) before
        /\ (1 <= List.length (lookups wt) <= 2)%nat)
  \/ (result = Exit 1
      /\ lookups t = []
      /\ ~ In (EvPrint PFetchingCount) t
      /\ exists earlier details, t = earlier ++ [EvTelegram (NFailed details)])).
Proof.
  intros Hdelay Hrun.
  destruct (toggle_run_parts w s STRATEGY_ID NUM_TOGGLES DELAY_SECONDS Hdelay h)
    as (p1 & clean & ending & response & closing & result' & tail
        & Hloop & Hclean & Hend & Hzero & Hclose & Hshape & Hreport & Hall).
  rewrite Hrun in Hall. injection Hall as -> ->.
  destruct (after_finalize_cases p1 response) as [Hfin_events Hfin_flag].
  split.
  { destruct (toggle_cycles_steps w s STRATEGY_ID NUM_TOGGLES DELAY_SECONDS Hdelay
                (Z.to_nat NUM_TOGGLES) 0 (mkProgress false []) h)
      as (p' & steps & t' & Hloop' & Hsteps & _ & _ & Hflag & _).
    rewrite Hloop in Hloop'. injection Hloop' as <- <-.
    rewrite Hflag in Hfin_flag. cbn [had_failure orb] in Hfin_flag.
    exists steps, (clean ++ ending), response, closing,
      (snd (after_finalize p1 response) ++ tail).
    split; [cbn [app]; rewrite <- !app_assoc; reflexivity|].
    split; [exact Hsteps|]. split; [exact Hclose|].
    destruct (had_failure (fst (after_finalize p1 response))) eqn:Hfailed.
    - rewrite (report_failed w s NUM_TOGGLES _ _ Hfailed) in Hreport.
      injection Hreport as <- <-.
      split; [discriminate|]. intros [Hsteps_ok Hclosing_ok].
      rewrite Hsteps_ok, Hclosing_ok in Hfin_flag. discriminate.
    - destruct (report_succeeded w s NUM_TOGGLES _
                  ((h ++ clean ++ ending)
                   ++ EvPrint PFinalizing :: closing ++ snd (after_finalize p1 response))
                  Hfailed)
        as (count & wt & _ & _ & _ & Hrep).
      rewrite Hrep in Hreport. injection Hreport as <- <-.
      split; [|reflexivity]. intros _.
      destruct (forallb step_ok steps); [|discriminate].
      destruct (succeeded response); [auto | discriminate]. }
  assert (Hquiet_part :
            Forall no_lookup ((clean ++ ending)
                              ++ EvPrint PFinalizing
                                 :: closing ++ snd (after_finalize p1 response))).
  { apply Forall_app. split.
    - apply Forall_app. split.
      + revert Hclean. apply Forall_impl. apply calm_no_lookup.
      + destruct Hend as [[-> _]|(x & rest & -> & Hquiet & _)]; [constructor|].
        constructor; [exact I|]. revert Hquiet. apply Forall_impl. apply quiet_no_lookup.
    - constructor; [exact I|]. apply Forall_app. split.
      + pose proof (toggle_events_calm s STRATEGY_ID _ _
                      (attempts_events _ _ _ _ _ _ _ Hshape)) as Hcalm.
        revert Hcalm. apply Forall_impl. apply calm_no_lookup.
      + unfold after_finalize. destruct (succeeded response).
        * destruct response as [[code body [data|]]|]; repeat constructor.
        * destruct response as [r|]; repeat constructor. }
  destruct (had_failure (fst (after_finalize p1 response))) eqn:Hflag.
  - right. rewrite (report_failed w s NUM_TOGGLES _ _ Hflag) in Hreport.
    injection Hreport as <- <-.
    split; [reflexivity|].
    assert (Hall : Forall no_lookup
                     (((clean ++ ending)
                       ++ EvPrint PFinalizing :: closing ++ snd (after_finalize p1 response))
                      ++ [EvPrint PAutomationFailed;
                          EvTelegram (NFailed (error_details (fst (after_finalize p1 response))))])).
    { apply Forall_app. split; [exact Hquiet_part | repeat constructor]. }
    rewrite <- app_assoc in Hall.
    destruct (no_lookup_lookups _ Hall) as [H1 H2].
    split; [exact H1|]. split; [exact H2|].
    exists (((clean ++ ending)
             ++ EvPrint PFinalizing :: closing ++ snd (after_finalize p1 response))
            ++ [EvPrint PAutomationFailed]),
      (error_details (fst (after_finalize p1 response))).
    cbn [app]. repeat (rewrite <- app_assoc; cbn [app]). reflexivity.
  - left.
    destruct (report_succeeded w s NUM_TOGGLES _
                ((h ++ clean ++ ending)
                 ++ EvPrint PFinalizing :: closing ++ snd (after_finalize p1 response)) Hflag)
      as (count & wt & Hwallet & Hev & Hlen & Hrep).
    rewrite Hrep in Hreport. injection Hreport as <- <-.
    split; [reflexivity|].
    exists (((clean ++ ending)
             ++ EvPrint PFinalizing :: closing ++ snd (after_finalize p1 response))
            ++ [EvPrint (PAutomationCompleted NUM_TOGGLES)]), count, wt.
    assert (Hbefore : Forall no_lookup
                        (((clean ++ ending)
                          ++ EvPrint PFinalizing :: closing ++ snd (after_finalize p1 response))
                         ++ [EvPrint (PAutomationCompleted NUM_TOGGLES)])).
    { apply Forall_app. split; [exact Hquiet_part | repeat constructor]. }
    destruct (no_lookup_lookups _ Hbefore) as [H1 H2].
    split; [cbn [app]; repeat (rewrite <- app_assoc; cbn [app]); reflexivity|].
    split.
    { etransitivity; [|exact Hwallet]. f_equal.
      cbn [app]. repeat (rewrite <- app_assoc; cbn [app]). reflexivity. }
    split; [exact H1|]. split; [exact H2|].
    rewrite (wallet_lookups _ Hev). exact Hlen.
Qed.

(** One cycle, every command answered 200, then no network for the lookup:
    the run still returns normally. *)
Lemma running_count_lookup_witness :
  let run := toggle_run (scripted_world [Resp (plain 200); Resp (plain 200); Resp (plain 200)]
                                        (PyList []) [])
                        nobody 18713274 1 1 [] in
  0 <= 1 /\ fst run <> Exit 1.
Proof.
  intros run. split; [lia|].
  destruct (running_count_lookup
              (scripted_world [Resp (plain 200); Resp (plain 200); Resp (plain 200)]
                              (PyList []) [])
              nobody 18713274 1 1 [] (fst run) (snd run) ltac:(lia) eq_refl)
    as [_ [[Hret _]|[Hexit _]]].
  - rewrite Hret. discriminate.
  - vm_compute in Hexit. discriminate.
Defined.

(** C9 fails as stated: the first STOP is answered 404 and the closing
    command 200.  The run has failed; it exits with code 1 and makes no
    lookup: no GET is sent and the lookup is never announced. *)
Lemma no_lookup_after_failed_run :
  let run := toggle_run (scripted_world [Resp (plain 404); Resp (plain 200)] (PyList []) [])
                        nobody 18713274 1 1 [] in
  fst run = Exit 1
  /\ lookups (snd run) = []
  /\ List.existsb (fun e => match e with EvPrint PFetchingCount => true | _ => false end)
                  (snd run) = false.
Proof. vm_compute. repeat split. Qed.

(** ** [load_session] *)

Section LoadSession.

Variable w : world.

Lemma set_cookies_records items : forall jar h,
  match records_of items with
  | Some cs => set_cookies items jar h = (Ret (jar ++ cs), [])
  | None => exists e, set_cookies items jar h = (Raise e, [])
  end.
Proof.
  induction items as [|item rest IH]; intros jar h; cbn [records_of set_cookies].
  - rewrite app_nil_r. reflexivity.
  - unfold record_of, bind, subscript, get_method, ret, raise.
    destruct item as [| | | | |items|entries];
      try (eexists; reflexivity).
    destruct (dict_get entries "name") as [name|]; [|eexists; reflexivity].
    destruct (dict_get entries "value") as [value|]; [|eexists; reflexivity].
    specialize (IH (jar ++ [mkCookie name value (dict_get entries "domain")])
                   (((h ++ []) ++ []) ++ [])).
    destruct (records_of rest) as [cs|].
    + rewrite IH. rewrite <- app_assoc. reflexivity.
    + destruct IH as [e ->]. eexists. reflexivity.
Qed.

Lemma iterate_items obj h :
  match items_of obj with
  | Some items => iterate obj h = (Ret items, [])
  | None => iterate obj h = (Raise TypeError, [])
  end.
Proof. destruct obj; reflexivity. Qed.

Lemma session_from_file_undecoded content h :
  jar_of_content w content = None ->
  exists e, session_from_file w content h = (Raise e, []).
Proof.
  unfold jar_of_content, session_from_file. intros Hnone.
  destruct (pickle_load w content) as [obj|]; [|eexists; reflexivity].
  unfold bind at 1. cbn [ret]. unfold bind at 1.
  pose proof (iterate_items obj (h ++ [])) as Hit.
  destruct (items_of obj) as [items|]; [|rewrite Hit; eexists; reflexivity].
  rewrite Hit. unfold bind at 1.
  pose proof (set_cookies_records items [] ((h ++ []) ++ [])) as Hset.
  rewrite Hnone in Hset. destruct Hset as [e ->]. eexists. reflexivity.
Qed.

Lemma session_from_file_decoded content h jar :
  jar_of_content w content = Some jar ->
  exists o,
    session_from_file w content h
    = (Ret (fst (after_probe (mkSession jar) o)),
       EvHttp (validation_request (mkSession jar)) o :: snd (after_probe (mkSession jar) o)).
Proof.
  unfold jar_of_content, session_from_file. intros Hsome.
  destruct (pickle_load w content) as [obj|]; [|discriminate].
  unfold bind at 1. cbn [ret]. unfold bind at 1.
  pose proof (iterate_items obj (h ++ [])) as Hit.
  destruct (items_of obj) as [items|]; [|discriminate].
  rewrite Hit. unfold bind at 1.
  pose proof (set_cookies_records items [] ((h ++ []) ++ [])) as Hset.
  rewrite Hsome in Hset. cbn [app] in Hset. rewrite Hset.
  unfold bind at 1, try_except, bind at 1, session_get, send.
  fold (validation_request (mkSession jar)).
  match goal with |- context [transport w ?h' _] => exists (transport w h' (validation_request (mkSession jar))) end.
  destruct (transport w _ (validation_request (mkSession jar))) as [|r]; [reflexivity|].
  cbn -[Z.eqb]. destruct (status_code r =? 200); reflexivity.
Qed.

(** Either the blob does not decode, and the function ends without a
    session and without a request; or it decodes to a jar, one probe is
    sent, and its outcome decides. *)
Lemma load_session_cases h :
  (decoded_jar w = None
   /\ exists loaded t,
        load_session w h = (loaded, t)
        /\ (loaded = Ret None \/ exists e, loaded = Raise e)
        /\ exchanges t = [])
  \/ (exists jar o pre,
        decoded_jar w = Some jar
        /\ load_session w h
           = (Ret (fst (after_probe (mkSession jar) o)),
              pre ++ EvHttp (validation_request (mkSession jar)) o
                  :: snd (after_probe (mkSession jar) o))
        /\ exchanges pre = []).
Proof.
  unfold decoded_jar, blob_content, load_session.
  destruct (cookies_file w) as [content|].
  - destruct (jar_of_content w content) as [jar|] eqn:Hjar.
    + right. destruct (session_from_file_decoded content h jar Hjar) as [o Ho].
      exists jar, o, []. auto.
    + left. destruct (session_from_file_undecoded content h Hjar) as [e He].
      split; [reflexivity|]. exists (Raise e), []. eauto.
  - destruct (env_cookies_b64 w) as [encoded|].
    2:{ left. split; [reflexivity|]. eexists; eexists. split; [reflexivity|]. auto. }
    destruct (String.eqb encoded "").
    { left. split; [reflexivity|]. eexists; eexists. split; [reflexivity|]. auto. }
    destruct (b64decode w encoded) as [content|].
    2:{ left. split; [reflexivity|]. eexists; eexists. split; [reflexivity|]. auto. }
    destruct (jar_of_content w content) as [jar|] eqn:Hjar.
    + right.
      destruct (session_from_file_decoded content
                  ((h ++ [EvWriteFile content]) ++ [EvPrint PCookiesRestored]) jar Hjar)
        as [o Ho].
      exists jar, o, [EvWriteFile content; EvPrint PCookiesRestored].
      split; [reflexivity|]. split; [|reflexivity].
      unfold bind, print, emit. rewrite Ho. reflexivity.
    + left.
      destruct (session_from_file_undecoded content
                  ((h ++ [EvWriteFile content]) ++ [EvPrint PCookiesRestored]) Hjar)
        as [e He].
      split; [reflexivity|].
      exists (Raise e), [EvWriteFile content; EvPrint PCookiesRestored].
      split; [|split; [eauto | reflexivity]].
      unfold bind, print, emit. rewrite He. reflexivity.
Qed.

End LoadSession.

Lemma after_probe_exchanges s o : exchanges (snd (after_probe s o)) = [].
Proof.
  destruct o as [|r]; [reflexivity|]. cbn -[Z.eqb].
  destruct (status_code r =? 200); reflexivity.
Qed.

Lemma dunder_main_without_session w STRATEGY_ID NUM_TOGGLES DELAY_SECONDS h loaded t :
  load_session w (h ++ [EvPrint PLoadingSession]) = (loaded, t) ->
  (loaded = Ret None ->
   dunder_main w STRATEGY_ID NUM_TOGGLES DELAY_SECONDS h
   = (Exit 1, EvPrint PLoadingSession :: t))
  /\ (forall e, loaded = Raise e ->
      dunder_main w STRATEGY_ID NUM_TOGGLES DELAY_SECONDS h
      = (Exit 1, EvPrint PLoadingSession
                 :: t ++ [EvPrint (PCritical e); EvTelegram (NCritical e)])).
Proof.
  intros Hload. unfold dunder_main, try_except, main, bind, print, send_telegram_message,
    sys_exit, emit.
  rewrite Hload. split.
  - intros ->. cbn [app]. rewrite app_nil_r. reflexivity.
  - intros e ->. reflexivity.
Qed.

(** C8. [load_session] yields a session only when the blob (the cookie
    file, or the decoded environment variable) unpickles to a collection
    whose items are all cookie records, which then fill the jar, and the one
    validation probe, a GET, is answered with status exactly 200.  When the
    blob does not decode, the function returns [None] or raises without any
    request; when the probe ends in a transport exception or in a status
    other than 200, it returns [None].  Whenever no session is yielded, the
    program exits with code 1 and has sent no command: every request of the
    whole run is a GET. *)
Theorem session_only_when_validated w STRATEGY_ID NUM_TOGGLES DELAY_SECONDS h loaded t :
  load_session w (h ++ [EvPrint PLoadingSession]) = (loaded, t) ->
  (forall s, loaded = Ret (Some s) ->
     decoded_jar w = Some (cookies s)
     /\ exists r, exchanges t = [(validation_request s, Resp r)] /\ status_code r = 200)
  /\ (decoded_jar w = None ->
      (loaded = Ret None \/ exists e, loaded = Raise e) /\ exchanges t = [])
  /\ (forall q o, In (q, o) (exchanges t) ->
        o = ConnError \/ (exists r, o = Resp r /\ status_code r <> 200) ->
        loaded = Ret None)
  /\ ((forall s, loaded <> Ret (Some s)) ->
      fst (dunder_main w STRATEGY_ID NUM_TOGGLES DELAY_SECONDS h) = Exit 1
      /\ Forall (fun q => req_method q = GET)
                (requests (snd (dunder_main w STRATEGY_ID NUM_TOGGLES DELAY_SECONDS h)))).
Proof.
  intros Hload.
  assert (Hmain : (forall s, loaded <> Ret (Some s)) ->
                  (loaded = Ret None \/ exists e, loaded = Raise e) ->
                  Forall (fun q => req_method q = GET) (requests t) ->
                  fst (dunder_main w STRATEGY_ID NUM_TOGGLES DELAY_SECONDS h) = Exit 1
                  /\ Forall (fun q => req_method q = GET)
                            (requests (snd (dunder_main w STRATEGY_ID NUM_TOGGLES
                                                        DELAY_SECONDS h)))).
  { intros _ Hkind Hget.
    destruct (dunder_main_without_session w STRATEGY_ID NUM_TOGGLES DELAY_SECONDS h _ _ Hload)
      as [Hnone Hraise].
    destruct Hkind as [Hk|[e Hk]].
    - rewrite (Hnone Hk). split; [reflexivity | exact Hget].
    - rewrite (Hraise e Hk). split; [reflexivity|].
      cbn [snd]. unfold requests in *. cbn [exchanges flat_map app].
      fold (exchanges (t ++ [EvPrint (PCritical e); EvTelegram (NCritical e)])).
      rewrite exchanges_app. cbn [exchanges flat_map app]. rewrite app_nil_r. exact Hget. }
  destruct (load_session_cases w (h ++ [EvPrint PLoadingSession]))
    as [(Hnone & loaded' & t' & Hload' & Hkind & Hno)|(jar & o & pre & Hjar & Hload' & Hpre)];
    rewrite Hload in Hload'; injection Hload' as -> ->.
  - split; [intros s ->; destruct Hkind as [?|[e ?]]; discriminate|].
    split; [auto|].
    split; [intros q o Hin; rewrite Hno in Hin; contradiction|].
    intros Hnot. apply Hmain; [exact Hnot | exact Hkind|].
    unfold requests. rewrite Hno. constructor.
  - assert (Hex : exchanges (pre ++ EvHttp (validation_request (mkSession jar)) o
                                 :: snd (after_probe (mkSession jar) o))
                  = [(validation_request (mkSession jar), o)]).
    { rewrite exchanges_app, Hpre. cbn [exchanges flat_map app].
      fold (exchanges (snd (after_probe (mkSession jar) o))).
      rewrite after_probe_exchanges. reflexivity. }
    rewrite Hex.
    split; [|split; [|split]].
    + intros s Heq. destruct o as [|r]; [discriminate|].
      cbn -[Z.eqb] in Heq. destruct (status_code r =? 200) eqn:Hcode; [|discriminate].
      cbn in Heq. injection Heq as <-. split; [exact Hjar|].
      exists r. split; [reflexivity | apply Z.eqb_eq; exact Hcode].
    + rewrite Hjar. discriminate.
    + intros q o' [Heq|[]] Hbad. injection Heq as _ <-.
      destruct Hbad as [->|(r & -> & Hcode)]; [reflexivity|].
      cbn -[Z.eqb]. apply Z.eqb_neq in Hcode. rewrite Hcode. reflexivity.
    + intros Hnot. apply Hmain; [exact Hnot| |].
      * destruct (fst (after_probe (mkSession jar) o)) as [s|]; [|left; reflexivity].
        contradiction (Hnot s). reflexivity.
      * unfold requests. rewrite Hex. repeat constructor.
Qed.

(** A cookie file holding one record, and a probe answered 200. *)
Lemma session_only_when_validated_witness :
  let jar := PyList [PyDict [("name", PyStr "XSRF-TOKEN"); ("value", PyStr "abc");
                             ("domain", PyStr ".tradetron.tech")]] in
  let w := scripted_world [Resp (plain 200)] jar [] in
  exists s,
    fst (load_session w ([] ++ [EvPrint PLoadingSession])) = Ret (Some s)
    /\ decoded_jar w = Some (cookies s).
Proof.
  intros jar w.
  exists (mkSession [mkCookie (PyStr "XSRF-TOKEN") (PyStr "abc") (Some (PyStr ".tradetron.tech"))]).
  split; [reflexivity|].
  exact (proj1 (proj1 (session_only_when_validated w 18713274 1 1 [] _ _ eq_refl) _ eq_refl)).
Defined.

(** ** [find_status] *)

(** Induction on Python values, through lists and dicts. *)
Lemma pyval_induction (P : pyval -> Prop) :
  P PyNone -> (forall b, P (PyBool b)) -> (forall z, P (PyInt z)) ->
  (forall shown, P (PyFloat shown)) -> (forall s, P (PyStr s)) ->
  (forall items, Forall P items -> P (PyList items)) ->
  (forall entries, Forall (fun kv => P (snd kv)) entries -> P (PyDict entries)) ->
  forall v, P v.
Proof.
  intros Hnone Hbool Hint Hfloat Hstr Hlist Hdict.
  fix IH 1. intros v. destruct v as [| b | z | shown | s | items | entries].
  - exact Hnone.
  - apply Hbool.
  - apply Hint.
  - apply Hfloat.
  - apply Hstr.
  - apply Hlist.
    induction items as [|item rest IHrest]; constructor; [apply IH | exact IHrest].
  - apply Hdict.
    induction entries as [|[k v] rest IHrest]; constructor; [apply IH | exact IHrest].
Qed.

Section FindStatus.

Variable w : world.

Lemma scan_status_keys_first order node :
  scan_status_keys order node
  = match present_status_keys order node with
    | [] => None
    | s_key :: _ =>
        match dict_get node s_key with
        | Some value => Some (label_of value)
        | None => None
        end
    end.
Proof.
  unfold present_status_keys, dict_has.
  induction order as [|s_key rest IH]; [reflexivity|].
  cbn [scan_status_keys filter].
  destruct (dict_get node s_key) as [value|] eqn:Hget; [|exact IH].
  rewrite Hget. unfold label_of.
  destruct value; try reflexivity.
  destruct (scan_inner_keys inner_keys entries); reflexivity.
Qed.

(** The loop over the identifier keys: a match or not, whatever the order;
    then the first status key the dict has. *)
Lemma scan_id_keys_matches strategy_id keys node :
  scan_id_keys w strategy_id keys node
  = if existsb (fun key => match dict_get node key with
                           | Some found => String.eqb (Py.str found) (Py.str strategy_id)
                           | None => false
                           end) keys
    then scan_status_keys (status_keys_order w) node
    else None.
Proof.
  induction keys as [|key rest IH]; [reflexivity|].
  cbn [scan_id_keys existsb].
  destruct (dict_get node key) as [found|]; [|exact IH].
  destruct (String.eqb (Py.str found) (Py.str strategy_id)); [|exact IH].
  cbn [orb]. destruct (scan_status_keys (status_keys_order w) node) as [result|] eqn:Hscan.
  - reflexivity.
  - rewrite IH. destruct (existsb _ rest); reflexivity.
Qed.



Hypothesis id_order : Permutation (id_keys_order w) id_keys.
Hypothesis status_order : Permutation (status_keys_order w) status_keys.




End FindStatus.



(** ** [fetch_current_status]: the chain of probes and the fallback *)

Section ProbeChain.

Variable w : world.
Variable s : session.
Variable strategy_id : pyval.

(** One probe of the chain, by the outcome of its request. *)
Lemma probe_loop_cons probe rest data response h :
  probe_loop w (probe :: rest) data response h
  = match transport w h probe with
    | ConnError =>
        let '(x, t) := probe_loop w rest data response
                         (h ++ [EvHttp probe ConnError; EvPrint PProbeRequestFailed]) in
        (x, EvHttp probe ConnError :: EvPrint PProbeRequestFailed :: t)
    | Resp r =>
        if negb (status_code r =? 200) then
          let '(x, t) := probe_loop w rest data (Some r) (h ++ [EvHttp probe (Resp r)]) in
          (x, EvHttp probe (Resp r) :: t)
        else
          match json r with
          | None =>
              let '(x, t) := probe_loop w rest data (Some r)
                               (h ++ [EvHttp probe (Resp r); EvPrint PProbeJsonFailed]) in
              (x, EvHttp probe (Resp r) :: EvPrint PProbeJsonFailed :: t)
          | Some d =>
              if truthy d then (Ret (Some d, Some r), [EvHttp probe (Resp r)])
              else
                let '(x, t) := probe_loop w rest (Some d) (Some r)
                                 (h ++ [EvHttp probe (Resp r)]) in
                (x, EvHttp probe (Resp r) :: t)
          end
    end.
Proof.
  cbn [probe_loop]. unfold bind, try_except, send, print, emit, ret.
  destruct (transport w h probe) as [|r]; cbn [app]; rewrite <- ?app_assoc, ?app_nil_r;
    cbn [app].
  - reflexivity.
  - destruct (negb (status_code r =? 200)).
    + destruct (probe_loop w rest data (Some r) _) as [[x| |] t]; reflexivity.
    + destruct (json r) as [d|].
      * destruct (truthy d); [reflexivity|].
        destruct (probe_loop w rest (Some d) (Some r) _) as [[x| |] t]; reflexivity.
      * rewrite <- ?app_assoc. cbn [app].
        destruct (probe_loop w rest data (Some r) _) as [[x| |] t]; reflexivity.
Qed.

Lemma final_response_cons e ex :
  ex <> [] -> final_response (e :: ex) = final_response ex.
Proof. destruct ex; [contradiction | reflexivity]. Qed.

Lemma probed_winner_nonempty todo ex d : probed todo ex (Some d) -> ex <> [].
Proof. inversion 1; discriminate. Qed.

Lemma probe_loop_probed todo : forall data response h,
  falsy data = true ->
  exists data' response' t win,
    probe_loop w todo data response h = (Ret (data', response'), t)
    /\ probed todo (exchanges t) win
    /\ match win with
       | Some d => data' = Some d /\ truthy d = true
                   /\ exists r, response' = Some r /\ final_response (exchanges t) = Some r
       | None => falsy data' = true
       end.
Proof.
  induction todo as [|probe rest IH]; intros data response h Hfalsy.
  - exists data, response, [], None. repeat split; [constructor | exact Hfalsy].
  - rewrite probe_loop_cons.
    assert (Hstep : forall o pre data0 response0 h0,
               usable o = None -> exchanges pre = [] -> falsy data0 = true ->
               exists data' response' t win,
                 (let '(x, t) := probe_loop w rest data0 response0 h0 in
                  (x, EvHttp probe o :: pre ++ t))
                 = (Ret (data', response'), t)
                 /\ probed (probe :: rest) (exchanges t) win
                 /\ match win with
                    | Some d => data' = Some d /\ truthy d = true
                                /\ exists r, response' = Some r
                                             /\ final_response (exchanges t) = Some r
                    | None => falsy data' = true
                    end).
    { intros o pre data0 response0 h0 Hun Hpre Hf0.
      destruct (IH data0 response0 h0 Hf0) as (data' & response' & t & win & Hrun & Hp & Hwin).
      rewrite Hrun.
      exists data', response', (EvHttp probe o :: pre ++ t), win.
      assert (Hex : exchanges (EvHttp probe o :: pre ++ t) = (probe, o) :: exchanges t).
      { cbn [exchanges flat_map app]. fold (exchanges (pre ++ t)).
        rewrite exchanges_app, Hpre. reflexivity. }
      rewrite Hex. split; [reflexivity|]. split; [apply probed_continues; assumption|].
      destruct win as [d|]; [|exact Hwin].
      destruct Hwin as (Hd & Ht & r & Hr & Hfinal). repeat split; auto.
      exists r. split; [exact Hr|].
      rewrite final_response_cons; [exact Hfinal|].
      eapply probed_winner_nonempty. exact Hp. }
    destruct (transport w h probe) as [|r] eqn:Hout.
    + apply (Hstep ConnError [EvPrint PProbeRequestFailed]); auto.
    + destruct (status_code r =? 200) eqn:Hcode; cbn [negb].
      2:{ apply (Hstep (Resp r) []); auto. cbn -[Z.eqb]. rewrite Hcode. reflexivity. }
      destruct (json r) as [d|] eqn:Hjson.
      2:{ apply (Hstep (Resp r) [EvPrint PProbeJsonFailed]); auto.
          cbn -[Z.eqb]. rewrite Hcode, Hjson. reflexivity. }
      destruct (truthy d) eqn:Htruthy.
      * exists (Some d), (Some r), [EvHttp probe (Resp r)], (Some d).
        split; [reflexivity|]. split.
        -- apply probed_wins. cbn -[Z.eqb]. rewrite Hcode, Hjson, Htruthy. reflexivity.
        -- repeat split; auto. exists r. auto.
      * apply (Hstep (Resp r) []); auto.
        -- cbn -[Z.eqb]. rewrite Hcode, Hjson, Htruthy. reflexivity.
        -- cbn. rewrite Htruthy. reflexivity.
Qed.

Lemma fetch_status_from_html_cases h :
  fetch_status_from_html w s strategy_id h
  = match transport w h (html_request s) with
    | ConnError => (Raise RequestException, [EvHttp (html_request s) ConnError])
    | Resp r =>
        (match html_label w strategy_id r with
         | Some label => Ret (label, r)
         | None => Raise AssertionError
         end,
         [EvHttp (html_request s) (Resp r)])
    end.
Proof.
  unfold fetch_status_from_html, session_get, bind, send, html_label.
  fold (html_request s).
  destruct (transport w h (html_request s)) as [|r]; [reflexivity|].
  destruct (status_code r =? 200); [|reflexivity].
  cbn [negb]. destruct (html_tokens w (text r)); reflexivity.
Qed.

(** The whole function: the chain, then either the extraction from the
    payload that ended it, or the HTML fallback, whose request is not
    guarded. *)
Lemma fetch_current_status_cases h :
  exists response t win,
    probed (probes s strategy_id) (exchanges t) win
    /\ match win with
       | Some d =>
           fetch_current_status w s strategy_id h
           = (Ret (find_status w strategy_id d, response), t)
           /\ exists r, response = Some r /\ final_response (exchanges t) = Some r
       | None =>
           match transport w (h ++ t) (html_request s) with
           | ConnError =>
               fetch_current_status w s strategy_id h
               = (Raise RequestException, t ++ [EvHttp (html_request s) ConnError])
           | Resp r =>
               fetch_current_status w s strategy_id h
               = (match html_label w strategy_id r with
                  | Some label =>
                      Ret (if StatusHTMLParser.nonempty label
                           then (label, Some r)
                           else ("", response))
                  | None => Raise AssertionError
                  end,
                  t ++ [EvHttp (html_request s) (Resp r)])
           end
       end.
Proof.
  destruct (probe_loop_probed (probes s strategy_id) None None h eq_refl)
    as (data' & response' & t & win & Hrun & Hprobed & Hwin).
  exists response', t, win. split; [exact Hprobed|].
  assert (Hunfold :
            fetch_current_status w s strategy_id h
            = (let '(r0, t2) :=
                 match data' with
                 | Some d =>
                     if truthy d then ret (find_status w strategy_id d, response')
                     else
                       '(html_status, html_response) <- fetch_status_from_html w s strategy_id ;;
                       if StatusHTMLParser.nonempty html_status
                       then ret (html_status, Some html_response)
                       else ret ("", response')
                 | None =>
                     '(html_status, html_response) <- fetch_status_from_html w s strategy_id ;;
                     if StatusHTMLParser.nonempty html_status
                     then ret (html_status, Some html_response)
                     else ret ("", response')
                 end (h ++ t) in
               (r0, t ++ t2))).
  { unfold fetch_current_status, bind at 1. rewrite Hrun. reflexivity. }
  rewrite Hunfold. clear Hunfold.
  destruct win as [d|].
  - destruct Hwin as (-> & Htruthy & Hr). rewrite Htruthy.
    split; [cbn; rewrite app_nil_r; reflexivity | exact Hr].
  - assert (Hfallback :
              (let '(r0, t2) :=
                 ('(html_status, html_response) <- fetch_status_from_html w s strategy_id ;;
                  if StatusHTMLParser.nonempty html_status
                  then ret (html_status, Some html_response)
                  else ret ("", response')) (h ++ t) in
               (r0, t ++ t2))
              = match transport w (h ++ t) (html_request s) with
                | ConnError => (Raise RequestException, t ++ [EvHttp (html_request s) ConnError])
                | Resp r =>
                    (match html_label w strategy_id r with
                     | Some label =>
                         Ret (if StatusHTMLParser.nonempty label
                              then (label, Some r)
                              else ("", response'))
                     | None => Raise AssertionError
                     end,
                     t ++ [EvHttp (html_request s) (Resp r)])
                end).
    { unfold bind. rewrite fetch_status_from_html_cases.
      destruct (transport w (h ++ t) (html_request s)) as [|r]; [reflexivity|].
      destruct (html_label w strategy_id r) as [label|]; [|reflexivity].
      destruct (StatusHTMLParser.nonempty label);
        cbn; rewrite ?app_nil_r; reflexivity. }
    destruct data' as [d|].
    + unfold falsy in Hwin. apply negb_true_iff in Hwin. rewrite Hwin.
      destruct (transport w (h ++ t) (html_request s)); exact Hfallback.
    + destruct (transport w (h ++ t) (html_request s)); exact Hfallback.
Qed.

(** *** What the chain relation says *)

Lemma probed_prefix todo ex win :
  probed todo ex win -> map fst ex = firstn (List.length ex) todo.
Proof. induction 1; cbn; try rewrite IHprobed; reflexivity. Qed.

Lemma probed_length todo ex win :
  probed todo ex win -> (List.length ex <= List.length todo)%nat.
Proof. induction 1; cbn; lia. Qed.

(** An exchange that is followed by another brought nothing usable; a
    usable payload is the last exchange and the winner. *)
Lemma probed_first_usable todo ex win :
  probed todo ex win ->
  forall pre q o post,
    ex = pre ++ (q, o) :: post ->
    (post <> [] -> usable o = None)
    /\ (forall d, usable o = Some d -> post = [] /\ win = Some d).
Proof.
  induction 1; intros pre q o' post Heq.
  - destruct pre; discriminate.
  - apply cons_eq_app_mid in Heq as [(_ & Hx & <-)|(pre' & -> & Heq)].
    + injection Hx as _ <-. split; [intros Hpost; contradiction Hpost; reflexivity|].
      intros d' Hd. split; [reflexivity | congruence].
    + destruct pre'; discriminate.
  - apply cons_eq_app_mid in Heq as [(_ & Hx & <-)|(pre' & -> & Heq)].
    + injection Hx as _ <-. split; [intros _; exact H|].
      intros d Hd. congruence.
    + eapply IHprobed. exact Heq.
Qed.

(** When no payload ended the chain, every probe was tried. *)
Lemma probed_exhausted todo ex win :
  probed todo ex win -> win = None ->
  map fst ex = todo /\ Forall (fun e => usable (snd e) = None) ex.
Proof.
  induction 1; intros Hnone; try discriminate.
  - split; constructor.
  - destruct (IHprobed Hnone) as [Hmap Hall]. split.
    + cbn. rewrite Hmap. reflexivity.
    + constructor; [cbn [snd]; assumption | assumption].
Qed.

End ProbeChain.

(** C3, as the code has it.  [fetch_current_status] sends the probes in the
    fixed order POST filter/dashboard, GET status, GET details, and stops at
    the first one that brings a usable payload: status 200, a body that
    decodes as JSON, and a decoded value that is truthy.  A transport
    exception, a status other than 200, an undecodable body and also a
    decoded but empty or falsy value are passed over and the next probe is
    sent.  The payload that ends the chain is the one the label is extracted
    from and no further request is made; so when a second exchange took
    place and brought a usable payload, there is no third.  When no probe
    ends the chain, all three were sent and one request for the dashboard
    page follows. *)
Theorem probe_chain w s strategy_id h result t :
  fetch_current_status w s strategy_id h = (result, t) ->
  exists chain rest win,
    exchanges t = chain ++ rest
    /\ probed (probes s strategy_id) chain win
    /\ map fst chain = firstn (List.length chain) (probes s strategy_id)
    /\ (forall pre q o post,
          chain = pre ++ (q, o) :: post ->
          (post <> [] -> usable o = None)
          /\ (forall d, usable o = Some d -> post = [] /\ win = Some d))
    /\ match win with
       | Some d =>
           rest = []
           /\ exists response, result = Ret (find_status w strategy_id d, response)
       | None =>
           map fst chain = probes s strategy_id
           /\ exists o, rest = [(html_request s, o)]
       end
    /\ (forall first second d more,
          exchanges t = first :: second :: more -> usable (snd second) = Some d ->
          more = []
          /\ exists response, result = Ret (find_status w strategy_id d, response)).
Proof.
  intros Hrun.
  destruct (fetch_current_status_cases w s strategy_id h) as (response & pt & win & Hprobed & Hcase).
  assert (Hmain : exists chain rest,
             exchanges t = chain ++ rest
             /\ chain = exchanges pt
             /\ match win with
                | Some d =>
                    rest = []
                    /\ exists response, result = Ret (find_status w strategy_id d, response)
                | None => exists o, rest = [(html_request s, o)]
                end).
  { destruct win as [d|].
    - destruct Hcase as [Heq _]. rewrite Hrun in Heq. injection Heq as -> ->.
      exists (exchanges pt), []. rewrite app_nil_r. repeat split. eauto.
    - destruct (transport w (h ++ pt) (html_request s)) as [|r];
        rewrite Hrun in Hcase; injection Hcase as -> ->;
        eexists (exchanges pt), _; rewrite exchanges_app; (split; [reflexivity|]);
        (split; [reflexivity|]); eexists; reflexivity. }
  destruct Hmain as (chain & rest & Hex & -> & Hwin).
  exists (exchanges pt), rest, win.
  split; [exact Hex|]. split; [exact Hprobed|].
  split; [eapply probed_prefix; exact Hprobed|].
  split; [eapply probed_first_usable; exact Hprobed|].
  split.
  { destruct win as [d|]; [exact Hwin|].
    split; [|exact Hwin]. eapply probed_exhausted; [exact Hprobed | reflexivity]. }
  intros first second d more Heq Husable.
  assert (Hchain : exists more', exchanges pt = first :: second :: more'
                                 /\ more = more' ++ rest).
  { destruct win as [d'|].
    - destruct Hwin as [-> _]. rewrite app_nil_r in Hex. exists more.
      rewrite app_nil_r. split; congruence.
    - destruct Hwin as [o ->].
      destruct (probed_exhausted _ _ _ Hprobed eq_refl) as [Hmap _].
      pose proof (f_equal (@List.length _) Hmap) as Hlen. rewrite length_map in Hlen.
      cbn in Hlen.
      destruct (exchanges pt) as [|e1 [|e2 [|e3 [|e4 ex]]]]; try discriminate.
      rewrite Heq in Hex. cbn in Hex. injection Hex as -> -> ->.
      exists [e3]. auto. }
  destruct Hchain as (more' & Hchain & ->).
  destruct second as [q2 o2]. cbn [snd] in Husable.
  destruct (probed_first_usable _ _ _ Hprobed [first] q2 o2 more' Hchain) as [_ Hlast].
  destruct (Hlast d Husable) as [-> ->].
  destruct Hwin as [-> Hres]. split; [reflexivity | exact Hres].
Qed.

(** Probe 1 answered 503, probe 2 answered 200 with a matching document. *)
Lemma probe_chain_witness :
  let w := scripted_world
             [Resp (plain 503);
              Resp (mkResponse 200 "{...}" (Some (nested_doc (PyInt 42))))]
             (PyList []) [] in
  exists response,
    fst (fetch_current_status w nobody (PyInt 42) []) = Ret ("Running", response)
    /\ List.length (exchanges (snd (fetch_current_status w nobody (PyInt 42) []))) = 2%nat.
Proof.
  intros w.
  destruct (probe_chain w nobody (PyInt 42) [] _ _ eq_refl)
    as (chain & rest & win & _ & _ & _ & _ & _ & Hexample).
  destruct (Hexample _ _ (nested_doc (PyInt 42)) _ eq_refl eq_refl) as [_ [response Hres]].
  exists response. split; [exact Hres | reflexivity].
Defined.

(** C3 fails as stated: probe 1 is answered 200 with the JSON document
    [{}], which decodes; probe 2 is sent all the same, and the label comes
    from the payload of probe 2. *)
Lemma empty_json_does_not_end_chain :
  let empty := mkResponse 200 "{}" (Some (PyDict [])) in
  let full := mkResponse 200 "{...}" (Some (nested_doc (PyInt 42))) in
  let w := scripted_world [Resp empty; Resp full] (PyList []) [] in
  json empty = Some (PyDict [])
  /\ fetch_current_status w nobody (PyInt 42) []
     = (Ret ("Running", Some full),
        [EvHttp (nth 0 (probes nobody (PyInt 42)) (html_request nobody)) (Resp empty);
         EvHttp (nth 1 (probes nobody (PyInt 42)) (html_request nobody)) (Resp full)]).
Proof. vm_compute. split; reflexivity. Qed.

(** C7 fails on the code: the request of the HTML fallback is sent outside
    any [try].  When no request of the session gets through, the three
    probes are passed over one after the other and the exception of the
    fourth request leaves [fetch_current_status]. *)
Theorem html_fallback_exception_escapes w s strategy_id h :
  (forall h' q, transport w h' q = ConnError) ->
  fst (fetch_current_status w s strategy_id h) = Raise RequestException
  /\ map snd (exchanges (snd (fetch_current_status w s strategy_id h)))
     = [ConnError; ConnError; ConnError; ConnError].
Proof.
  intros Hdown.
  assert (Hrun : exists t,
             fetch_current_status w s strategy_id h = (Raise RequestException, t)
             /\ map snd (exchanges t) = [ConnError; ConnError; ConnError; ConnError]).
  { unfold fetch_current_status, probes, bind at 1.
    rewrite !probe_loop_cons, !Hdown. cbn [probe_loop ret].
    unfold bind. rewrite fetch_status_from_html_cases, Hdown.
    eexists. split; reflexivity. }
  destruct Hrun as (t & -> & Ht). split; [reflexivity | exact Ht].
Qed.

Lemma html_fallback_exception_escapes_witness :
  (forall h' q, transport (scripted_world [] (PyList []) []) h' q = ConnError)
  /\ fst (fetch_current_status (scripted_world [] (PyList []) []) nobody (PyInt 18713274) [])
     = Raise RequestException.
Proof.
  assert (Hdown : forall h' q, transport (scripted_world [] (PyList []) []) h' q = ConnError).
  { intros h' q. cbn. unfold scripted. destruct (List.length (exchanges h')); reflexivity. }
  split; [exact Hdown|].
  exact (proj1 (html_fallback_exception_escapes (scripted_world [] (PyList []) []) nobody
                  (PyInt 18713274) [] Hdown)).
Defined.
(** ** The bookkeeping of [StatusHTMLParser] *)

Module ParserInvariant.

Import StatusHTMLParser.

(** The bookkeeping the handlers keep: inside the fragment the depth is at
    least 1, outside it is 0; a capture is only pending while the parser is
    waiting for the span of a status; the strategy id is the one the parser
    was made for. *)
Definition consistent (sid : pyval) (p : t) : Prop :=
  strategy_id p = Py.str sid
  /\ (in_target p = true -> 1 <= target_depth p)
  /\ (in_target p = false -> target_depth p = 0)
  /\ (capture_status p = true -> awaiting_status_span p = true).

Lemma consistent_init sid : consistent sid (init sid).
Proof. unfold consistent, init. cbn. repeat split; intros; solve [lia | discriminate]. Qed.

Lemma consistent_handle sid p e : consistent sid p -> consistent sid (handle p e).
Proof.
  destruct p as [id target depth awaiting capture st].
  unfold consistent. cbn [strategy_id in_target target_depth awaiting_status_span
                          capture_status status].
  intros (Hid & Hin & Hout & Hcap).
  destruct e as [tag attrs|tag|data]; cbn [handle].
  - unfold handle_starttag. cbn [strategy_id in_target target_depth awaiting_status_span
                                  capture_status status].
    destruct (_ && _ && _ && _).
    + cbn. repeat split; auto; intros; lia || discriminate.
    + destruct target.
      * cbn [strategy_id in_target target_depth awaiting_status_span capture_status status].
        specialize (Hin eq_refl). repeat split; auto; try (intros; lia || discriminate).
        destruct (String.eqb tag "span" && awaiting && negb (nonempty st)) eqn:Hspan;
          [|exact Hcap].
        intros _. apply andb_prop in Hspan as [Hspan _].
        apply andb_prop in Hspan as [_ Hawait]. exact Hawait.
      * cbn. repeat split; auto.
  - unfold handle_endtag. cbn [strategy_id in_target target_depth awaiting_status_span
                                capture_status status].
    destruct target; [|cbn; repeat split; auto].
    destruct (depth - 1 <=? 0) eqn:Hdepth;
      cbn [strategy_id in_target target_depth awaiting_status_span capture_status status];
      repeat split; auto; try (intros; discriminate);
        try (intros _; apply Z.leb_gt in Hdepth; lia);
        destruct (capture && String.eqb tag "span"); auto; intros; discriminate.
  - unfold handle_data. cbn [strategy_id in_target target_depth awaiting_status_span
                              capture_status status].
    destruct target; cbn [negb]; [|repeat split; auto].
    destruct (nonempty (Py.strip data)); cbn [negb]; [|repeat split; auto].
    destruct (str_in "Status" (Py.strip data)).
    + cbn. repeat split; auto.
    + destruct (capture && negb (nonempty st)); cbn; repeat split; auto.
Qed.

(** A token that is not the start of a matching div leaves a parser that
    is outside the fragment as it is. *)
Definition opens (sid : pyval) (e : html_event) : bool :=
  match e with
  | StartTag tag attrs =>
      String.eqb tag "div" && nonempty (element_id attrs)
      && str_in (Py.str sid) (element_id attrs)
  | _ => false
  end.

Lemma outside_unchanged sid p e :
  strategy_id p = Py.str sid -> in_target p = false -> opens sid e = false ->
  handle p e = p.
Proof.
  destruct p as [id target depth awaiting capture st].
  cbn [strategy_id in_target]. intros -> -> Hopens.
  destruct e as [tag attrs|tag|data]; cbn [handle]; try reflexivity.
  unfold handle_starttag. cbn [strategy_id in_target target_depth awaiting_status_span
                                capture_status status].
  cbn [opens] in Hopens. rewrite Hopens. reflexivity.
Qed.

End ParserInvariant.
(** ** [StatusHTMLParser] *)

Module ParserFacts.

Import StatusHTMLParser.

Lemma str_in_nonempty needle text :
  needle <> "" -> str_in needle text = true -> nonempty text = true.
Proof.
  intros Hneedle Hin. destruct text; [|reflexivity].
  destruct needle; [contradiction|]. discriminate.
Qed.

(** A token changes the captured status only when it is a text received in
    the target, after the span was opened, with nothing captured before. *)
Lemma status_changes_only_by_capture p e :
  status (handle p e) <> status p ->
  in_target p = true /\ capture_status p = true /\ status p = ""
  /\ exists data, e = Data data /\ status (handle p e) = Py.strip data.
Proof.
  destruct p as [sid target depth awaiting capture st].
  destruct e as [tag attrs|tag|data]; cbn [handle].
  - unfold handle_starttag. cbn [strategy_id in_target target_depth awaiting_status_span
                                  capture_status status].
    destruct (_ && _ && _ && _); [intros H; contradiction H; reflexivity|].
    destruct target; intros H; contradiction H; reflexivity.
  - unfold handle_endtag. cbn [strategy_id in_target target_depth awaiting_status_span
                                capture_status status].
    destruct target; [|intros H; contradiction H; reflexivity].
    destruct (depth - 1 <=? 0); intros H; contradiction H; reflexivity.
  - unfold handle_data. cbn [strategy_id in_target target_depth awaiting_status_span
                              capture_status status].
    destruct target; cbn [negb]; [|intros H; contradiction H; reflexivity].
    destruct (nonempty (Py.strip data)); cbn [negb]; [|intros H; contradiction H; reflexivity].
    destruct (str_in "Status" (Py.strip data)); [intros H; contradiction H; reflexivity|].
    destruct capture; cbn [andb]; [|intros H; contradiction H; reflexivity].
    unfold nonempty. destruct (String.eqb st "") eqn:Hst; cbn [negb];
      [|intros H; contradiction H; reflexivity].
    apply String.eqb_eq in Hst. subst st. intros _. repeat split. eauto.
Qed.

(** Once a status is captured, it stays. *)
Lemma status_kept p tokens :
  nonempty (status p) = true -> status (feed p tokens) = status p.
Proof.
  unfold feed. revert p. induction tokens as [|e rest IH]; intros p Hset; [reflexivity|].
  cbn [fold_left].
  assert (Hsame : status (handle p e) = status p).
  { destruct (string_dec (status (handle p e)) (status p)) as [Heq|Hne]; [exact Heq|].
    destruct (status_changes_only_by_capture p e Hne) as (_ & _ & Hempty & _).
    rewrite Hempty in Hset. discriminate. }
  rewrite IH; [exact Hsame | rewrite Hsame; exact Hset].
Qed.

Lemma feed_app p a b : feed p (a ++ b) = feed (feed p a) b.
Proof. unfold feed. apply fold_left_app. Qed.

Lemma feed_cons p e rest : feed p (e :: rest) = feed (handle p e) rest.
Proof. reflexivity. Qed.

(** The tokens that leave the flags [awaiting_status_span] = [a] and
    [capture_status] = [c] of a parser in the target as they are. *)
Definition keeps (a c : bool) (e : html_event) : bool :=
  match e with
  | StartTag tag _ => negb (String.eqb tag "span" && a) || c
  | EndTag tag => negb (c && String.eqb tag "span")
  | Data d => if has_status d then a else negb (c && proper d)
  end.

Lemma walk tokens : forall sid depth a c st,
  stays depth tokens = true -> forallb (keeps a c) tokens = true ->
  feed (mk sid true depth a c st) tokens = mk sid true (depth + rise tokens) a c st.
Proof.
  induction tokens as [|e rest IH]; intros sid depth a c st Hstays Hkeeps.
  - cbn [feed fold_left rise]. rewrite Z.add_0_r. reflexivity.
  - cbn [forallb] in Hkeeps. apply andb_prop in Hkeeps as [He Hrest].
    rewrite feed_cons.
    destruct e as [tag attrs|tag|d]; cbn [handle stays rise keeps] in *.
    + assert (Hstep : handle_starttag (mk sid true depth a c st) tag attrs
                      = mk sid true (depth + 1) a c st).
      { unfold handle_starttag.
        cbn [strategy_id in_target target_depth awaiting_status_span capture_status status].
        cbn [negb]. rewrite andb_false_r.
        destruct (String.eqb tag "span" && a) eqn:Hspan; cbn [negb orb andb] in *.
        - subst c. destruct (negb (nonempty st)); reflexivity.
        - reflexivity. }
      rewrite Hstep, (IH _ _ _ _ _ Hstays Hrest). f_equal. lia.
    + apply andb_prop in Hstays as [Hdeep Hstays].
      assert (Hstep : handle_endtag (mk sid true depth a c st) tag
                      = mk sid true (depth - 1) a c st).
      { unfold handle_endtag.
        cbn [strategy_id in_target target_depth awaiting_status_span capture_status status].
        apply negb_true_iff in He. rewrite He.
        apply Z.ltb_lt in Hdeep.
        destruct (depth - 1 <=? 0) eqn:Hlow; [apply Z.leb_le in Hlow; lia | reflexivity]. }
      rewrite Hstep, (IH _ _ _ _ _ Hstays Hrest). f_equal. lia.
    + assert (Hstep : handle_data (mk sid true depth a c st) d = mk sid true depth a c st).
      { unfold handle_data, proper, has_status in *.
        cbn [strategy_id in_target target_depth awaiting_status_span capture_status status].
        cbn [negb].
        destruct (nonempty (Py.strip d)) eqn:Hne; cbn [negb]; [|reflexivity].
        destruct (str_in "Status" (Py.strip d)); [subst a; reflexivity|].
        cbn [negb andb] in He. rewrite andb_true_r in He.
        apply negb_true_iff in He. rewrite He. reflexivity. }
      rewrite Hstep. exact (IH _ _ _ _ _ Hstays Hrest).
Qed.

Lemma unarmed_keeps tokens : unarmed tokens = true -> forallb (keeps false false) tokens = true.
Proof.
  unfold unarmed. induction tokens as [|e rest IH]; [reflexivity|].
  cbn [forallb]. intros H. apply andb_prop in H as [He Hrest].
  rewrite (IH Hrest), andb_true_r.
  destruct e as [tag attrs|tag|d]; cbn [keeps].
  - rewrite andb_false_r. reflexivity.
  - reflexivity.
  - apply negb_true_iff in He. rewrite He. reflexivity.
Qed.

Lemma no_span_keeps tokens : no_span tokens = true -> forallb (keeps true false) tokens = true.
Proof.
  unfold no_span. induction tokens as [|e rest IH]; [reflexivity|].
  cbn [forallb]. intros H. apply andb_prop in H as [He Hrest].
  rewrite (IH Hrest), andb_true_r.
  destruct e as [tag attrs|tag|d]; cbn [keeps].
  - rewrite andb_true_r, orb_false_r. exact He.
  - reflexivity.
  - destruct (has_status d); reflexivity.
Qed.

Lemma pending_keeps tokens : pending tokens = true -> forallb (keeps true true) tokens = true.
Proof.
  unfold pending. induction tokens as [|e rest IH]; [reflexivity|].
  cbn [forallb]. intros H. apply andb_prop in H as [He Hrest].
  rewrite (IH Hrest), andb_true_r.
  destruct e as [tag attrs|tag|d]; cbn [keeps].
  - apply orb_true_r.
  - exact He.
  - destruct (has_status d); [reflexivity | exact He].
Qed.

(** In the target, with nothing captured and no capture armed: a text
    with the word Status, then tokens without the start of a span, the start
    of a span, tokens that leave the capture pending, and a proper text. *)
Lemma capture_after_status p d mid1 attrs mid2 x rest :
  in_target p = true -> status p = "" -> capture_status p = false ->
  has_status d = true ->
  no_span mid1 = true -> stays (target_depth p) mid1 = true ->
  pending mid2 = true -> stays (target_depth p + rise mid1 + 1) mid2 = true ->
  proper x = true ->
  status (feed p (Data d :: mid1 ++ StartTag "span" attrs :: mid2 ++ Data x :: rest))
  = Py.strip x.
Proof.
  destruct p as [sid target depth awaiting capture st].
  cbn [in_target status capture_status target_depth].
  intros -> -> -> Hd Hmid1 Hstays1 Hmid2 Hstays2 Hx.
  rewrite feed_cons. cbn [handle].
  assert (Harm : handle_data (mk sid true depth awaiting false "") d
                 = mk sid true depth true false "").
  { unfold handle_data, has_status in *.
    cbn [strategy_id in_target target_depth awaiting_status_span capture_status status].
    rewrite (str_in_nonempty "Status" _ ltac:(discriminate) Hd), Hd. reflexivity. }
  rewrite Harm, feed_app, (walk _ _ _ _ _ _ Hstays1 (no_span_keeps _ Hmid1)).
  rewrite feed_cons. cbn [handle].
  assert (Hspan : handle_starttag (mk sid true (depth + rise mid1) true false "") "span" attrs
                  = mk sid true (depth + rise mid1 + 1) true true "").
  { unfold handle_starttag.
    cbn [strategy_id in_target target_depth awaiting_status_span capture_status status].
    cbn [negb]. rewrite andb_false_r. reflexivity. }
  rewrite Hspan, feed_app, (walk _ _ _ _ _ _ Hstays2 (pending_keeps _ Hmid2)).
  rewrite feed_cons. cbn [handle].
  assert (Hcapture : handle_data (mk sid true (depth + rise mid1 + 1 + rise mid2) true true "") x
                     = mk sid true (depth + rise mid1 + 1 + rise mid2) true true (Py.strip x)).
  { unfold handle_data, proper, has_status in *.
    cbn [strategy_id in_target target_depth awaiting_status_span capture_status status].
    apply andb_prop in Hx as [Hne Hnot]. apply negb_true_iff in Hnot.
    rewrite Hne, Hnot. reflexivity. }
  rewrite Hcapture, status_kept; [reflexivity|].
  cbn [status]. apply andb_prop in Hx as [Hne _]. exact Hne.
Qed.

Lemma outside_tokens sid pre :
  forallb (fun e => negb (ParserInvariant.opens sid e)) pre = true ->
  feed (init sid) pre = init sid.
Proof.
  unfold feed. intros Hnone.
  induction pre as [|e rest IH]; [reflexivity|].
  cbn [forallb] in Hnone. apply andb_prop in Hnone as [He Hrest].
  cbn [fold_left].
  rewrite (ParserInvariant.outside_unchanged sid); try reflexivity.
  - apply IH. exact Hrest.
  - apply negb_true_iff. exact He.
Qed.

(** The same from the start of a page: tokens without a matching div, the
    start of a matching div, tokens that arm nothing, and then as above. *)
Lemma capture_in_page sid pre div_attrs mid0 d mid1 attrs mid2 x rest :
  forallb (fun e => negb (ParserInvariant.opens sid e)) pre = true ->
  ParserInvariant.opens sid (StartTag "div" div_attrs) = true ->
  unarmed mid0 = true -> stays 1 mid0 = true ->
  has_status d = true ->
  no_span mid1 = true -> stays (1 + rise mid0) mid1 = true ->
  pending mid2 = true -> stays (1 + rise mid0 + rise mid1 + 1) mid2 = true ->
  proper x = true ->
  status (feed (init sid)
            (pre ++ StartTag "div" div_attrs
                 :: mid0 ++ Data d :: mid1 ++ StartTag "span" attrs :: mid2 ++ Data x :: rest))
  = Py.strip x.
Proof.
  intros Hpre Hdiv Hmid0 Hstays0 Hd Hmid1 Hstays1 Hmid2 Hstays2 Hx.
  rewrite feed_app, (outside_tokens sid pre Hpre), feed_cons. cbn [handle].
  assert (Henter : handle_starttag (init sid) "div" div_attrs
                   = mk (Py.str sid) true 1 false false "").
  { unfold handle_starttag, init.
    cbn [strategy_id in_target target_depth awaiting_status_span capture_status status].
    cbn [ParserInvariant.opens] in Hdiv. rewrite Hdiv. reflexivity. }
  rewrite Henter, feed_app, (walk _ _ _ _ _ _ Hstays0 (unarmed_keeps _ Hmid0)).
  apply capture_after_status; auto.
Qed.

(** How far the target reaches. *)
Lemma target_extent b : forall p,
  in_target p = true -> stays (target_depth p) b = true ->
  in_target (feed p b) = true /\ target_depth (feed p b) = target_depth p + rise b.
Proof.
  induction b as [|e rest IH]; intros p Htarget Hstays.
  - cbn [feed fold_left rise]. split; [exact Htarget | lia].
  - rewrite feed_cons.
    assert (Hstep : in_target (handle p e) = true
                    /\ target_depth (handle p e) = target_depth p + rise [e]
                    /\ stays (target_depth (handle p e)) rest = true).
    { destruct p as [sid target depth awaiting capture st].
      cbn [in_target target_depth] in *. subst target.
      destruct e as [tag attrs|tag|d]; cbn [handle stays rise] in *.
      - unfold handle_starttag.
        cbn [strategy_id in_target target_depth awaiting_status_span capture_status status].
        cbn [negb]. rewrite andb_false_r. cbn [in_target target_depth].
        split; [reflexivity|]. split; [lia | exact Hstays].
      - apply andb_prop in Hstays as [Hdeep Hstays]. apply Z.ltb_lt in Hdeep.
        unfold handle_endtag.
        cbn [strategy_id in_target target_depth awaiting_status_span capture_status status].
        destruct (depth - 1 <=? 0) eqn:Hlow; [apply Z.leb_le in Hlow; lia|].
        cbn [in_target target_depth]. split; [reflexivity|]. split; [lia | exact Hstays].
      - unfold handle_data.
        cbn [strategy_id in_target target_depth awaiting_status_span capture_status status].
        cbn [negb].
        destruct (nonempty (Py.strip d)); cbn [negb];
          [|split; [reflexivity|]; split; [cbn; lia | exact Hstays]].
        destruct (str_in "Status" (Py.strip d));
          [split; [reflexivity|]; split; [cbn; lia | exact Hstays]|].
        destruct (capture && negb (nonempty st));
          split; try reflexivity; split; cbn; try lia; exact Hstays. }
    destruct Hstep as (Hin & Hdepth & Hrest).
    destruct (IH _ Hin Hrest) as [Hin' Hdepth'].
    split; [exact Hin'|]. rewrite Hdepth', Hdepth.
    destruct e; cbn [rise]; lia.
Qed.

Lemma target_left p b tag :
  in_target p = true -> stays (target_depth p) b = true ->
  target_depth p + rise b = 1 ->
  in_target (feed p (b ++ [EndTag tag])) = false.
Proof.
  intros Htarget Hstays Hone.
  destruct (target_extent b p Htarget Hstays) as [Hin Hdepth].
  rewrite feed_app. cbn [feed fold_left handle].
  change (fold_left handle b p) with (feed p b).
  unfold handle_endtag. rewrite Hin, Hdepth, Hone. reflexivity.
Qed.

End ParserFacts.

(** C6, as the code has it.  The parser reads the page token by token.

    It enters the target at the start tag of a div whose id contains the
    strategy id, and while it is in the target every start tag counts the
    depth one up and every end tag one down: it stays in the target as long
    as no end tag brings the depth to 0, and leaves it at the end tag that
    does (parts 5 and 6).  The target is therefore not the element: a start
    tag without an end tag keeps it open beyond the end tag of the div.

    In the target, with nothing captured and no capture armed: after a text
    with ["Status"] in it, the next start tag of a span arms the capture,
    whatever tokens come between as long as they keep the parser in the
    target; the first text after it whose stripped form is not empty and has
    no ["Status"] in it becomes the status, provided that no end tag of a
    span and no leaving of the target comes before it (part 1; part 2 is the
    same for a page, from the first matching div on).  A captured status is
    never replaced (part 3), and a token changes the status only when it is
    a text received while the parser is in the target and the capture is
    armed (part 4): outside the target nothing is captured. *)
Theorem markup_fallback_capture :
  (forall p d mid1 attrs mid2 x rest,
      StatusHTMLParser.in_target p = true ->
      StatusHTMLParser.status p = "" ->
      StatusHTMLParser.capture_status p = false ->
      has_status d = true ->
      no_span mid1 = true -> stays (StatusHTMLParser.target_depth p) mid1 = true ->
      pending mid2 = true ->
      stays (StatusHTMLParser.target_depth p + rise mid1 + 1) mid2 = true ->
      proper x = true ->
      StatusHTMLParser.status
        (StatusHTMLParser.feed p
           (Data d :: mid1 ++ StartTag "span" attrs :: mid2 ++ Data x :: rest))
      = Py.strip x)
  /\ (forall sid pre div_attrs mid0 d mid1 attrs mid2 x rest,
        forallb (fun e => negb (ParserInvariant.opens sid e)) pre = true ->
        ParserInvariant.opens sid (StartTag "div" div_attrs) = true ->
        unarmed mid0 = true -> stays 1 mid0 = true ->
        has_status d = true ->
        no_span mid1 = true -> stays (1 + rise mid0) mid1 = true ->
        pending mid2 = true -> stays (1 + rise mid0 + rise mid1 + 1) mid2 = true ->
        proper x = true ->
        StatusHTMLParser.status
          (StatusHTMLParser.feed (StatusHTMLParser.init sid)
             (pre ++ StartTag "div" div_attrs
                  :: mid0 ++ Data d
                  :: mid1 ++ StartTag "span" attrs :: mid2 ++ Data x :: rest))
        = Py.strip x)
  /\ (forall p tokens,
        StatusHTMLParser.nonempty (StatusHTMLParser.status p) = true ->
        StatusHTMLParser.status (StatusHTMLParser.feed p tokens) = StatusHTMLParser.status p)
  /\ (forall p e,
        StatusHTMLParser.status (StatusHTMLParser.handle p e) <> StatusHTMLParser.status p ->
        StatusHTMLParser.in_target p = true
        /\ StatusHTMLParser.capture_status p = true
        /\ StatusHTMLParser.status p = ""
        /\ exists data, e = Data data
                        /\ StatusHTMLParser.status (StatusHTMLParser.handle p e)
                           = Py.strip data)
  /\ (forall p b,
        StatusHTMLParser.in_target p = true ->
        stays (StatusHTMLParser.target_depth p) b = true ->
        StatusHTMLParser.in_target (StatusHTMLParser.feed p b) = true
        /\ StatusHTMLParser.target_depth (StatusHTMLParser.feed p b)
           = StatusHTMLParser.target_depth p + rise b)
  /\ (forall p b tag,
        StatusHTMLParser.in_target p = true ->
        stays (StatusHTMLParser.target_depth p) b = true ->
        StatusHTMLParser.target_depth p + rise b = 1 ->
        StatusHTMLParser.in_target (StatusHTMLParser.feed p (b ++ [EndTag tag])) = false).
Proof.
  split; [exact ParserFacts.capture_after_status|].
  split; [exact ParserFacts.capture_in_page|].
  split; [exact ParserFacts.status_kept|].
  split; [exact ParserFacts.status_changes_only_by_capture|].
  split; [intros p b; exact (ParserFacts.target_extent b p) | exact ParserFacts.target_left].
Qed.

(** [<p>x</p><div id="strategy-42"><b>Live</b> Status: <i></i>
    <span> <em>Paused</em></span></div>] for the strategy 42: tokens before
    the div, between the div and the text with Status, between that text
    and the span, and between the start of the span and the captured text. *)
Lemma markup_fallback_capture_witness :
  StatusHTMLParser.status
    (StatusHTMLParser.feed (StatusHTMLParser.init (PyInt 42))
       ([StartTag "p" []; Data "x"; EndTag "p"]
        ++ StartTag "div" [("id", Some "strategy-42")]
        :: [StartTag "b" []; Data "Live"; EndTag "b"]
        ++ Data " Status: "
        :: [StartTag "i" []; EndTag "i"]
        ++ StartTag "span" []
        :: [Data " "; StartTag "em" []]
        ++ Data "Paused" :: [EndTag "em"; EndTag "span"; EndTag "div"]))
  = "Paused".
Proof.
  exact (proj1 (proj2 markup_fallback_capture)
           (PyInt 42) [StartTag "p" []; Data "x"; EndTag "p"] [("id", Some "strategy-42")]
           [StartTag "b" []; Data "Live"; EndTag "b"] " Status: "
           [StartTag "i" []; EndTag "i"] []
           [Data " "; StartTag "em" []] "Paused" [EndTag "em"; EndTag "span"; EndTag "div"]
           eq_refl eq_refl eq_refl eq_refl eq_refl eq_refl eq_refl eq_refl eq_refl eq_refl).
Defined.

(** C6 fails as stated, in two ways.
    [<div id="strategy-42">Status<span>Status: Paused</span></div>]: inside
    the div a text with ["Status"] is followed by a span, but the text of
    that span has ["Status"] in it and the parser captures nothing.
    [<div id="strategy-42"><br></div>Status<span>Leaked</span>]: the start
    tag of the void element is counted and never closed, the parser is
    still in the target after the end tag of the div, and the text of a span
    that lies outside the div is captured. *)
Lemma markup_capture_misses_and_leaks :
  StatusHTMLParser.status
    (StatusHTMLParser.feed (StatusHTMLParser.init (PyInt 42))
       [StartTag "div" [("id", Some "strategy-42")]; Data "Status";
        StartTag "span" []; Data "Status: Paused"; EndTag "span"; EndTag "div"])
  = ""
  /\ StatusHTMLParser.status
       (StatusHTMLParser.feed (StatusHTMLParser.init (PyInt 42))
          [StartTag "div" [("id", Some "strategy-42")]; StartTag "br" []; EndTag "div";
           Data "Status"; StartTag "span" []; Data "Leaked"; EndTag "span"])
     = "Leaked".
Proof. split; reflexivity. Qed.

(** ** The cookie jar of the library

    The jar of [requests] does more than [set_cookies] and [jar_get] say.
    [RequestsCookieJar.set(name, value, domain=domain)] raises
    [AttributeError] for a domain that is no [str], removes the cookies of
    the name for the value [None], rewrites a value written between double
    quotes and replaces the cookie it already holds under the same domain
    and name; [RequestsCookieJar.get(name)] raises [CookieConflictError]
    when the jar holds the name more than once.  The conditions below single
    out the jars for which none of this happens: on them the library does
    what the model does. *)

Definition named (name : string) (c : cookie) : bool :=
  match cookie_name c with
  | PyStr n => String.eqb n name
  | _ => false
  end.

(** The jar holds each of the two token names at most once: the lookup of
    the token (lines 82, 222 and 342) does not raise. *)
Definition unambiguous (jar : list cookie) : Prop :=
  (List.length (filter (named "XSRF-TOKEN") jar) <= 1)%nat
  /\ (List.length (filter (named "X-XSRF-TOKEN") jar) <= 1)%nat.

(** A record with a [str] for its name, its value and its domain, the value
    not written between double quotes. *)
Definition plain_cookie (c : cookie) : bool :=
  match cookie_name c, cookie_value c, cookie_domain c with
  | PyStr _, PyStr v, Some (PyStr _) => negb (String.prefix (String dquote "") v)
  | _, _, _ => false
  end.

(** Records that the jar keeps apart and as they are. *)
Definition plain_jar (jar : list cookie) : Prop :=
  Forall (fun c => plain_cookie c = true) jar /\ NoDup (map cookie_name jar).

(** ** More on [toggle_strategy] *)

Lemma attempts_result_is_last q retries backoff attempt last result t :
  attempts q retries backoff attempt last result t ->
  result = Ret (match exchanges t with
                | [] => last
                | _ => final_response (exchanges t)
                end).
Proof.
  induction 1; try reflexivity.
  - destruct (attempts_first _ _ _ _ _ _ _ H0 ltac:(lia)) as (o & rest & ->).
    exact IHattempts.
  - destruct (attempts_first _ _ _ _ _ _ _ H1 ltac:(lia)) as (o & rest & ->).
    exact IHattempts.
Qed.

(** X1. What a call returns is the outcome of the last request it sent:
    the response of that request, whatever its status, or [None] when that
    request raised; the responses of earlier attempts never come back.  A
    budget of zero or fewer attempts sends nothing and returns [None]. *)
Theorem toggle_strategy_returns_last_outcome w s strategy_id status retries backoff h :
  0 <= backoff ->
  fst (toggle_strategy w s strategy_id status retries backoff h)
  = Ret (final_response (exchanges (snd (toggle_strategy w s strategy_id status
                                                           retries backoff h))))
  /\ (retries <= 0 -> snd (toggle_strategy w s strategy_id status retries backoff h) = []).
Proof.
  intros Hb. split.
  - pose proof (toggle_strategy_shape w s strategy_id status retries backoff h Hb) as Hshape.
    rewrite (attempts_result_is_last _ _ _ _ _ _ _ Hshape).
    destruct (exchanges _); reflexivity.
  - intros Hnone. unfold toggle_strategy.
    replace (Z.to_nat retries) with 0%nat by lia. reflexivity.
Qed.

Lemma toggle_strategy_returns_last_outcome_witness :
  0 <= 3
  /\ fst (toggle_strategy
            (scripted_world [Resp (plain 503); Resp (plain 404)] (PyList []) [])
            nobody (PyInt 18713274) "Start" 3 3 []) = Ret (Some (plain 404)).
Proof.
  split; [lia|].
  exact (proj1 (toggle_strategy_returns_last_outcome
                  (scripted_world [Resp (plain 503); Resp (plain 404)] (PyList []) [])
                  nobody (PyInt 18713274) "Start" 3 3 [] ltac:(lia))).
Defined.

(** X2. A negative backoff makes the first retry fail: when the first
    attempt has to be retried (a transport exception or a status of 500 or
    more, with a budget of at least two attempts), [time.sleep] is called
    with a negative length and its [ValueError] leaves [toggle_strategy]
    after that single request. *)
Theorem toggle_strategy_negative_backoff w s strategy_id status retries backoff h :
  backoff < 0 -> 2 <= retries ->
  (transport w h (toggle_request s strategy_id status) = ConnError
   \/ exists r, transport w h (toggle_request s strategy_id status) = Resp r
                /\ 500 <= status_code r) ->
  fst (toggle_strategy w s strategy_id status retries backoff h) = Raise ValueError
  /\ List.length (exchanges (snd (toggle_strategy w s strategy_id status retries backoff h)))
     = 1%nat.
Proof.
  intros Hneg Hbudget Hfirst. unfold toggle_strategy.
  destruct (Z.to_nat retries) as [|left] eqn:Hleft; [lia|].
  rewrite toggle_attempts_S.
  assert (Hlt : (1 <? retries) = true) by (apply Z.ltb_lt; lia).
  assert (Hsleep : (backoff * 1 <? 0) = true) by (apply Z.ltb_lt; lia).
  destruct Hfirst as [->|(r & -> & Hhigh)]; cbn zeta.
  - rewrite Hlt, Hsleep. split; reflexivity.
  - assert (Hterm : (status_code r <? 500) = false) by (apply Z.ltb_ge; lia).
    rewrite Hterm, Hlt, Hsleep. split; reflexivity.
Qed.

Lemma toggle_strategy_negative_backoff_witness :
  -1 < 0 /\ 2 <= 3
  /\ fst (toggle_strategy (scripted_world [Resp (plain 503)] (PyList []) [])
                          nobody (PyInt 18713274) "Start" 3 (-1) []) = Raise ValueError.
Proof.
  split; [lia|]. split; [lia|].
  assert (Hhigh : 500 <= status_code (plain 503)) by (cbn; lia).
  exact (proj1 (toggle_strategy_negative_backoff
                  (scripted_world [Resp (plain 503)] (PyList []) [])
                  nobody (PyInt 18713274) "Start" 3 (-1) [] ltac:(lia) ltac:(lia)
                  (or_intror (ex_intro _ (plain 503) (conj eq_refl Hhigh))))).
Defined.

(** ** More on [fetch_wallet_running_count] *)

(** The request of the HTML fallback of the lookup. *)
Definition dashboard_page_request (s : session) : request :=
  mkRequest GET dashboard_url [("Accept", PyStr "text/html")] None (cookies s).

(** X3. Once the token is looked up, the lookup of the count is exception
    safe and bounded.  For a session whose jar holds each token name at most
    once (otherwise [cookies.get] raises at line 342, outside both [try]
    blocks), for every transport and every decoder: the function returns, a
    count or [None], never raises and never exits; it sends the GET of the
    wallet endpoint and, only when that gave no count, one GET of the
    dashboard page; it prints at most the two failure lines. *)
Theorem fetch_wallet_running_count_never_fails w s h :
  unambiguous (cookies s) ->
  exists count t,
    fetch_wallet_running_count w s h = (Ret count, t)
    /\ Forall wallet_event t
    /\ (requests t = [validation_request s]
        \/ requests t = [validation_request s; dashboard_page_request s]).
Proof.
  intros _.
  unfold fetch_wallet_running_count, session_get.
  fold (validation_request s). fold (dashboard_page_request s).
  match goal with |- context [try_except (bind (send w ?q) ?k) ?hd] =>
    destruct (send_then_silent w q k h) as (x1 & Hx1 & Hnoexit1)
  end.
  { intros r. destruct (status_code r =? 200); [|apply silent_ret].
    apply silent_bind; [destruct (json r); [apply silent_ret | apply silent_raise]|].
    intros data. apply silent_bind; [apply silent_get_or_empty|].
    intros inner. apply silent_bind; [apply silent_get_or_empty|].
    intros balances. destruct balances; try apply silent_ret.
    destruct (dict_get entries "running"); [|apply silent_ret].
    apply silent_bind; [apply silent_py_int | intros n; apply silent_ret]. }
  destruct (try_except_print _ PWalletApiFailed _ _ _ Hx1 Hnoexit1) as (first & Hfirst).
  set (t1 := [EvHttp _ _] ++ _) in Hfirst.
  assert (Hev1 : Forall wallet_event t1 /\ requests t1 = [validation_request s]).
  { subst t1. destruct x1; split; repeat constructor. }
  destruct Hev1 as [Hev1 Hreq1].
  destruct first as [n|].
  - exists (Some n), (t1 ++ []). split.
    + eapply bind_Ret; [exact Hfirst | reflexivity].
    + rewrite app_nil_r. split; [exact Hev1 | left; exact Hreq1].
  - match goal with
    |- context [try_except (bind (send w ?q) ?k)
                  (fun _ => bind (print PHtmlParsingFailed) (fun _ => ret None))] =>
      destruct (send_then_silent w q k (h ++ t1)) as (x2 & Hx2 & Hnoexit2)
    end.
    { intros r. destruct (status_code r =? 200); [|apply silent_ret].
      apply silent_scan_patterns. }
    destruct (try_except_print _ PHtmlParsingFailed _ _ _ Hx2 Hnoexit2) as (second & Hsecond).
    set (t2 := [EvHttp _ _] ++ _) in Hsecond.
    assert (Hev2 : Forall wallet_event t2 /\ requests t2 = [dashboard_page_request s]).
    { subst t2. destruct x2; split; repeat constructor. }
    destruct Hev2 as [Hev2 Hreq2].
    exists second, (t1 ++ t2 ++ []). split.
    + eapply bind_Ret; [exact Hfirst|].
      eapply bind_Ret; [exact Hsecond|]. destruct second; reflexivity.
    + rewrite app_nil_r. split; [apply Forall_app; auto|].
      right. unfold requests in *. rewrite exchanges_app, map_app, Hreq1, Hreq2. reflexivity.
Qed.

(** No network at all and an empty jar: the lookup returns. *)
Lemma fetch_wallet_running_count_never_fails_witness :
  unambiguous (cookies nobody)
  /\ exists count t,
       fetch_wallet_running_count (scripted_world [] (PyList []) []) nobody []
       = (Ret count, t).
Proof.
  assert (Hjar : unambiguous (cookies nobody)) by (split; cbn; lia).
  split; [exact Hjar|].
  destruct (fetch_wallet_running_count_never_fails
              (scripted_world [] (PyList []) []) nobody [] Hjar)
    as (count & t & Hrun & _).
  exists count, t. exact Hrun.
Defined.

(** X4. When the wallet endpoint answers 200 with a document whose
    [data.balances.running] is an integer, the lookup returns that integer
    after this single request: the dashboard page is not fetched. *)
Theorem fetch_wallet_running_count_from_api w s h r document inner balances n :
  transport w h (validation_request s) = Resp r ->
  status_code r = 200 ->
  json r = Some (PyDict document) ->
  dict_get document "data" = Some (PyDict inner) ->
  dict_get inner "balances" = Some (PyDict balances) ->
  dict_get balances "running" = Some (PyInt n) ->
  fetch_wallet_running_count w s h
  = (Ret (Some n), [EvHttp (validation_request s) (Resp r)]).
Proof.
  intros Hout Hcode Hjson Hdata Hbal Hrun.
  unfold fetch_wallet_running_count, session_get.
  fold (validation_request s).
  unfold bind at 1. unfold try_except, bind at 1, send. rewrite Hout, Hcode.
  cbn [Z.eqb Pos.eqb]. rewrite Hjson.
  unfold get_or_empty, get_method, py_int, bind, ret. rewrite Hdata, Hbal, Hrun.
  reflexivity.
Qed.

Lemma fetch_wallet_running_count_from_api_witness :
  let answer := mkResponse 200 "{...}"
                  (Some (PyDict [("data", PyDict [("balances",
                                   PyDict [("running", PyInt 3); ("paused", PyInt 1)])])])) in
  fst (fetch_wallet_running_count (scripted_world [Resp answer] (PyList []) []) nobody [])
  = Ret (Some 3).
Proof.
  intros answer.
  exact (f_equal fst
           (fetch_wallet_running_count_from_api
              (scripted_world [Resp answer] (PyList []) []) nobody [] answer
              _ _ _ 3 eq_refl eq_refl eq_refl eq_refl eq_refl eq_refl)).
Defined.

(** ** More on [fetch_current_status] and [find_status] *)

(** X5. What can leave [fetch_current_status] once the token is looked up.
    For a session whose jar holds each token name at most once (otherwise
    [cookies.get] raises at line 222), the function never exits and either
    returns a label and a response, or is left by an exception of the HTML
    fallback, which is not guarded: the transport exception of the request
    for the dashboard page, or the exception of the tokenizer on the page
    that request brought with status 200.  In both cases all three probes
    were sent before, none brought a usable payload, and the request for
    the dashboard page is the last exchange. *)
Theorem fetch_current_status_failure_mode w s strategy_id h result t :
  unambiguous (cookies s) ->
  fetch_current_status w s strategy_id h = (result, t) ->
  (exists label response, result = Ret (label, response))
  \/ (exists chain o,
        exchanges t = chain ++ [(html_request s, o)]
        /\ map fst chain = probes s strategy_id
        /\ Forall (fun e => usable (snd e) = None) chain
        /\ ((result = Raise RequestException /\ o = ConnError)
            \/ (result = Raise AssertionError
                /\ exists r, o = Resp r /\ status_code r = 200
                             /\ html_tokens w (text r) = None))).
Proof.
  intros _ Hrun.
  destruct (fetch_current_status_cases w s strategy_id h)
    as (response & pt & win & Hprobed & Hcase).
  destruct win as [d|].
  - destruct Hcase as [Heq _]. rewrite Hrun in Heq. injection Heq as -> ->.
    left. eauto.
  - destruct (probed_exhausted _ _ _ Hprobed eq_refl) as [Hmap Hall].
    destruct (transport w (h ++ pt) (html_request s)) as [|r];
      rewrite Hrun in Hcase; injection Hcase as -> ->.
    + right. exists (exchanges pt), ConnError.
      rewrite exchanges_app.
      split; [reflexivity|]. split; [exact Hmap|]. split; [exact Hall|].
      left. split; reflexivity.
    + unfold html_label.
      destruct (status_code r =? 200) eqn:Hcode; [|left; cbn; eauto].
      destruct (html_tokens w (text r)) as [tokens|] eqn:Htokens.
      { left. match goal with |- context [if ?c then _ else _] => destruct c end; eauto. }
      right. exists (exchanges pt), (Resp r). rewrite exchanges_app.
      split; [reflexivity|]. split; [exact Hmap|]. split; [exact Hall|].
      right. split; [reflexivity|]. exists r. apply Z.eqb_eq in Hcode. auto.
Qed.

(** No probe gets through, the dashboard page is served and the tokenizer
    refuses it. *)
Lemma fetch_current_status_failure_mode_witness :
  let w := mkWorld (scripted [Resp (plain 503); Resp (plain 404); ConnError;
                              Resp (garbled 200)])
                   None None (fun _ => None) (fun _ => None)
                   (fun _ => None) (fun _ _ => None) (fun _ => None) (fun _ => None)
                   id_keys status_keys in
  unambiguous (cookies nobody)
  /\ fst (fetch_current_status w nobody (PyInt 42) []) = Raise AssertionError.
Proof.
  intros w.
  assert (Hjar : unambiguous (cookies nobody)) by (split; cbn; lia).
  split; [exact Hjar|].
  destruct (fetch_current_status_failure_mode w nobody (PyInt 42) [] _ _ Hjar eq_refl)
    as [(label & response & Hret)|(chain & o & _ & _ & _ & [[Hraise _]|[Hraise _]])].
  - discriminate Hret.
  - discriminate Hraise.
  - exact Hraise.
Defined.

(** [inside node doc]: [node] is [doc] or is nested in it, through list
    items and dict values. *)
Inductive inside (node : pyval) : pyval -> Prop :=
| inside_here : inside node node
| inside_item items item :
    In item items -> inside node item -> inside node (PyList items)
| inside_value entries key value :
    In (key, value) entries -> inside node value -> inside node (PyDict entries).

(** [located w strategy_id doc label]: [label] is read from a status key
    of a dict nested in [doc] that has an identifier key whose value has the
    [str] of the strategy id. *)
Definition located (w : world) (strategy_id doc : pyval) (label : string) : Prop :=
  exists node key found s_key value,
    inside (PyDict node) doc
    /\ In key (id_keys_order w)
    /\ dict_get node key = Some found
    /\ Py.str found = Py.str strategy_id
    /\ In s_key (status_keys_order w)
    /\ dict_get node s_key = Some value
    /\ label = label_of value.

Lemma located_item w strategy_id items item label :
  In item items -> located w strategy_id item label ->
  located w strategy_id (PyList items) label.
Proof.
  intros Hmem (node & key & found & s_key & value & Hin & Hrest).
  exists node, key, found, s_key, value. split; [|exact Hrest].
  eapply inside_item; eauto.
Qed.

Lemma located_value w strategy_id entries k v label :
  In (k, v) entries -> located w strategy_id v label ->
  located w strategy_id (PyDict entries) label.
Proof.
  intros Hmem (node & key & found & s_key & value & Hin & Hrest).
  exists node, key, found, s_key, value. split; [|exact Hrest].
  eapply inside_value; eauto.
Qed.

(** X6. The extraction never reports the status of another entity: a
    non-empty label always comes from a dict nested in the document that
    has an identifier key whose value has the [str] of the strategy id, and
    the label is the reading of the value of a status key of that very
    dict. *)
Theorem find_status_sound w strategy_id doc :
  find_status w strategy_id doc <> "" ->
  located w strategy_id doc (find_status w strategy_id doc).
Proof.
  induction doc as [| | | | |items IH|entries IH] using pyval_induction;
    try (intros H; contradiction H; reflexivity).
  - cbn [find_status].
    assert (Hloop : forall l,
               Forall (fun item => find_status w strategy_id item <> "" ->
                                   located w strategy_id item (find_status w strategy_id item)) l ->
               forall label,
                 (fix each (l : list pyval) : string :=
                    match l with
                    | [] => ""
                    | item :: rest =>
                        if StatusHTMLParser.nonempty (find_status w strategy_id item)
                        then find_status w strategy_id item
                        else each rest
                    end) l = label ->
                 label <> "" ->
                 exists item, In item l /\ located w strategy_id item label).
    { induction 1 as [|item rest Hitem _ IHrest]; intros label Heq Hne.
      - contradiction Hne. symmetry. exact Heq.
      - destruct (StatusHTMLParser.nonempty (find_status w strategy_id item)) eqn:Hfound.
        + subst label. exists item. split; [left; reflexivity|]. apply Hitem. exact Hne.
        + destruct (IHrest label Heq Hne) as (item' & Hmem & Hloc).
          exists item'. split; [right; exact Hmem | exact Hloc]. }
    intros Hne. destruct (Hloop items IH _ eq_refl Hne) as (item & Hmem & Hloc).
    eapply located_item; eauto.
  - cbn [find_status]. rewrite scan_id_keys_matches.
    assert (Hloop : forall l,
               Forall (fun kv => find_status w strategy_id (snd kv) <> "" ->
                                 located w strategy_id (snd kv)
                                         (find_status w strategy_id (snd kv))) l ->
               forall label,
                 (fix values (l : list (string * pyval)) : string :=
                    match l with
                    | [] => ""
                    | (_, value) :: rest =>
                        if StatusHTMLParser.nonempty (find_status w strategy_id value)
                        then find_status w strategy_id value
                        else values rest
                    end) l = label ->
                 label <> "" ->
                 exists k v, In (k, v) l /\ located w strategy_id v label).
    { induction 1 as [|[k v] rest Hv _ IHrest]; intros label Heq Hne.
      - contradiction Hne. symmetry. exact Heq.
      - cbn [snd] in Hv.
        destruct (StatusHTMLParser.nonempty (find_status w strategy_id v)) eqn:Hfound.
        + subst label. exists k, v. split; [left; reflexivity|]. apply Hv. exact Hne.
        + destruct (IHrest label Heq Hne) as (k' & v' & Hmem & Hloc).
          exists k', v'. split; [right; exact Hmem | exact Hloc]. }
    destruct (existsb _ (id_keys_order w)) eqn:Hmatch.
    + destruct (scan_status_keys (status_keys_order w) entries) as [label|] eqn:Hscan.
      * intros _. apply existsb_exists in Hmatch as (key & Hkey & Hfound).
        destruct (dict_get entries key) as [found|] eqn:Hget; [|discriminate].
        apply String.eqb_eq in Hfound.
        rewrite scan_status_keys_first in Hscan.
        destruct (present_status_keys (status_keys_order w) entries) as [|s_key others]
          eqn:Hpresent; [discriminate|].
        assert (Hs : In s_key (status_keys_order w)).
        { assert (Hin : In s_key (present_status_keys (status_keys_order w) entries))
            by (rewrite Hpresent; left; reflexivity).
          apply filter_In in Hin. tauto. }
        destruct (dict_get entries s_key) as [value|] eqn:Hvalue; [|discriminate].
        injection Hscan as <-.
        exists entries, key, found, s_key, value.
        repeat split; auto. constructor.
      * intros Hne. destruct (Hloop entries IH _ eq_refl Hne) as (k & v & Hmem & Hloc).
        eapply located_value; eauto.
    + intros Hne. destruct (Hloop entries IH _ eq_refl Hne) as (k & v & Hmem & Hloc).
      eapply located_value; eauto.
Qed.

Lemma find_status_sound_witness :
  located (scripted_world [] (PyList []) []) (PyStr "42") (nested_doc (PyInt 42)) "Running".
Proof.
  exact (find_status_sound (scripted_world [] (PyList []) []) (PyStr "42")
           (nested_doc (PyInt 42)) ltac:(discriminate)).
Defined.

(** ** More on [StatusHTMLParser] *)

(** X7. The bookkeeping of the parser holds after any sequence of tokens:
    the depth counter is at least 1 inside the target fragment and exactly 0
    outside it (it never goes negative, whatever unbalanced end tags the page
    has), a capture is pending only while the parser waits for the span
    after a status text, and the strategy id is unchanged. *)
Theorem parser_bookkeeping sid tokens :
  ParserInvariant.consistent sid
    (StatusHTMLParser.feed (StatusHTMLParser.init sid) tokens).
Proof.
  unfold StatusHTMLParser.feed.
  assert (Hgen : forall p, ParserInvariant.consistent sid p ->
                           ParserInvariant.consistent sid
                             (fold_left StatusHTMLParser.handle tokens p)).
  { induction tokens as [|e rest IH]; intros p Hp; [exact Hp|].
    cbn [fold_left]. apply IH. apply ParserInvariant.consistent_handle. exact Hp. }
  apply Hgen. apply ParserInvariant.consistent_init.
Qed.

(** X8. A page without a div whose id contains the strategy id yields no
    status: the parser stays outside any fragment, in its initial state,
    whatever else the page holds. *)
Theorem no_container_no_status sid tokens :
  forallb (fun e => negb (ParserInvariant.opens sid e)) tokens = true ->
  StatusHTMLParser.feed (StatusHTMLParser.init sid) tokens = StatusHTMLParser.init sid.
Proof.
  unfold StatusHTMLParser.feed. intros Hnone.
  induction tokens as [|e rest IH]; [reflexivity|].
  cbn [forallb] in Hnone. apply andb_prop in Hnone as [He Hrest].
  cbn [fold_left].
  rewrite (ParserInvariant.outside_unchanged sid); try reflexivity.
  - apply IH. exact Hrest.
  - apply negb_true_iff. exact He.
Qed.

Lemma no_container_no_status_witness :
  StatusHTMLParser.status
    (StatusHTMLParser.feed (StatusHTMLParser.init (PyInt 42))
       [StartTag "div" [("id", Some "strategy-7")]; Data "Status";
        StartTag "span" []; Data "Paused"; EndTag "span"; EndTag "div"])
  = "".
Proof.
  exact (f_equal StatusHTMLParser.status
           (no_container_no_status (PyInt 42)
              [StartTag "div" [("id", Some "strategy-7")]; Data "Status";
               StartTag "span" []; Data "Paused"; EndTag "span"; EndTag "div"]
              eq_refl)).
Defined.

(** ** More on the orchestrator *)

(** A computation that never ends in [sys.exit], and one that exits with
    code 1 if it exits. *)
Definition no_exit {A} (m : M A) : Prop := forall h c t, m h <> (Exit c, t).

Definition exit_one {A} (m : M A) : Prop := forall h c t, m h = (Exit c, t) -> c = 1.

Lemma no_exit_exit_one {A} (m : M A) : no_exit m -> exit_one m.
Proof. intros Hm h c t Heq. contradiction (Hm h c t). Qed.

Lemma no_exit_ret {A} (a : A) : no_exit (ret a).
Proof. intros h c t. discriminate. Qed.

Lemma no_exit_raise {A} e : no_exit (@raise A e).
Proof. intros h c t. discriminate. Qed.

Lemma no_exit_emit e : no_exit (emit e).
Proof. intros h c t. discriminate. Qed.

Lemma no_exit_sleep x : no_exit (sleep x).
Proof. intros h c t. unfold sleep. destruct (x <? 0); discriminate. Qed.

Lemma no_exit_send w q : no_exit (send w q).
Proof. intros h c t. unfold send. destruct (transport w h q); discriminate. Qed.

Lemma no_exit_bind {A B} (m : M A) (f : A -> M B) :
  no_exit m -> (forall a, no_exit (f a)) -> no_exit (bind m f).
Proof.
  intros Hm Hf h c t. unfold bind.
  destruct (m h) as [[a|e|c'] t1] eqn:Hrun.
  - destruct (f a (h ++ t1)) as [r t2] eqn:Hnext. intros Heq.
    injection Heq as -> _. contradiction (Hf a (h ++ t1) c t2).
  - discriminate.
  - contradiction (Hm h c' t1).
Qed.

Lemma no_exit_try {A} (m : M A) handler :
  no_exit m -> (forall e, no_exit (handler e)) -> no_exit (try_except m handler).
Proof.
  intros Hm Hh h c t. unfold try_except.
  destruct (m h) as [[a|e|c'] t1] eqn:Hrun.
  - discriminate.
  - destruct (handler e (h ++ t1)) as [r t2] eqn:Hnext. intros Heq.
    injection Heq as -> _. contradiction (Hh e (h ++ t1) c t2).
  - contradiction (Hm h c' t1).
Qed.

Lemma exit_one_bind {A B} (m : M A) (f : A -> M B) :
  exit_one m -> (forall a, exit_one (f a)) -> exit_one (bind m f).
Proof.
  intros Hm Hf h c t. unfold bind.
  destruct (m h) as [[a|e|c'] t1] eqn:Hrun.
  - destruct (f a (h ++ t1)) as [r t2] eqn:Hnext. intros Heq.
    injection Heq as -> _. exact (Hf a (h ++ t1) c t2 Hnext).
  - discriminate.
  - intros Heq. injection Heq as <- _. exact (Hm h c' t1 Hrun).
Qed.

Section ExitStatus.

Variable w : world.

Lemma no_exit_toggle_attempts s strategy_id status retries backoff left :
  forall attempt last,
    no_exit (toggle_attempts w s strategy_id status retries backoff left attempt last).
Proof.
  induction left as [|left IH]; intros attempt last; cbn [toggle_attempts].
  - apply no_exit_ret.
  - apply no_exit_bind.
    + apply no_exit_try.
      * apply no_exit_bind; [apply no_exit_send | intros r; apply no_exit_ret].
      * intros e. apply no_exit_bind; [apply no_exit_emit | intros; apply no_exit_ret].
    + intros [r|].
      * destruct (status_code r <? 500); [apply no_exit_ret|].
        apply no_exit_bind; [|intros; apply IH].
        destruct (attempt <? retries); [apply no_exit_sleep | apply no_exit_ret].
      * destruct (attempt <? retries); [|apply no_exit_ret].
        apply no_exit_bind; [apply no_exit_sleep | intros; apply IH].
Qed.

Lemma no_exit_command s STRATEGY_ID label status i NUM_TOGGLES p :
  no_exit (command w s STRATEGY_ID label status i NUM_TOGGLES p).
Proof.
  unfold command. apply no_exit_try.
  - apply no_exit_bind; [apply no_exit_toggle_attempts|].
    intros response. destruct (succeeded response).
    + apply no_exit_bind; [apply no_exit_emit|]. intros _.
      destruct response as [[code body [data|]]|];
        (apply no_exit_bind; [apply no_exit_emit | intros; apply no_exit_ret]).
    + apply no_exit_bind; [apply no_exit_emit|]. intros _.
      apply no_exit_bind.
      { destruct response; [apply no_exit_emit | apply no_exit_ret]. }
      intros _. apply no_exit_bind; [apply no_exit_emit | intros; apply no_exit_ret].
  - intros e. apply no_exit_bind; [apply no_exit_emit | intros; apply no_exit_ret].
Qed.

Lemma no_exit_toggle_cycles s STRATEGY_ID NUM_TOGGLES DELAY_SECONDS left :
  forall i p, no_exit (toggle_cycles w s STRATEGY_ID NUM_TOGGLES DELAY_SECONDS left i p).
Proof.
  induction left as [|left IH]; intros i p; cbn [toggle_cycles].
  - apply no_exit_ret.
  - apply no_exit_bind; [apply no_exit_emit|]. intros _.
    apply no_exit_bind; [apply no_exit_command|]. intros [p1 [|]]; [apply no_exit_ret|].
    apply no_exit_bind; [apply no_exit_sleep|]. intros _.
    apply no_exit_bind; [apply no_exit_emit|]. intros _.
    apply no_exit_bind; [apply no_exit_command|]. intros [p2 [|]]; [apply no_exit_ret|].
    apply no_exit_bind; [|intros; apply IH].
    destruct (i <? NUM_TOGGLES - 1); [apply no_exit_sleep | apply no_exit_ret].
Qed.

Lemma no_exit_finalize s STRATEGY_ID p : no_exit (finalize w s STRATEGY_ID p).
Proof.
  unfold finalize. apply no_exit_bind; [apply no_exit_emit|]. intros _.
  apply no_exit_bind; [apply no_exit_toggle_attempts|].
  intros response. destruct (succeeded response).
  - apply no_exit_bind; [apply no_exit_emit|]. intros _.
    destruct response as [[code body [data|]]|]; try apply no_exit_ret.
    apply no_exit_bind; [apply no_exit_emit | intros; apply no_exit_ret].
  - apply no_exit_bind; [apply no_exit_emit|]. intros _.
    apply no_exit_bind; [|intros; apply no_exit_ret].
    destruct response; [apply no_exit_emit | apply no_exit_ret].
Qed.

Lemma no_exit_fetch_wallet_running_count s : no_exit (fetch_wallet_running_count w s).
Proof.
  intros h c t Heq.
  destruct (fetch_wallet_running_count_total w s h) as (count & t' & Hrun & _).
  rewrite Hrun in Heq. discriminate.
Qed.

Lemma exit_one_report s NUM_TOGGLES p : exit_one (report w s NUM_TOGGLES p).
Proof.
  unfold report. destruct (had_failure p).
  - apply exit_one_bind; [apply no_exit_exit_one, no_exit_emit|]. intros _.
    apply exit_one_bind; [apply no_exit_exit_one, no_exit_emit|]. intros _.
    intros h c t Heq. injection Heq as <- _. reflexivity.
  - apply no_exit_exit_one.
    apply no_exit_bind; [apply no_exit_emit|]. intros _.
    apply no_exit_bind; [apply no_exit_emit|]. intros _.
    apply no_exit_bind; [apply no_exit_fetch_wallet_running_count|]. intros count.
    apply no_exit_bind; [destruct count; apply no_exit_emit | intros; apply no_exit_emit].
Qed.

Lemma no_exit_load_session : no_exit (load_session w).
Proof.
  intros h c t Heq.
  destruct (load_session_cases w h)
    as [(_ & loaded & t' & Hrun & Hkind & _)|(jar & o & pre & _ & Hrun & _)];
    rewrite Hrun in Heq; [|discriminate].
  destruct Hkind as [->|[e ->]]; discriminate.
Qed.

Lemma exit_one_main STRATEGY_ID NUM_TOGGLES DELAY_SECONDS :
  exit_one (main w STRATEGY_ID NUM_TOGGLES DELAY_SECONDS).
Proof.
  unfold main. apply exit_one_bind; [apply no_exit_exit_one, no_exit_emit|]. intros _.
  apply exit_one_bind; [apply no_exit_exit_one, no_exit_load_session|].
  intros [s|].
  - apply exit_one_bind; [apply no_exit_exit_one, no_exit_emit|]. intros _.
    apply exit_one_bind; [apply no_exit_exit_one, no_exit_emit|]. intros _.
    unfold toggle_run.
    apply exit_one_bind; [apply no_exit_exit_one, no_exit_toggle_cycles|]. intros p.
    apply exit_one_bind; [apply no_exit_exit_one, no_exit_finalize|]. intros p'.
    apply exit_one_report.
  - intros h c t Heq. injection Heq as <- _. reflexivity.
Qed.

End ExitStatus.

(** X9. No exception leaves the program, and its exit status is 0 or 1:
    for every world, every configuration (also a negative delay, which
    makes [time.sleep] raise) and every history, the entry point either
    returns normally or ends in [sys.exit(1)]. *)
Theorem dunder_main_exit_status w STRATEGY_ID NUM_TOGGLES DELAY_SECONDS h :
  fst (dunder_main w STRATEGY_ID NUM_TOGGLES DELAY_SECONDS h) = Ret tt
  \/ fst (dunder_main w STRATEGY_ID NUM_TOGGLES DELAY_SECONDS h) = Exit 1.
Proof.
  unfold dunder_main, try_except.
  destruct (main w STRATEGY_ID NUM_TOGGLES DELAY_SECONDS h) as [[[]|e|c] t] eqn:Hmain.
  - left. reflexivity.
  - right. reflexivity.
  - right. cbn [fst]. f_equal. eapply exit_one_main. exact Hmain.
Qed.

(** ** Edge cases and invariants of the run *)

Lemma bind_Ret_inv {A B} (m : M A) (f : A -> M B) h b t :
  bind m f h = (Ret b, t) ->
  exists a t1 t2, m h = (Ret a, t1) /\ f a (h ++ t1) = (Ret b, t2) /\ t = t1 ++ t2.
Proof.
  unfold bind. destruct (m h) as [[a|e|c] t1]; try discriminate.
  destruct (f a (h ++ t1)) as [r t2] eqn:Hnext. intros Heq. injection Heq as -> <-.
  exists a, t1, t2. auto.
Qed.

Section RunInvariants.

Variable w : world.
Variable s : session.
Variables STRATEGY_ID NUM_TOGGLES DELAY_SECONDS : Z.

(** X10. A negative delay skips the closing command.  With at least one
    cycle to run and a first STOP command that succeeds, the [time.sleep]
    that follows raises [ValueError]: the run ends there, after the events
    of that one command, without START and without the closing command. *)
Theorem negative_delay_aborts_run h response t1 :
  DELAY_SECONDS < 0 -> 1 <= NUM_TOGGLES ->
  toggle_strategy w s (PyInt STRATEGY_ID) "Paused" 3 3
    (h ++ [EvPrint (PSendingStop 1 NUM_TOGGLES)]) = (Ret response, t1) ->
  succeeded response = true ->
  toggle_run w s STRATEGY_ID NUM_TOGGLES DELAY_SECONDS h
  = (Raise ValueError,
     EvPrint (PSendingStop 1 NUM_TOGGLES)
     :: t1 ++ snd (after_command "STOP" 0 NUM_TOGGLES (mkProgress false []) response))
  /\ ~ In (EvPrint PFinalizing)
          (snd (toggle_run w s STRATEGY_ID NUM_TOGGLES DELAY_SECONDS h)).
Proof.
  intros Hneg Hcycles Hrun Hok.
  pose proof (command_after w s STRATEGY_ID "STOP" "Paused" 0 NUM_TOGGLES
                (mkProgress false []) _ _ _ Hrun) as Hc.
  assert (Heq : toggle_run w s STRATEGY_ID NUM_TOGGLES DELAY_SECONDS h
                = (Raise ValueError,
                   EvPrint (PSendingStop 1 NUM_TOGGLES)
                   :: t1 ++ snd (after_command "STOP" 0 NUM_TOGGLES
                                               (mkProgress false []) response))).
  { unfold toggle_run.
    destruct (Z.to_nat NUM_TOGGLES) as [|left] eqn:Hleft; [lia|].
    cbn [toggle_cycles].
    unfold bind at 1. unfold bind at 1. unfold print at 1, emit at 1.
    unfold bind at 1. cbn [Z.add]. rewrite Hc.
    destruct (after_command_cases "STOP" 0 NUM_TOGGLES (mkProgress false []) response)
      as [(Hstop & _)|(_ & Hfail & _)]; [|rewrite Hok in Hfail; discriminate].
    destruct (after_command "STOP" 0 NUM_TOGGLES (mkProgress false []) response)
      as [[p1 stop] a1]. cbn [fst snd] in *. subst stop.
    unfold bind at 1, sleep.
    assert (Hs : (DELAY_SECONDS <? 0) = true) by (apply Z.ltb_lt; lia).
    rewrite Hs. cbn. rewrite app_nil_r. reflexivity. }
  split; [exact Heq|].
  rewrite Heq. cbn [snd]. intros [Hin|Hin]; [discriminate|].
  apply in_app_or in Hin as [Hin|Hin].
  - destruct (toggle_default w s STRATEGY_ID "Paused"
                (h ++ [EvPrint (PSendingStop 1 NUM_TOGGLES)]))
      as (response' & t' & Hrun' & Hshape).
    rewrite Hrun in Hrun'. injection Hrun' as <- <-.
    pose proof (attempts_events _ _ _ _ _ _ _ Hshape) as Hev.
    rewrite Forall_forall in Hev. exact (Hev _ Hin).
  - destruct (after_command_cases "STOP" 0 NUM_TOGGLES (mkProgress false []) response)
      as [(_ & _ & _ & _ & Hquiet)|(_ & Hfail & _)]; [|rewrite Hok in Hfail; discriminate].
    rewrite Forall_forall in Hquiet. exact (Hquiet _ Hin).
Qed.

(** The loop keeps every property of the progress that each step keeps. *)
Lemma toggle_cycles_keeps (P : progress -> Prop) :
  (forall label i p response,
      P p -> P (fst (fst (after_command label i NUM_TOGGLES p response)))) ->
  forall left i p h p' t,
    P p ->
    toggle_cycles w s STRATEGY_ID NUM_TOGGLES DELAY_SECONDS left i p h = (Ret p', t) ->
    P p'.
Proof.
  intros Hstep. induction left as [|left IH]; intros i p h p' t Hp Hrun.
  - injection Hrun as <- _. exact Hp.
  - cbn [toggle_cycles] in Hrun.
    apply bind_Ret_inv in Hrun as (_ & t0 & t0' & _ & Hrun & _).
    apply bind_Ret_inv in Hrun as ([p1 stop1] & t1 & t1' & Hc1 & Hrun & _).
    destruct (toggle_default w s STRATEGY_ID "Paused" (h ++ t0))
      as (r1 & tt1 & Hrun1 & _).
    rewrite (command_after w s STRATEGY_ID "STOP" "Paused" i NUM_TOGGLES p _ _ _ Hrun1) in Hc1.
    injection Hc1 as Hp1 _.
    assert (HP1 : P p1).
    { pose proof (Hstep "STOP" i p r1 Hp) as H1. rewrite Hp1 in H1. exact H1. }
    destruct stop1; [cbv beta iota delta [ret] in Hrun; injection Hrun as <- _; exact HP1|].
    cbv beta iota in Hrun.
    apply bind_Ret_inv in Hrun as (_ & t2 & t2' & _ & Hrun & _).
    apply bind_Ret_inv in Hrun as (_ & t3 & t3' & _ & Hrun & _).
    apply bind_Ret_inv in Hrun as ([p2 stop2] & t4 & t4' & Hc2 & Hrun & _).
    destruct (toggle_default w s STRATEGY_ID "Start" ((((h ++ t0) ++ t1) ++ t2) ++ t3))
      as (r2 & tt2 & Hrun2 & _).
    rewrite (command_after w s STRATEGY_ID "START" "Start" i NUM_TOGGLES p1 _ _ _ Hrun2) in Hc2.
    injection Hc2 as Hp2 _.
    assert (HP2 : P p2).
    { pose proof (Hstep "START" i p1 r2 HP1) as H2. rewrite Hp2 in H2. exact H2. }
    destruct stop2; [cbv beta iota delta [ret] in Hrun; injection Hrun as <- _; exact HP2|].
    cbv beta iota in Hrun.
    apply bind_Ret_inv in Hrun as (_ & t5 & t5' & _ & Hrun & _).
    eapply IH; [exact HP2 | exact Hrun].
Qed.

(** A failure is never recorded without a line that tells it. *)
Definition explained (p : progress) : Prop :=
  had_failure p = true -> error_details p <> [].

Lemma explained_after_command label i p response :
  explained p -> explained (fst (fst (after_command label i NUM_TOGGLES p response))).
Proof.
  unfold explained, after_command. intros Hp.
  destruct (succeeded response).
  - destruct response as [[code body [data|]]|]; cbn [fst had_failure error_details];
      auto; intros Hf Hnil; apply app_eq_nil in Hnil as [_ Hnil]; discriminate.
  - cbn [fst had_failure error_details]. intros _ Hnil.
    apply app_eq_nil in Hnil as [_ Hnil]. discriminate.
Qed.

Lemma explained_after_finalize p response :
  explained p -> explained (fst (after_finalize p response)).
Proof.
  unfold explained, after_finalize. intros Hp.
  destruct (succeeded response); cbn [fst had_failure error_details]; [exact Hp|].
  intros _ Hnil. apply app_eq_nil in Hnil as [_ Hnil]. discriminate.
Qed.

(** X11. A failed run always says why: when the run exits with code 1, the
    last event is the failure report, and the report lists at least one
    detail (the text "Unknown error during toggle operations" that [main]
    keeps for an empty list is never sent). *)
Theorem failure_report_has_details h t :
  0 <= DELAY_SECONDS ->
  toggle_run w s STRATEGY_ID NUM_TOGGLES DELAY_SECONDS h = (Exit 1, t) ->
  exists earlier details,
    t = earlier ++ [EvTelegram (NFailed details)] /\ details <> [].
Proof.
  intros Hdelay Hrun.
  destruct (toggle_run_parts w s STRATEGY_ID NUM_TOGGLES DELAY_SECONDS Hdelay h)
    as (p1 & clean & ending & response & closing & result & tail
        & Hloop & _ & _ & _ & _ & _ & Hreport & Hall).
  rewrite Hrun in Hall. injection Hall as <- ->.
  assert (Hp1 : explained p1).
  { assert (Hinit : explained (mkProgress false [])) by (intros Hf; discriminate Hf).
    refine (toggle_cycles_keeps explained _ _ _ _ _ _ _ Hinit Hloop).
    intros. apply explained_after_command. assumption. }
  pose proof (explained_after_finalize p1 response Hp1) as Hp2.
  destruct (had_failure (fst (after_finalize p1 response))) eqn:Hflag.
  - rewrite (report_failed w s NUM_TOGGLES _ _ Hflag) in Hreport.
    injection Hreport as <-.
    exists (((clean ++ ending)
             ++ EvPrint PFinalizing :: closing ++ snd (after_finalize p1 response))
            ++ [EvPrint PAutomationFailed]),
      (error_details (fst (after_finalize p1 response))).
    split; [|apply Hp2; exact Hflag].
    cbn [app]. repeat (rewrite <- app_assoc; cbn [app]). reflexivity.
  - destruct (report_succeeded w s NUM_TOGGLES _
                ((h ++ clean ++ ending)
                 ++ EvPrint PFinalizing :: closing ++ snd (after_finalize p1 response)) Hflag)
      as (count & wt & _ & _ & _ & Hrep).
    rewrite Hrep in Hreport. discriminate.
Qed.

End RunInvariants.

Lemma negative_delay_aborts_run_witness :
  -1 < 0 /\ 1 <= 1
  /\ fst (toggle_run (scripted_world [Resp (plain 200)] (PyList []) [])
                     nobody 18713274 1 (-1) []) = Raise ValueError.
Proof.
  split; [lia|]. split; [lia|].
  exact (f_equal fst
           (proj1 (negative_delay_aborts_run
                     (scripted_world [Resp (plain 200)] (PyList []) [])
                     nobody 18713274 1 (-1) [] (Some (plain 200)) _
                     ltac:(lia) ltac:(lia) eq_refl eq_refl))).
Defined.

Lemma failure_report_has_details_witness :
  let run := toggle_run (scripted_world [Resp (plain 404); Resp (plain 200)] (PyList []) [])
                        nobody 18713274 1 1 [] in
  0 <= 1
  /\ exists earlier details,
       snd run = earlier ++ [EvTelegram (NFailed details)] /\ details <> [].
Proof.
  intros run. split; [lia|].
  exact (failure_report_has_details
           (scripted_world [Resp (plain 404); Resp (plain 200)] (PyList []) [])
           nobody 18713274 1 1 [] (snd run) ltac:(lia) eq_refl).
Defined.

(** ** A run in which every request is answered 200 *)

(** The POSTs of a trace. *)
Definition posts (t : trace) : list request :=
  filter (fun q => match req_method q with POST => true | GET => false end) (requests t).

Lemma posts_app t1 t2 : posts (t1 ++ t2) = posts t1 ++ posts t2.
Proof. unfold posts, requests. rewrite exchanges_app, map_app, filter_app. reflexivity. Qed.

Lemma posts_cons_http q o t :
  posts (EvHttp q o :: t)
  = match req_method q with POST => q :: posts t | GET => posts t end.
Proof. unfold posts, requests. cbn. destruct (req_method q); reflexivity. Qed.

Lemma quiet_posts_sleeps t : Forall quiet t -> posts t = [] /\ sleeps t = [].
Proof.
  induction 1 as [|e t He _ [IH1 IH2]]; [split; reflexivity|].
  destruct e as [q o|x|line|msg|content]; try contradiction; split; assumption.
Qed.

Lemma wallet_posts_sleeps t : Forall wallet_event t -> posts t = [] /\ sleeps t = [].
Proof.
  induction 1 as [|e t He _ [IH1 IH2]]; [split; reflexivity|].
  destruct e as [q o|x|line|msg|content]; try contradiction; try (split; assumption).
  cbn in He. rewrite posts_cons_http, He. split; assumption.
Qed.

Section AllOk.

Variable w : world.
Variable s : session.
Variables STRATEGY_ID NUM_TOGGLES DELAY_SECONDS : Z.

Hypothesis always_200 : forall h q, exists r, transport w h q = Resp r /\ status_code r = 200.
Hypothesis delay_nonneg : 0 <= DELAY_SECONDS.

Lemma toggle_answered status h :
  exists r,
    toggle_strategy w s (PyInt STRATEGY_ID) status 3 3 h
    = (Ret (Some r), [EvHttp (toggle_request s (PyInt STRATEGY_ID) status) (Resp r)])
    /\ succeeded (Some r) = true.
Proof.
  destruct (always_200 h (toggle_request s (PyInt STRATEGY_ID) status)) as (r & Hout & Hcode).
  exists r. split.
  - unfold toggle_strategy. change (Z.to_nat 3) with 3%nat.
    rewrite toggle_attempts_S, Hout, Hcode. reflexivity.
  - apply succeeded_iff. eauto.
Qed.

(** One command of the loop: one POST, no sleep, no break. *)
Lemma command_answered label status i p h :
  exists p' t,
    command w s STRATEGY_ID label status i NUM_TOGGLES p h = (Ret (p', false), t)
    /\ had_failure p' = had_failure p
    /\ posts t = [toggle_request s (PyInt STRATEGY_ID) status]
    /\ sleeps t = [].
Proof.
  destruct (toggle_answered status h) as (r & Hrun & Hok).
  pose proof (command_after w s STRATEGY_ID label status i NUM_TOGGLES p h _ _ Hrun) as Hc.
  destruct (after_command_cases label i NUM_TOGGLES p (Some r))
    as [(Hstop & _ & Hflag & _ & Hquiet)|(_ & Hfail & _)]; [|rewrite Hok in Hfail; discriminate].
  destruct (after_command label i NUM_TOGGLES p (Some r)) as [[p' stop] after].
  cbn [fst snd] in *. subst stop.
  exists p', ([EvHttp (toggle_request s (PyInt STRATEGY_ID) status) (Resp r)] ++ after).
  destruct (quiet_posts_sleeps after Hquiet) as [Hposts Hsleeps].
  split; [exact Hc|]. split; [exact Hflag|].
  rewrite posts_app, sleeps_app, Hposts, Hsleeps. split; reflexivity.
Qed.

Lemma cycles_answered left : forall i p h,
  Z.of_nat left + i = NUM_TOGGLES ->
  exists p' t,
    toggle_cycles w s STRATEGY_ID NUM_TOGGLES DELAY_SECONDS left i p h = (Ret p', t)
    /\ had_failure p' = had_failure p
    /\ posts t = map (toggle_request s (PyInt STRATEGY_ID)) (cycle_commands left)
    /\ sleeps t = repeat DELAY_SECONDS (2 * left - 1).
Proof.
  induction left as [|left IH]; intros i p h Hcount.
  - exists p, []. repeat split.
  - set (e0 := EvPrint (PSendingStop (i + 1) NUM_TOGGLES)).
    destruct (command_answered "STOP" "Paused" i p (h ++ [e0]))
      as (p1 & t1 & Hc1 & Hf1 & Hp1 & Hs1).
    set (h1 := (h ++ [e0]) ++ t1).
    set (e1 := EvPrint PSendingStart).
    destruct (command_answered "START" "Start" i p1 ((h1 ++ [EvSleep DELAY_SECONDS]) ++ [e1]))
      as (p2 & t2 & Hc2 & Hf2 & Hp2 & Hs2).
    set (h2 := ((h1 ++ [EvSleep DELAY_SECONDS]) ++ [e1]) ++ t2).
    set (pause := if i <? NUM_TOGGLES - 1 then [EvSleep DELAY_SECONDS] else []).
    assert (Hpause : (if i <? NUM_TOGGLES - 1 then sleep DELAY_SECONDS else ret tt) h2
                     = (Ret tt, pause)).
    { subst pause. destruct (i <? NUM_TOGGLES - 1); [|reflexivity].
      unfold sleep. destruct (DELAY_SECONDS <? 0) eqn:Hneg; [|reflexivity].
      apply Z.ltb_lt in Hneg. lia. }
    destruct (IH (i + 1) p2 (h2 ++ pause) ltac:(lia)) as (p' & t & Hrest & Hf & Hp & Hs).
    exists p', ([e0] ++ t1 ++ [EvSleep DELAY_SECONDS] ++ [e1] ++ t2 ++ pause ++ t).
    split; [|split; [congruence|split]].
    + cbn [toggle_cycles]. fold e0 e1.
      eapply bind_Ret; [reflexivity|].
      eapply bind_Ret; [exact Hc1|]. cbv beta iota. fold h1.
      eapply bind_Ret.
      { unfold sleep. destruct (DELAY_SECONDS <? 0) eqn:Hneg; [|reflexivity].
        apply Z.ltb_lt in Hneg. lia. }
      eapply bind_Ret; [reflexivity|].
      eapply bind_Ret; [exact Hc2|]. cbv beta iota. fold h2.
      eapply bind_Ret; [exact Hpause | exact Hrest].
    + rewrite !posts_app, Hp1, Hp2, Hp.
      assert (Hpp : posts pause = []) by (subst pause; destruct (i <? NUM_TOGGLES - 1); reflexivity).
      rewrite Hpp. reflexivity.
    + rewrite !sleeps_app, Hs1, Hs2, Hs. subst pause.
      destruct left as [|k].
      * assert (Hlast : (i <? NUM_TOGGLES - 1) = false) by (apply Z.ltb_ge; lia).
        rewrite Hlast. reflexivity.
      * assert (Hmore : (i <? NUM_TOGGLES - 1) = true) by (apply Z.ltb_lt; lia).
        rewrite Hmore. cbn [sleeps flat_map app].
        replace (2 * S (S k) - 1)%nat with (S (S (2 * S k - 1))) by lia.
        reflexivity.
Qed.

End AllOk.

(** X12. When the service answers every request with status 200, a run of
    [n] cycles (delay [>= 0]) returns normally after exactly [2n + 1]
    commands, in the order Paused, Start, ..., Paused, Start, Paused, each
    sent once, and it sleeps the delay [2n - 1] times: after every command
    of the loop but the last. *)
Theorem all_answered_run w s STRATEGY_ID n DELAY_SECONDS h :
  (forall h' q, exists r, transport w h' q = Resp r /\ status_code r = 200) ->
  0 <= DELAY_SECONDS ->
  fst (toggle_run w s STRATEGY_ID (Z.of_nat n) DELAY_SECONDS h) = Ret tt
  /\ posts (snd (toggle_run w s STRATEGY_ID (Z.of_nat n) DELAY_SECONDS h))
     = map (toggle_request s (PyInt STRATEGY_ID)) (cycle_commands n ++ ["Paused"])
  /\ sleeps (snd (toggle_run w s STRATEGY_ID (Z.of_nat n) DELAY_SECONDS h))
     = repeat DELAY_SECONDS (2 * n - 1).
Proof.
  intros Hall Hdelay.
  destruct (cycles_answered w s STRATEGY_ID (Z.of_nat n) DELAY_SECONDS Hall Hdelay
              n 0 (mkProgress false []) h ltac:(lia))
    as (p1 & t1 & Hloop & Hf1 & Hp1 & Hs1).
  destruct (toggle_answered w s STRATEGY_ID Hall "Paused" ((h ++ t1) ++ [EvPrint PFinalizing]))
    as (r & Hclose & Hok).
  pose proof (finalize_after w s STRATEGY_ID p1 _ _ _ Hclose) as Hfin.
  destruct (after_finalize_cases p1 (Some r)) as [Hfin_ev Hfin_flag].
  rewrite Hok, Hf1 in Hfin_flag. cbn in Hfin_flag.
  destruct (report_succeeded w s (Z.of_nat n) (fst (after_finalize p1 (Some r)))
              ((h ++ t1) ++ EvPrint PFinalizing
                         :: [EvHttp (toggle_request s (PyInt STRATEGY_ID) "Paused") (Resp r)]
                            ++ snd (after_finalize p1 (Some r))) Hfin_flag)
    as (count & wt & _ & Hwallet & _ & Hrep).
  assert (Hrun : toggle_run w s STRATEGY_ID (Z.of_nat n) DELAY_SECONDS h
                 = (Ret tt,
                    t1 ++ (EvPrint PFinalizing
                           :: [EvHttp (toggle_request s (PyInt STRATEGY_ID) "Paused") (Resp r)]
                              ++ snd (after_finalize p1 (Some r)))
                       ++ EvPrint (PAutomationCompleted (Z.of_nat n)) :: EvPrint PFetchingCount
                          :: wt ++ [count_line count;
                                    EvTelegram (NSuccess (Z.of_nat n) count)])).
  { unfold toggle_run. rewrite Nat2Z.id.
    eapply bind_Ret; [exact Hloop|].
    eapply bind_Ret; [exact Hfin | exact Hrep]. }
  rewrite Hrun. cbn [fst snd]. split; [reflexivity|].
  destruct (wallet_posts_sleeps wt Hwallet) as [Hwp Hws].
  assert (Hafter : posts (snd (after_finalize p1 (Some r))) = []
                   /\ sleeps (snd (after_finalize p1 (Some r))) = []).
  { unfold after_finalize. rewrite Hok.
    destruct r as [code body [data|]]; split; reflexivity. }
  destruct Hafter as [Hap Has].
  split.
  - rewrite posts_app, Hp1, map_app. f_equal.
    change (EvPrint PFinalizing :: ?l) with ([EvPrint PFinalizing] ++ l).
    rewrite !posts_app, Hap.
    change (EvPrint (PAutomationCompleted (Z.of_nat n)) :: EvPrint PFetchingCount :: ?l)
      with ([EvPrint (PAutomationCompleted (Z.of_nat n)); EvPrint PFetchingCount] ++ l).
    rewrite !posts_app, Hwp. destruct count; reflexivity.
  - rewrite sleeps_app, Hs1.
    change (EvPrint PFinalizing :: ?l) with ([EvPrint PFinalizing] ++ l).
    rewrite !sleeps_app, Has.
    change (EvPrint (PAutomationCompleted (Z.of_nat n)) :: EvPrint PFetchingCount :: ?l)
      with ([EvPrint (PAutomationCompleted (Z.of_nat n)); EvPrint PFetchingCount] ++ l).
    rewrite !sleeps_app, Hws. destruct count; cbn; rewrite app_nil_r; reflexivity.
Qed.

Lemma all_answered_run_witness :
  let w := mkWorld (fun _ _ => Resp (plain 200)) None None (fun _ => None) (fun _ => None)
                   (fun _ => Some []) (fun _ _ => None) (fun _ => None) (fun _ => None)
                   id_keys status_keys in
  (forall h' q, exists r, transport w h' q = Resp r /\ status_code r = 200)
  /\ 0 <= 1
  /\ fst (toggle_run w nobody 18713274 (Z.of_nat 2) 1 []) = Ret tt.
Proof.
  intros w.
  assert (Hall : forall h' q, exists r, transport w h' q = Resp r /\ status_code r = 200).
  { intros h' q. exists (plain 200). split; reflexivity. }
  split; [exact Hall|]. split; [lia|].
  exact (proj1 (all_answered_run w nobody 18713274 2 1 [] Hall ltac:(lia))).
Defined.

(** ** More on [load_session] *)

(** The events that come before the validation probe: nothing when the
    cookie file exists, the writing of the file and a line when it is
    restored from the environment. *)
Definition restore_events (w : world) : trace :=
  match cookies_file w, blob_content w with
  | None, Some content => [EvWriteFile content; EvPrint PCookiesRestored]
  | _, _ => []
  end.

Lemma session_from_file_probe w content h jar :
  jar_of_content w content = Some jar ->
  session_from_file w content h
  = (Ret (fst (after_probe (mkSession jar)
                           (transport w h (validation_request (mkSession jar))))),
     EvHttp (validation_request (mkSession jar))
            (transport w h (validation_request (mkSession jar)))
     :: snd (after_probe (mkSession jar)
                         (transport w h (validation_request (mkSession jar))))).
Proof.
  unfold jar_of_content, session_from_file. intros Hsome.
  destruct (pickle_load w content) as [obj|]; [|discriminate].
  unfold bind at 1. cbn [ret]. unfold bind at 1.
  pose proof (iterate_items obj (h ++ [])) as Hit.
  destruct (items_of obj) as [items|]; [|discriminate].
  rewrite Hit. unfold bind at 1.
  pose proof (set_cookies_records items [] ((h ++ []) ++ [])) as Hset.
  rewrite Hsome in Hset. cbn [app] in Hset. rewrite Hset.
  unfold bind at 1, try_except, bind at 1, session_get, send.
  fold (validation_request (mkSession jar)).
  rewrite !app_nil_r.
  destruct (transport w h (validation_request (mkSession jar))) as [|r]; [reflexivity|].
  cbn -[Z.eqb]. destruct (status_code r =? 200); reflexivity.
Qed.

(** X13. The converse of the validation rule, for the records the jar of
    the library keeps as they are (name, value and domain are strs, the
    value is not written between double quotes, no name comes twice):
    whenever the blob decodes to such records and the probe sent with them
    is answered 200, [load_session] returns the session holding exactly
    these cookies, and the probe is its only request. *)
Theorem load_session_validated w h jar r :
  decoded_jar w = Some jar ->
  plain_jar jar ->
  transport w (h ++ restore_events w) (validation_request (mkSession jar)) = Resp r ->
  status_code r = 200 ->
  load_session w h
  = (Ret (Some (mkSession jar)),
     restore_events w ++ [EvHttp (validation_request (mkSession jar)) (Resp r)]).
Proof.
  unfold decoded_jar, restore_events, blob_content, load_session.
  destruct (cookies_file w) as [content|].
  - intros Hjar _ Hout Hcode. rewrite app_nil_r in Hout.
    rewrite (session_from_file_probe w content h jar Hjar), Hout.
    cbn -[Z.eqb]. rewrite Hcode. reflexivity.
  - destruct (env_cookies_b64 w) as [encoded|]; [|discriminate].
    destruct (String.eqb encoded ""); [discriminate|].
    destruct (b64decode w encoded) as [content|]; [|discriminate].
    intros Hjar _ Hout Hcode.
    unfold bind, print, emit.
    rewrite <- app_assoc. cbn [app].
    rewrite (session_from_file_probe w content _ jar Hjar), Hout.
    cbn -[Z.eqb]. rewrite Hcode. reflexivity.
Qed.

Lemma load_session_validated_witness :
  let record := PyDict [("name", PyStr "XSRF-TOKEN"); ("value", PyStr "abc");
                        ("domain", PyStr ".tradetron.tech")] in
  let jar := [mkCookie (PyStr "XSRF-TOKEN") (PyStr "abc") (Some (PyStr ".tradetron.tech"))] in
  let w := scripted_world [Resp (plain 200)] (PyList [record]) [] in
  plain_jar jar /\ fst (load_session w []) = Ret (Some (mkSession jar)).
Proof.
  intros record jar w.
  assert (Hplain : plain_jar jar).
  { split; [repeat constructor|]. constructor; [intros [] | constructor]. }
  split; [exact Hplain|].
  exact (f_equal fst
           (load_session_validated w [] jar (plain 200) eq_refl Hplain eq_refl eq_refl)).
Defined.

(** ** The Ramki wallet *)

(** X14. The lookup of the Ramki wallet is the first half of that of the
    Gopi wallet.  For a session whose jar holds each token name at most once
    (otherwise [cookies.get] raises at line 131, before the [try]): it
    never raises and sends the one GET of the wallet endpoint; when it finds
    a count, the Gopi lookup returns the same count with the same events;
    when it finds none it stops there, where the Gopi lookup goes on to one
    GET of the dashboard page. *)
Theorem ramki_lookup_is_first_half w s h :
  unambiguous (cookies s) ->
  exists count t,
    Ramki.fetch_wallet_running_count w s h = (Ret count, t)
    /\ requests t = [validation_request s]
    /\ match count with
       | Some n => fetch_wallet_running_count w s h = (Ret (Some n), t)
       | None =>
           exists found t2,
             fetch_wallet_running_count w s h = (Ret found, t ++ t2)
             /\ requests t2 = [dashboard_page_request s]
       end.
Proof.
  intros _.
  unfold Ramki.fetch_wallet_running_count, fetch_wallet_running_count, session_get.
  fold (validation_request s). fold (dashboard_page_request s).
  match goal with |- context [try_except (bind (send w ?q) ?k) ?hd] =>
    destruct (send_then_silent w q k h) as (x1 & Hx1 & Hnoexit1)
  end.
  { intros r. destruct (status_code r =? 200); [|apply silent_ret].
    apply silent_bind; [destruct (json r); [apply silent_ret | apply silent_raise]|].
    intros data. apply silent_bind; [apply silent_get_or_empty|].
    intros inner. apply silent_bind; [apply silent_get_or_empty|].
    intros balances. destruct balances; try apply silent_ret.
    destruct (dict_get entries "running"); [|apply silent_ret].
    apply silent_bind; [apply silent_py_int | intros n; apply silent_ret]. }
  destruct (try_except_print _ PWalletApiFailed _ _ _ Hx1 Hnoexit1) as (first & Hfirst).
  set (t1 := [EvHttp _ _] ++ _) in Hfirst.
  assert (Hreq1 : requests t1 = [validation_request s]).
  { subst t1. destruct x1; reflexivity. }
  destruct first as [n|].
  - exists (Some n), (t1 ++ []). split; [|split].
    + eapply bind_Ret; [exact Hfirst | reflexivity].
    + rewrite app_nil_r. exact Hreq1.
    + eapply bind_Ret; [exact Hfirst | reflexivity].
  - exists None, (t1 ++ []). split; [|split].
    + eapply bind_Ret; [exact Hfirst | reflexivity].
    + rewrite app_nil_r. exact Hreq1.
    + match goal with
      |- context [try_except (bind (send w ?q) ?k)
                    (fun _ => bind (print PHtmlParsingFailed) (fun _ => ret None))] =>
        destruct (send_then_silent w q k (h ++ t1)) as (x2 & Hx2 & Hnoexit2)
      end.
      { intros r. destruct (status_code r =? 200); [|apply silent_ret].
        apply silent_scan_patterns. }
      destruct (try_except_print _ PHtmlParsingFailed _ _ _ Hx2 Hnoexit2)
        as (second & Hsecond).
      set (t2 := [EvHttp _ _] ++ _) in Hsecond.
      assert (Hreq2 : requests t2 = [dashboard_page_request s]).
      { subst t2. destruct x2; reflexivity. }
      exists second, (t2 ++ []). split.
      * rewrite app_nil_r. eapply bind_Ret; [exact Hfirst|].
        eapply bind_Ret; [exact Hsecond|]. destruct second; reflexivity.
      * rewrite app_nil_r. exact Hreq2.
Qed.

(** The wallet endpoint answers with a count: both lookups return it. *)
Lemma ramki_lookup_is_first_half_witness :
  let answer := mkResponse 200 "{...}"
                  (Some (PyDict [("data", PyDict [("balances",
                                   PyDict [("running", PyInt 3)])])])) in
  let w := scripted_world [Resp answer] (PyList []) [] in
  unambiguous (cookies nobody)
  /\ exists count t, Ramki.fetch_wallet_running_count w nobody [] = (Ret count, t).
Proof.
  intros answer w.
  assert (Hjar : unambiguous (cookies nobody)) by (split; cbn; lia).
  split; [exact Hjar|].
  destruct (ramki_lookup_is_first_half w nobody [] Hjar) as (count & t & Hrun & _).
  exists count, t. exact Hrun.
Defined.

(** X15. [load_session] of the Ramki wallet works in memory and from the
    environment only.  Without the environment variable it returns [None]
    after one printed line, also when a cookie file exists; it never writes
    a file; and it yields a session only when the variable decodes to a
    blob that unpickles to cookie records, which fill the jar, and the one
    probe after the confirmation line is answered 200. *)
Theorem ramki_load_session_in_memory w h loaded t :
  Ramki.load_session w h = (loaded, t) ->
  (env_cookies_b64 w = None -> loaded = Ret None /\ t = [EvPrint PNoCookies])
  /\ Forall (fun e => forall content, e <> EvWriteFile content) t
  /\ (forall s, loaded = Ret (Some s) ->
      exists encoded content r,
        env_cookies_b64 w = Some encoded
        /\ b64decode w encoded = Some content
        /\ jar_of_content w content = Some (cookies s)
        /\ t = [EvPrint PCookiesRestored; EvHttp (validation_request s) (Resp r)]
        /\ status_code r = 200).
Proof.
  unfold Ramki.load_session. intros Hload.
  destruct (env_cookies_b64 w) as [encoded|].
  2:{ injection Hload as <- <-. split; [auto|]. split; [repeat constructor; discriminate|].
      discriminate. }
  split; [discriminate|].
  destruct (String.eqb encoded "").
  { injection Hload as <- <-. split; [repeat constructor; discriminate | discriminate]. }
  destruct (b64decode w encoded) as [content|] eqn:Hdecode.
  2:{ injection Hload as <- <-. split; [repeat constructor; discriminate | discriminate]. }
  unfold bind, print, emit in Hload.
  destruct (jar_of_content w content) as [jar|] eqn:Hjar.
  - destruct (session_from_file_decoded w content (h ++ [EvPrint PCookiesRestored]) jar Hjar)
      as [o Ho].
    rewrite Ho in Hload. injection Hload as <- <-. split.
    + constructor; [discriminate|]. constructor; [discriminate|].
      destruct o as [|r]; cbn -[Z.eqb]; [repeat constructor; discriminate|].
      destruct (status_code r =? 200); repeat constructor; discriminate.
    + intros s Hs. destruct o as [|r]; [discriminate|].
      cbn -[Z.eqb] in Hs |- *. destruct (status_code r =? 200) eqn:Hcode; [|discriminate].
      cbn in Hs. injection Hs as <-.
      exists encoded, content, r.
      split; [reflexivity|]. split; [exact Hdecode|]. split; [exact Hjar|].
      split; [reflexivity | apply Z.eqb_eq; exact Hcode].
  - destruct (session_from_file_undecoded w content (h ++ [EvPrint PCookiesRestored]) Hjar)
      as [e He].
    rewrite He in Hload. injection Hload as <- <-.
    split; [repeat constructor; discriminate | discriminate].
Qed.

(** A cookie file on disk and no variable in the environment. *)
Lemma ramki_load_session_in_memory_witness :
  let w := scripted_world [Resp (plain 200)] (PyList []) [] in
  cookies_file w = Some "cookies"
  /\ Ramki.load_session w [] = (Ret None, [EvPrint PNoCookies]).
Proof.
  intros w. split; [reflexivity|].
  destruct (ramki_load_session_in_memory w [] _ _ eq_refl) as [Hnone _].
  destruct (Hnone eq_refl) as [Hres Htrace].
  apply injective_projections; [exact Hres | exact Htrace].
Defined.

(** ** [normalize_status] *)

Lemma lower_char_idempotent c : lower_char (lower_char c) = lower_char c.
Proof. destruct c as [[] [] [] [] [] [] [] []]; reflexivity. Qed.

Lemma lower_lowered s c :
  In c (list_ascii_of_string (lower s)) -> lower_char c = c.
Proof.
  induction s as [|x rest IH]; cbn [lower list_ascii_of_string]; [intros []|].
  intros [<-|Hin]; [apply lower_char_idempotent | exact (IH Hin)].
Qed.

Lemma remove_char_absent c s : ~ In c (list_ascii_of_string (remove_char c s)).
Proof.
  induction s as [|x rest IH]; cbn [remove_char]; [intros []|].
  destruct (Ascii.eqb x c) eqn:Hx; [exact IH|].
  cbn [list_ascii_of_string]. intros [->|Hin]; [|exact (IH Hin)].
  rewrite Ascii.eqb_refl in Hx. discriminate.
Qed.

Lemma remove_char_kept c s x :
  In x (list_ascii_of_string (remove_char c s)) -> In x (list_ascii_of_string s).
Proof.
  induction s as [|y rest IH]; cbn [remove_char]; [intros []|].
  destruct (Ascii.eqb y c); cbn [list_ascii_of_string In]; [auto|].
  intros [->|Hin]; auto.
Qed.

(** X16. Whatever the label, its normal form contains no space, no
    underscore, no hyphen and no capital letter: every character of it is
    its own lower case. *)
Theorem normalize_status_alphabet label c :
  In c (list_ascii_of_string (normalize_status label)) ->
  c <> " "%char /\ c <> "_"%char /\ c <> "-"%char /\ lower_char c = c.
Proof.
  unfold normalize_status. intros Hin.
  split; [|split; [|split]].
  - intros ->. apply remove_char_kept, remove_char_kept in Hin.
    exact (remove_char_absent _ _ Hin).
  - intros ->. apply remove_char_kept in Hin. exact (remove_char_absent _ _ Hin).
  - intros ->. exact (remove_char_absent _ _ Hin).
  - apply remove_char_kept, remove_char_kept, remove_char_kept in Hin.
    exact (lower_lowered _ _ Hin).
Qed.

Lemma normalize_status_alphabet_witness :
  normalize_status (PyStr "  Live-Auto RUNNING_now ") = "liveautorunningnow"
  /\ "l"%char <> " "%char.
Proof.
  split; [reflexivity|].
  exact (proj1 (normalize_status_alphabet (PyStr "  Live-Auto RUNNING_now ") "l"
                  (or_introl eq_refl))).
Defined.

(** ** The configuration part of [main] *)

Section ConfigurationFacts.

Variable w : world.
Variable getenv : string -> option string.

Lemma with_int_Settings text k a b c :
  with_int w text k = Settings a b c ->
  exists z, int_of_text w text = Some z /\ k z = Settings a b c.
Proof.
  unfold with_int. destruct (int_of_text w text) as [z|]; [eauto | discriminate].
Qed.

Lemma blank_false value :
  blank value = false -> exists v, value = Some v /\ v <> "" /\ Py.strip v <> "".
Proof.
  destruct value as [v|]; [|discriminate]. cbn [blank]. intros Hb.
  apply orb_false_iff in Hb. destruct Hb as [H1 H2].
  exists v. split; [reflexivity|].
  split; intros Heq; rewrite Heq in *; discriminate.
Qed.

(** What a completed configuration went through. *)
Lemma configure_Settings id n d :
  configure w getenv = Settings id n d ->
  (exists num, blank num = false
      /\ (num = getenv "NUM_TOGGLES_GOPI"
          \/ num = or_else (getenv "NUM_TOGGLES_GOPI") (getenv "NUM_TOGGLES")))
  /\ (exists z, int_of_text w
                  match or_else (getenv "STRATEGY_ID_GOPI") (Some "18713274") with
                  | Some v => v
                  | None => "18713274"
                  end = Some z)
  /\ (if blank (getenv "STRATEGY_ID_GOPI") then id = 18713274
      else int_of_text w match getenv "STRATEGY_ID_GOPI" with Some v => v | None => "" end
           = Some id)
  /\ int_of_text w (getenv_default getenv "NUM_TOGGLES_GOPI"
                      (getenv_default getenv "NUM_TOGGLES" "50")) = Some n
  /\ int_of_text w (getenv_default getenv "DELAY_SECONDS" "1") = Some d.
Proof.
  unfold configure. intros Hc.
  set (checked := if String.eqb _ "true" then _ else _) in Hc.
  assert (Hchecked : forall num, checked = inr num ->
            num = getenv "NUM_TOGGLES_GOPI"
            \/ num = or_else (getenv "NUM_TOGGLES_GOPI") (getenv "NUM_TOGGLES")).
  { subst checked. intros num.
    destruct (String.eqb _ "true").
    - destruct (first_blank getenv required_secrets); [discriminate|].
      intros Heq. injection Heq as <-. left. reflexivity.
    - intros Heq. injection Heq as <-. right. reflexivity. }
  destruct checked as [stop|num] eqn:Hck.
  { exfalso. subst checked. destruct (String.eqb _ "true"); [|discriminate].
    destruct (first_blank getenv required_secrets); [|discriminate].
    injection Hck as <-. discriminate. }
  apply with_int_Settings in Hc. destruct Hc as (z & Hz & Hc).
  destruct (blank num) eqn:Hblank; [discriminate|].
  apply with_int_Settings in Hc. destruct Hc as (_ & _ & Hc).
  assert (Hfinish : forall i,
            with_int w (getenv_default getenv "NUM_TOGGLES_GOPI"
                          (getenv_default getenv "NUM_TOGGLES" "50"))
              (fun NUM_TOGGLES =>
               with_int w (getenv_default getenv "DELAY_SECONDS" "1")
                 (fun DELAY_SECONDS => Settings i NUM_TOGGLES DELAY_SECONDS))
            = Settings id n d ->
            i = id
            /\ int_of_text w (getenv_default getenv "NUM_TOGGLES_GOPI"
                                (getenv_default getenv "NUM_TOGGLES" "50")) = Some n
            /\ int_of_text w (getenv_default getenv "DELAY_SECONDS" "1") = Some d).
  { intros i Hf. apply with_int_Settings in Hf. destruct Hf as (n' & Hn & Hf).
    apply with_int_Settings in Hf. destruct Hf as (d' & Hd & Hf).
    injection Hf as -> -> ->. auto. }
  split; [exists num; auto|]. split; [eauto|].
  destruct (blank (getenv "STRATEGY_ID_GOPI")).
  - destruct (Hfinish _ Hc) as (<- & Hn & Hd). auto.
  - apply with_int_Settings in Hc. destruct Hc as (i & Hi & Hc).
    destruct (Hfinish _ Hc) as (-> & Hn & Hd). auto.
Qed.

(** X17. A configuration that completes took its number of cycles from the
    environment: from [NUM_TOGGLES_GOPI] when that is set, and else from
    [NUM_TOGGLES]; the default of 50 written at line 424 is never used. *)
Theorem configured_count_from_environment id n d :
  configure w getenv = Settings id n d ->
  exists text,
    (getenv "NUM_TOGGLES_GOPI" = Some text
     \/ (getenv "NUM_TOGGLES_GOPI" = None /\ getenv "NUM_TOGGLES" = Some text))
    /\ int_of_text w text = Some n.
Proof.
  intros Hc. destruct (configure_Settings _ _ _ Hc) as ((num & Hblank & Hnum) & _ & _ & Hn & _).
  unfold getenv_default in Hn.
  destruct (getenv "NUM_TOGGLES_GOPI") as [g|] eqn:Hg.
  - exists g. auto.
  - destruct (blank_false _ Hblank) as (v & Hv & _).
    destruct Hnum as [Hnum|Hnum]; rewrite Hnum in Hv; [discriminate|].
    cbn [or_else] in Hv. rewrite Hv in Hn. exists v. auto.
Qed.

(** X18. The strategy id of a completed configuration: the default
    18713274 when [STRATEGY_ID_GOPI] is not set or empty.  When it is set
    and not empty, [int()] has accepted its text, at line 404 or 408
    already, also when the text is white space only, for which line 423
    then gives the default; otherwise the id is that integer.  So a text
    that [int()] refuses never leads to a completed configuration. *)
Theorem configured_strategy_id id n d :
  configure w getenv = Settings id n d ->
  (getenv "STRATEGY_ID_GOPI" = None \/ getenv "STRATEGY_ID_GOPI" = Some "" ->
   id = 18713274)
  /\ (forall v, getenv "STRATEGY_ID_GOPI" = Some v -> v <> "" ->
      exists z, int_of_text w v = Some z
                /\ (if String.eqb (Py.strip v) "" then id = 18713274 else id = z)).
Proof.
  intros Hc. destruct (configure_Settings _ _ _ Hc) as (_ & (z & Hz) & Hid & _).
  split.
  - intros [Hs|Hs]; rewrite Hs in Hid; exact Hid.
  - intros v Hv Hne. rewrite Hv in Hz, Hid. cbn [or_else blank] in Hz, Hid.
    destruct (String.eqb v "") eqn:Hempty.
    { apply String.eqb_eq in Hempty. contradiction. }
    cbn [orb] in Hid. exists z. split; [exact Hz|].
    destruct (String.eqb (Py.strip v) ""); [exact Hid|].
    rewrite Hz in Hid. injection Hid as ->. reflexivity.
Qed.

Lemma first_blank_found names :
  forall name, In name names -> blank (getenv name) = true ->
  exists first, first_blank getenv names = Some first
                /\ In first names /\ blank (getenv first) = true.
Proof.
  induction names as [|x rest IH]; intros name Hin Hb; [destruct Hin|].
  cbn [first_blank]. destruct (blank (getenv x)) eqn:Hx.
  - exists x. split; [reflexivity|]. split; [left; reflexivity | exact Hx].
  - destruct Hin as [->|Hin]; [rewrite Hx in Hb; discriminate|].
    destruct (IH name Hin Hb) as (first & Hf & Hfin & Hfb).
    exists first. split; [exact Hf|]. split; [right; exact Hfin | exact Hfb].
Qed.

(** X19. On GitHub Actions ([GITHUB_ACTIONS] is [true] in any letter case)
    a required secret that is not set, empty or white space only stops the
    configuration with the missing-secret error, whatever else the
    environment holds: no [int()] is reached, and the secret named is one of
    the four that is blank. *)
Theorem github_run_requires_secrets name :
  String.eqb (lower (getenv_default getenv "GITHUB_ACTIONS" "")) "true" = true ->
  In name required_secrets ->
  blank (getenv name) = true ->
  exists first,
    configure w getenv = MissingSecret first
    /\ In first required_secrets /\ blank (getenv first) = true.
Proof.
  intros Hgithub Hin Hb.
  destruct (first_blank_found required_secrets name Hin Hb) as (first & Hf & Hfin & Hfb).
  exists first. split; [|auto].
  unfold configure. rewrite Hgithub, Hf. reflexivity.
Qed.

End ConfigurationFacts.

(** A local environment that sets [NUM_TOGGLES] only, and the decimal reading
    of integers. *)
Definition local_environment (name : string) : option string :=
  if String.eqb name "NUM_TOGGLES" then Some "5" else None.

Definition github_environment (name : string) : option string :=
  if String.eqb name "GITHUB_ACTIONS" then Some "True"
  else if String.eqb name "NUM_TOGGLES_GOPI" then Some "5"
  else if String.eqb name "TELEGRAM_BOT_TOKEN" then Some "  "
  else None.

Definition decimal_world : world :=
  mkWorld (fun _ _ => ConnError) None None (fun _ => None) (fun _ => None)
          (fun _ => Some []) (fun _ _ => None)
          (fun s => option_map Z.of_int (NilZero.int_of_string s)) (fun _ => None)
          id_keys status_keys.

Lemma configured_count_from_environment_witness :
  configure decimal_world local_environment = Settings 18713274 5 1
  /\ exists text,
       (local_environment "NUM_TOGGLES_GOPI" = Some text
        \/ (local_environment "NUM_TOGGLES_GOPI" = None
            /\ local_environment "NUM_TOGGLES" = Some text))
       /\ int_of_text decimal_world text = Some 5.
Proof.
  split; [reflexivity|].
  exact (configured_count_from_environment decimal_world local_environment
           18713274 5 1 eq_refl).
Defined.

Lemma configured_strategy_id_witness :
  configure decimal_world local_environment = Settings 18713274 5 1
  /\ (local_environment "STRATEGY_ID_GOPI" = None
      \/ local_environment "STRATEGY_ID_GOPI" = Some "" -> 18713274 = 18713274).
Proof.
  split; [reflexivity|].
  exact (proj1 (configured_strategy_id decimal_world local_environment
                  18713274 5 1 eq_refl)).
Defined.

Lemma github_run_requires_secrets_witness :
  exists first,
    configure decimal_world github_environment = MissingSecret first
    /\ In first required_secrets /\ blank (github_environment first) = true.
Proof.
  apply (github_run_requires_secrets decimal_world github_environment "TELEGRAM_CHAT_ID").
  - reflexivity.
  - cbn. tauto.
  - reflexivity.
Defined.
